(** * A notebook session over an execution backend (jupyterAPI.py)

    Shallow embedding of the class [JupyterAPI]: the session object, the
    Python objects it shares (cell lists are mutable and aliased between
    [notebook.cells] and [original_cells]), the notebook files on disk and
    the execution backend, which is an external collaborator and is taken
    as an arbitrary scripted oracle. *)

From stdpp Require Import gmap strings list pretty sorting.
From Stdlib Require Import ZArith Lia Ascii.

Open Scope Z_scope.

(** ** Notebook data (nbformat v4) *)

(** A Python [str] is a [string], one character each; the literals of the
    source stand as the bytes of their UTF-8 text, and only ever get
    concatenated to other text, never measured or sliced.  A Python [int] is
    a [Z], and [pretty] prints it in decimal as [str] does. *)

(** An output record of a code cell; [data] is the MIME-keyed payload. *)
Inductive Output :=
| Stream (name text : string)
| ExecuteResult (data : gmap string string)
| DisplayData (data : gmap string string)
| ErrorOutput (ename evalue : string).

(** A cell. [outputs = None] stands for a cell object without an
    [outputs] attribute ([hasattr(cell, 'outputs')] is false), which is how
    nbformat builds markdown cells. *)
Record Cell := mkCell {
  cell_type : string;
  source : string;
  outputs : option (list Output);
  metadata : gmap string (gmap string string)
}.

Definition new_code_cell (code : string) : Cell :=
  mkCell "code" code (Some []) ∅.

Definition new_markdown_cell (code : string) : Cell :=
  mkCell "markdown" code None ∅.

Definition is_code (c : Cell) : bool := bool_decide (cell_type c = "code").

Definition set_outputs (o : option (list Output)) (c : Cell) : Cell :=
  mkCell (cell_type c) (source c) o (metadata c).

Definition set_source (src : string) (c : Cell) : Cell :=
  mkCell (cell_type c) src (outputs c) (metadata c).

Definition set_metadata (m : gmap string (gmap string string)) (c : Cell) : Cell :=
  mkCell (cell_type c) (source c) (outputs c) m.

(** ** Exceptions and results *)

Inductive Exn :=
| ValueError (msg : string)
| AttributeError (msg : string)
| CellExecutionError (msg : string)
| AssertionError (msg : string)
| OtherError (msg : string).

(** [str(e)] *)
Definition exn_str (e : Exn) : string :=
  match e with
  | ValueError m | AttributeError m | CellExecutionError m
  | AssertionError m | OtherError m => m
  end.

Inductive Result (A : Type) :=
| Return (a : A)
| Raise (e : Exn).
Arguments Return {A} a.
Arguments Raise {A} e.

(** ** The backend *)

(** What the session asks of the backend, in the order asked. *)
Inductive Request :=
| Shutdown                       (* client.km.shutdown_kernel() *)
| Warmup                         (* client.execute(cleanup_kc=False) on the emptied notebook *)
| ExecuteCell (cell_index : Z)   (* client.execute_cell(cell, cell_index) *)
| ExecuteAll.                    (* client.execute(self.notebook) *)

(** The backend's answer to one request: what it leaves in the executed
    cell (for [ExecuteCell]), what it leaves in the notebook's cells (for
    [ExecuteAll]), and the exception the call ends with, if any. *)
Record Reply := mkReply {
  on_cell : Cell → Cell;
  on_notebook : list Cell → list Cell;
  failure : option Exn
}.

Abbreviation loc := nat.

(** ** The session and its world *)

(** The fields of the [JupyterAPI] object, followed by the world it runs
    in.  A list object is an address into [heap]; [notebook] holds the
    address of the list that [self.notebook.cells] is bound to, so
    [self.notebook.cells = x] rebinds it and [self.notebook.cells.append]
    mutates the list in place, visibly through every alias. *)
Record Session := mkSession {
  python_env_path : option string;
  notebook : option loc;
  notebook_path : string;
  client : option nat;
  original_cells : option loc;
  heap : list (list Cell);
  disk : gmap string (list Cell);
  disk_error : string → option string;  (* paths that cannot be written, with str(e) *)
  written : list string;                (* paths written, oldest first *)
  kernel : nat → Reply;                 (* the reply to the n-th request *)
  requests : list Request               (* requests made, oldest first *)
}.

Definition with_notebook (v : option loc) (s : Session) : Session :=
  mkSession (python_env_path s) v (notebook_path s) (client s)
    (original_cells s) (heap s) (disk s) (disk_error s) (written s)
    (kernel s) (requests s).

Definition with_notebook_path (v : string) (s : Session) : Session :=
  mkSession (python_env_path s) (notebook s) v (client s)
    (original_cells s) (heap s) (disk s) (disk_error s) (written s)
    (kernel s) (requests s).

Definition with_client (v : option nat) (s : Session) : Session :=
  mkSession (python_env_path s) (notebook s) (notebook_path s) v
    (original_cells s) (heap s) (disk s) (disk_error s) (written s)
    (kernel s) (requests s).

Definition with_original_cells (v : option loc) (s : Session) : Session :=
  mkSession (python_env_path s) (notebook s) (notebook_path s) (client s)
    v (heap s) (disk s) (disk_error s) (written s)
    (kernel s) (requests s).

Definition with_heap (v : list (list Cell)) (s : Session) : Session :=
  mkSession (python_env_path s) (notebook s) (notebook_path s) (client s)
    (original_cells s) v (disk s) (disk_error s) (written s)
    (kernel s) (requests s).

Definition with_disk (v : gmap string (list Cell)) (s : Session) : Session :=
  mkSession (python_env_path s) (notebook s) (notebook_path s) (client s)
    (original_cells s) (heap s) v (disk_error s) (written s)
    (kernel s) (requests s).

Definition with_written (v : list string) (s : Session) : Session :=
  mkSession (python_env_path s) (notebook s) (notebook_path s) (client s)
    (original_cells s) (heap s) (disk s) (disk_error s) v
    (kernel s) (requests s).

Definition with_requests (v : list Request) (s : Session) : Session :=
  mkSession (python_env_path s) (notebook s) (notebook_path s) (client s)
    (original_cells s) (heap s) (disk s) (disk_error s) (written s)
    (kernel s) v.

(** The session over another backend: [v] answers from here on. *)
Definition with_kernel (v : nat → Reply) (s : Session) : Session :=
  mkSession (python_env_path s) (notebook s) (notebook_path s) (client s)
    (original_cells s) (heap s) (disk s) (disk_error s) (written s)
    v (requests s).

(** The contents of the list object at [l]. *)
Definition deref (s : Session) (l : loc) : list Cell :=
  default [] (heap s !! l).

(** [self.notebook.cells], as a value. *)
Definition cells (s : Session) : list Cell :=
  from_option (deref s) [] (notebook s).

(** Every list the session refers to is allocated. *)
Definition allocated (s : Session) : Prop :=
  (∀ l, notebook s = Some l → (l < length (heap s))%nat) ∧
  (∀ l, original_cells s = Some l → (l < length (heap s))%nat).

(** The session's two references name the same list object. *)
Definition aliased (s : Session) : Prop :=
  original_cells s = notebook s.

(** ** Computations: state and exceptions *)

Definition M (A : Type) : Type := Session → Result A * Session.

Definition ret {A} (a : A) : M A := λ s, (Return a, s).

Definition bind {A B} (m : M A) (k : A → M B) : M B :=
  λ s, match m s with
       | (Return a, s') => k a s'
       | (Raise e, s') => (Raise e, s')
       end.

Definition raise {A} (e : Exn) : M A := λ s, (Raise e, s).

(** [try: m  except ...: h e]; a handler re-raises what its [except]
    clauses do not name. *)
Definition try_except {A} (m : M A) (h : Exn → M A) : M A :=
  λ s, match m s with
       | (Return a, s') => (Return a, s')
       | (Raise e, s') => h e s'
       end.

Definition get : M Session := λ s, (Return s, s).
Definition modify (f : Session → Session) : M unit := λ s, (Return tt, f s).

#[global] Instance M_ret : MRet M := @ret.
#[global] Instance M_bind : MBind M := λ A B k m, bind m k.

(** [raise e] when the backend's call ended with [e]. *)
Definition raise_if (f : option Exn) : M unit :=
  match f with
  | Some e => raise e
  | None => mret tt
  end.

(** One call into the backend: it is logged and answered by the kernel's
    reply for that position of the log. *)
Definition ask (r : Request) : M Reply :=
  λ s, (Return (kernel s (length (requests s))),
        with_requests (requests s ++ [r]) s).

(** A new list object. *)
Definition alloc (v : list Cell) : M loc :=
  λ s, (Return (length (heap s)), with_heap (heap s ++ [v]) s).

(** In-place update of the list object at [l]. *)
Definition mutate (l : loc) (f : list Cell → list Cell) : M unit :=
  modify (λ s, with_heap (alter f l (heap s)) s).

(** [self.notebook.cells]; on [self.notebook is None] the attribute access
    raises. *)
Definition notebook_cells : M loc :=
  s ← get;
  match notebook s with
  | Some nb => mret nb
  | None => raise (AttributeError "'NoneType' object has no attribute 'cells'")
  end.

(** [client.execute_cell(cell, cell_index)], where [cell] is the object at
    position [p] of the list object [l]: the backend mutates that object,
    then returns or raises.  The backend is outside the repository and is
    an oracle here: what it makes of [cell_index] shows in its reply only.
    nbclient ends a run that completed by storing the cell at
    [cells[cell_index]] of the notebook; where [cell_index] is the position
    of [cell] in that list this changes nothing, and where it is past the
    end of the list it is the reply's [failure], an [IndexError].  A store
    at the position of another cell is not expressed. *)
Definition execute_cell (l : loc) (p : nat) (cell_index : Z) : M unit :=
  r ← ask (ExecuteCell cell_index);
  mutate l (alter (on_cell r) p);;
  raise_if (failure r).

(** [client.execute(self.notebook)]: the backend works on the list the
    notebook's [cells] is bound to. *)
Definition execute : M unit :=
  r ← ask ExecuteAll;
  s ← get;
  match notebook s with
  | Some nb => mutate nb (on_notebook r)
  | None => mret tt
  end;;
  raise_if (failure r).

(** ** Python sequences *)

Definition nl : string := String (Ascii.ascii_of_nat 10) EmptyString.

(** The position a Python slice bound denotes in a sequence of [n]
    elements: a bound below zero counts from the end, and both ways it is
    clipped to [0..n]. *)
Definition py_bound (n : nat) (i : Z) : nat :=
  Z.to_nat (if i <? 0 then Z.max 0 (Z.of_nat n + i) else Z.min i (Z.of_nat n)).

(** [t[a:b]], with [b = None] for [t[a:]]. *)
Definition py_slice (t : string) (a : Z) (b : option Z) : string :=
  let n := String.length t in
  let lo := py_bound n a in
  let hi := from_option (py_bound n) n b in
  String.substring lo (hi - lo) t.

(** [l.insert(index, x)]: never fails; the position is the clipped bound. *)
Definition py_insert {A} (index : Z) (x : A) (l : list A) : list A :=
  let p := py_bound (length l) index in
  take p l ++ x :: drop p l.

(** ** The operations of [JupyterAPI] *)

Definition start_kernel : M unit :=
  nb ← notebook_cells;
  s ← get;
  match original_cells s with
  | None => modify (with_original_cells (Some nb))
  | Some _ => mret tt
  end;;
  fresh ← alloc [];
  modify (with_notebook (Some fresh));;
  s ← get;
  match client s with
  | Some _ =>
      _ ← ask Shutdown;            (* try: ... except: pass *)
      modify (with_client None)
  | None => mret tt
  end;;
  s ← get;
  modify (with_client (Some (length (requests s))));;
  r ← ask Warmup;
  raise_if (failure r);;
  s ← get;
  modify (with_notebook (original_cells s)).

Definition save_notebook : M (option string) :=
  s ← get;
  match notebook s with
  | None => mret (Some "没有打开的笔记本或路径未指定")
  | Some nb =>
      match disk_error s (notebook_path s) with
      | Some e => mret (Some ("保存笔记本时出错: " +:+ e))
      | None =>
          modify (λ s, with_written (written s ++ [notebook_path s])
                         (with_disk (<[notebook_path s := deref s nb]> (disk s)) s));;
          mret None
      end
  end.

Definition text_of (o : Output) : string :=
  match o with
  | Stream _ text => text
  | ExecuteResult data | DisplayData data => default "" (data !! "text/plain")
  | ErrorOutput _ _ => ""
  end.

(** The loop [for output in cell.outputs: text_output += ...]. *)
Definition text_output (outs : list Output) : string :=
  foldl (λ acc o, acc +:+ text_of o) "" outs.

Definition out_of_range (cell_index : Z) (cs : list Cell) : bool :=
  (cell_index <? 0) || (Z.of_nat (length cs) <=? cell_index).

(** [self.notebook.cells[cell_index]] *)
Definition cell_at (cs : list Cell) (cell_index : Z) : M Cell :=
  match cs !! Z.to_nat cell_index with
  | Some c => mret c
  | None => raise (OtherError "list index out of range")
  end.

Definition get_cell_text_output
    (cell_index : Z) (start_index : Z) (length : option Z) : M string :=
  s ← get;
  match notebook s with
  | None => raise (ValueError "没有打开的笔记本")
  | Some nb =>
      let cs := deref s nb in
      if out_of_range cell_index cs
      then raise (ValueError ("单元格索引超出范围: " +:+ pretty cell_index))
      else
        cell ← cell_at cs cell_index;
        match is_code cell, outputs cell with
        | true, Some outs =>
              let text := text_output outs in
              let full_length := Z.of_nat (String.length text) in
              let start_index := if start_index <? 0 then 0 else start_index in
              let result :=
                if full_length <=? start_index then ""
                else match length with
                     | None => py_slice text start_index None
                     | Some n => py_slice text start_index (Some (start_index + n))
                     end in
              mret ("总长度: " +:+ pretty full_length +:+ nl +:+ result)
        | _, _ => mret ""
        end
  end.

(** The defaults [start_index=0, length=3000]. *)
Definition get_cell_text_output_default (cell_index : Z) : M string :=
  get_cell_text_output cell_index 0 (Some 3000).

Definition run_cell (cell_index : Z) : M string :=
  s ← get;
  match notebook s with
  | None => raise (ValueError "没有打开的笔记本")
  | Some nb =>
      let cs := deref s nb in
      if out_of_range cell_index cs
      then raise (ValueError ("单元格索引超出范围: " +:+ pretty cell_index))
      else
        cell ← cell_at cs cell_index;
        if negb (is_code cell)
        then raise (ValueError ("单元格不是代码类型: " +:+ pretty cell_index))
        else
          match client s with
          | None => start_kernel
          | Some _ => mret tt
          end;;
          try_except
            (execute_cell nb (Z.to_nat cell_index) cell_index;;
             _ ← save_notebook;
             get_cell_text_output_default cell_index)
            (λ e,
               match e with
               | CellExecutionError _ =>
                   mret ("单元格执行错误: " +:+ exn_str e)
               | AssertionError _ =>
                   start_kernel;;
                   try_except
                     (execute_cell nb (Z.to_nat cell_index) cell_index;;
                      _ ← save_notebook;
                      get_cell_text_output_default cell_index)
                     (λ e, mret ("重试执行单元格失败: " +:+ exn_str e))
               | _ => raise e
               end)
  end.

(** The dictionary [execute_cells_by_indices] returns. *)
Record BatchResult := mkBatchResult {
  success : bool;
  last_index : option Z;
  error : option string;
  warnings : list (Z * string);
  output : option string
}.

Definition batch_start : BatchResult := mkBatchResult true None None [] None.

(** The [stderr] stream records of a cell, paired with its index. *)
Definition stderr_warnings (idx : Z) (cell : Cell) : list (Z * string) :=
  match outputs cell with
  | Some outs =>
      omap (λ o, match o with
                 | Stream name text =>
                     if bool_decide (name = "stderr") then Some (idx, text) else None
                 | _ => None
                 end) outs
  | None => []
  end.

(** The loop [for idx in indices]; the result of one pass of its body says
    whether the loop goes on. *)
Fixpoint execute_loop (indices : list Z) (result : BatchResult)
    : M BatchResult :=
  match indices with
  | [] => mret result
  | idx :: rest =>
      '(result, go_on) ← try_except
        (l ← notebook_cells;
         s ← get;
         let cs := deref s l in
         if out_of_range idx cs
         then mret (mkBatchResult false (last_index result)
                      (Some ("单元格索引超出范围: " +:+ pretty idx))
                      (warnings result) (output result), false)
         else
           cell ← cell_at cs idx;
           if negb (is_code cell) then mret (result, true)
           else
             execute_cell l (Z.to_nat idx) idx;;
             s ← get;
             cell ← cell_at (deref s l) idx;
             mret (mkBatchResult (success result) (Some idx) (error result)
                     (warnings result ++ stderr_warnings idx cell)
                     (output result), true))
        (λ e, mret (mkBatchResult false (Some idx)
                      (Some ("执行单元格 " +:+ pretty idx +:+ " 时出错: " +:+ exn_str e))
                      (warnings result) (output result), false));
      if go_on : bool then execute_loop rest result else mret result
  end.

Definition execute_cells_by_indices (indices : list Z) : M BatchResult :=
  s ← get;
  match notebook s with
  | None => raise (ValueError "没有打开的笔记本")
  | Some nb =>
      match client s with
      | None => start_kernel
      | Some _ => mret tt
      end;;
      result ← execute_loop indices batch_start;
      _ ← save_notebook;
      match last_index result with
      | Some i =>
          out ← get_cell_text_output_default i;
          mret (mkBatchResult (success result) (last_index result)
                  (error result) (warnings result) (Some out))
      | None => mret result
      end
  end.

(** [nbformat.v4.new_code_cell] or [new_markdown_cell], by [cell_type]. *)
Definition new_cell (code cell_type : string) : option Cell :=
  if bool_decide (cell_type = "code") then Some (new_code_cell code)
  else if bool_decide (cell_type = "markdown") then Some (new_markdown_cell code)
  else None.

Definition insert_and_execute_cell
    (code cell_type : string) (index : option Z) : M Cell :=
  s ← get;
  match notebook s with
  | None => raise (ValueError "没有打开的笔记本")
  | Some _ =>
      match client s with
      | None => start_kernel
      | Some _ => mret tt
      end;;
      match new_cell code cell_type with
      | None => raise (ValueError ("不支持的单元格类型: " +:+ cell_type))
      | Some cell =>
          l ← notebook_cells;
          s ← get;
          (* the position [p] the new object takes in the list, and [cell_index] *)
          let n := length (deref s l) in
          '(p, cell_index) ←
            match index with
            | None => mutate l (λ cs, cs ++ [cell]);; mret (n, Z.of_nat n)
            | Some i => mutate l (py_insert i cell);; mret (py_bound n i, i)
            end;
          (if bool_decide (cell_type = "code") then
             try_except (execute_cell l p cell_index)
               (λ e,
                  match e with
                  | CellExecutionError _ => mret tt
                  | AssertionError _ =>
                      start_kernel;;
                      try_except (execute_cell l p cell_index) (λ _, mret tt)
                  | _ => raise e
                  end)
           else mret tt);;
          s ← get;
          modify (with_original_cells (notebook s));;
          _ ← save_notebook;
          s ← get;
          cell_at (deref s l) (Z.of_nat p)
      end
  end.

Definition insert_cell (code cell_type : string) (index : option Z) : M string :=
  s ← get;
  match notebook s with
  | None => mret "没有打开的笔记本"
  | Some l =>
      match new_cell code cell_type with
      | None => mret ("不支持的单元格类型: " +:+ cell_type)
      | Some cell =>
          let cs := deref s l in
          match index with
          | Some i =>
              if (i <? 0) || (Z.of_nat (length cs) <? i)
              then mret ("无效的索引位置: " +:+ pretty i)
              else
                mutate l (py_insert i cell);;
                s ← get;
                modify (with_original_cells (notebook s));;
                save_result ← save_notebook;
                match save_result with
                | Some msg => mret msg
                | None => mret (pretty i)
                end
          | None =>
              mutate l (λ cs, cs ++ [cell]);;
              s ← get;
              modify (with_original_cells (notebook s));;
              save_result ← save_notebook;
              match save_result with
              | Some msg => mret msg
              | None => mret (pretty (Z.of_nat (length (deref s l)) - 1))
              end
          end
      end
  end.

Definition run_all_cells : M (option string) :=
  s ← get;
  match notebook s with
  | None => mret (Some "没有打开的笔记本")
  | Some _ =>
      try_except
        (match client s with
         | None => start_kernel
         | Some _ => mret tt
         end;;
         execute;;
         save_notebook)
        (λ e,
           match e with
           | CellExecutionError _ =>
               mret (Some ("单元格执行错误: " +:+ exn_str e))
           | AssertionError _ =>
               try_except
                 (start_kernel;;
                  execute;;
                  save_notebook)
                 (λ e, mret (Some ("重试执行单元格失败: " +:+ exn_str e)))
           | _ => raise e
           end)
  end.

Definition edit_cell_content (cell_index : Z) (new_content : string)
    : M (option string) :=
  s ← get;
  match notebook s with
  | None => mret (Some "没有打开的笔记本")
  | Some l =>
      if out_of_range cell_index (deref s l)
      then mret (Some ("单元格索引超出范围: " +:+ pretty cell_index))
      else
        mutate l (alter (set_source new_content) (Z.to_nat cell_index));;
        save_notebook
  end.

Definition valid_types : list (option string) :=
  [Some "slide"; Some "subslide"; Some "fragment"; Some "skip"; Some "notes"; None].

(** [str(t)] of a slide type. *)
Definition slide_type_str (t : option string) : string := default "None" t.

(** [', '.join(parts)] *)
Fixpoint join (sep : string) (parts : list string) : string :=
  match parts with
  | [] => ""
  | [x] => x
  | x :: rest => x +:+ sep +:+ join sep rest
  end.

(** The change [set_slideshow_type] makes to a cell's metadata. *)
Definition slideshow_metadata (slide_type : option string)
    (md : gmap string (gmap string string)) : gmap string (gmap string string) :=
  match slide_type with
  | None => delete "slideshow" md
  | Some t => <["slideshow" := <["slide_type" := t]> (default ∅ (md !! "slideshow"))]> md
  end.

Definition set_slideshow_type (cell_index : Z) (slide_type : option string)
    : M (option string) :=
  s ← get;
  match notebook s with
  | None => mret (Some "没有打开的笔记本")
  | Some l =>
      if out_of_range cell_index (deref s l)
      then mret (Some ("单元格索引超出范围: " +:+ pretty cell_index))
      else if negb (bool_decide (slide_type ∈ valid_types))
      then mret (Some ("无效的幻灯片类型: " +:+ slide_type_str slide_type +:+
                       "，有效类型为: " +:+ join ", " (slide_type_str <$> valid_types)))
      else
        mutate l (alter (λ c, set_metadata (slideshow_metadata slide_type (metadata c)) c)
                    (Z.to_nat cell_index));;
        save_notebook
  end.

Definition delete_cell (cell_index : Z) : M (option string) :=
  s ← get;
  match notebook s with
  | None => mret (Some "没有打开的笔记本")
  | Some l =>
      if out_of_range cell_index (deref s l)
      then mret (Some ("单元格索引超出范围: " +:+ pretty cell_index))
      else
        mutate l (delete (Z.to_nat cell_index));;
        mret None
  end.

Definition open_notebook (path : string) : M unit :=
  s ← get;
  match notebook s with
  | Some _ =>
      if negb (bool_decide (notebook_path s = path))
      then _ ← save_notebook; mret tt
      else mret tt
  | None => mret tt
  end;;
  modify (with_notebook_path path);;
  s ← get;
  match disk s !! path with
  | Some doc =>
      l ← alloc doc;               (* nbformat.read *)
      modify (with_notebook (Some l));;
      modify (with_original_cells (Some l))
  | None =>
      l ← alloc [];                (* nbformat.v4.new_notebook() *)
      modify (with_notebook (Some l));;
      o ← alloc [];
      modify (with_original_cells (Some o));;
      _ ← save_notebook;
      mret tt
  end;;
  start_kernel.

(** The constructor [JupyterAPI(python_env_path, notebook_path, init_code,
    isnew)], run in the world of [s]. *)
Definition __init__ (python_env_path : option string) (notebook_path init_code : string)
    (isnew : bool) : M unit :=
  modify (λ s, mkSession python_env_path None notebook_path None None
                 (heap s) (disk s) (disk_error s) (written s) (kernel s) (requests s));;
  (if isnew
   then modify (λ s, with_disk (delete notebook_path (disk s)) s)
   else mret tt);;
  open_notebook notebook_path;;
  if negb (bool_decide (init_code = ""))
  then _ ← insert_and_execute_cell init_code "code" (Some 0); mret tt
  else mret tt.

(** ** What the text-output contract speaks of *)

(** The concatenation, in record order, of the text each output record
    carries. *)
Definition concat_text (outs : list Output) : string :=
  foldr (λ o rest, text_of o +:+ rest) "" outs.

(** The characters of [t] at the positions [offset, offset + limit), or
    from [offset] on when there is no limit. *)
Definition window (t : string) (offset : nat) (limit : option nat) : string :=
  match limit with
  | Some n => String.substring offset n t
  | None => String.substring offset (String.length t - offset) t
  end.

(** ** What a connection bring-up leaves *)

(** The requests [start_kernel] makes before the warm-up run. *)
Definition teardown (s : Session) : list Request :=
  match client s with
  | Some _ => [Shutdown]
  | None => []
  end.

(** The session after a [start_kernel] that completes, on a notebook whose
    cells were bound to the list [l]. *)
Definition restarted (s : Session) (l : loc) : Session :=
  let o := default l (original_cells s) in
  let asked := requests s ++ teardown s in
  mkSession (python_env_path s) (Some o) (notebook_path s)
    (Some (length asked)) (Some o) (heap s ++ [[]]) (disk s) (disk_error s)
    (written s) (kernel s) (asked ++ [Warmup]).

(** The session after a [start_kernel] whose warm-up run raised: the
    notebook is left bound to the new empty list. *)
Definition stranded (s : Session) (l : loc) : Session :=
  with_notebook (Some (length (heap s))) (restarted s l).

(** The requests that make sure a connection exists: a warm-up run when
    the session has no client. *)
Definition warm_up (s : Session) : list Request :=
  match client s with
  | Some _ => []
  | None => [Warmup]
  end.

(** Nothing was written between [s] and [s']. *)
Definition unwritten (s s' : Session) : Prop :=
  notebook_path s' = notebook_path s ∧ disk_error s' = disk_error s ∧
  disk s' = disk s ∧ written s' = written s.

(** The result of an operation that reports failures as data is the
    plain success, [return None]. *)
Definition succeeded (r : Result (option string)) : bool :=
  match r with
  | Return None => true
  | _ => false
  end.

(** [i] is an index into the list object at [l]. *)
Definition in_range (s : Session) (l : loc) (i : Z) : Prop :=
  0 ≤ i < Z.of_nat (length (deref s l)).

(** ** What opening a path leaves *)

(** The object as [__init__] sets its fields, in the world of [s]. *)
Definition constructed (env : option string) (path : string) (s : Session)
    : Session :=
  mkSession env None path None None
    (heap s) (disk s) (disk_error s) (written s) (kernel s) (requests s).

(** The session [open_notebook] hands to [start_kernel] when [path] has no
    file: a new notebook with an empty cell list, another empty list as the
    backup, and the empty document saved if the path can be written. *)
Definition opened_new (path : string) (s : Session) : Session :=
  let l := length (heap s) in
  mkSession (python_env_path s) (Some l) path (client s) (Some (S l))
    (heap s ++ [[]; []])
    (match disk_error s path with
     | None => <[path := []]> (disk s)
     | Some _ => disk s
     end)
    (disk_error s)
    (match disk_error s path with
     | None => written s ++ [path]
     | Some _ => written s
     end)
    (kernel s) (requests s).

(** The session [open_notebook] hands to [start_kernel] when [path] holds
    the document [doc]: the list read is the notebook's cells and its
    backup. *)
Definition opened_existing (path : string) (doc : list Cell) (s : Session)
    : Session :=
  let l := length (heap s) in
  mkSession (python_env_path s) (Some l) path (client s) (Some l)
    (heap s ++ [doc]) (disk s) (disk_error s) (written s)
    (kernel s) (requests s).

(** ** Sample worlds *)

(** A backend call that completes and leaves the cells as they are. *)
Definition quiet : Reply := mkReply id id None.

(** A backend call that fails with [e]. *)
Definition failing (e : Exn) : Reply := mkReply id id (Some e).

(** A world with the files [d] and the backend [k], before any session is
    constructed. *)
Definition world (k : nat → Reply) (d : gmap string (list Cell)) : Session :=
  mkSession None None "" None None [] d (λ _, None) [] k [].

(** The state a computation leaves. *)
Definition after {A} (m : M A) (s : Session) : Session := (m s).2.

(** The server's session, [JupyterAPI(notebook_path="work.ipynb",
    isnew=True)] over a backend that always completes, after three inserts. *)
Definition three_cells : Session :=
  after (__init__ None "work.ipynb" "" true;;
         insert_cell "x = 1" "code" None;;
         insert_cell "# notes" "markdown" None;;
         insert_cell "print(x)" "code" None)
    (world (λ _, quiet) ∅).

(** A backend call that completes and stores [outs] in the executed cell. *)
Definition prints (outs : list Output) : Reply :=
  mkReply (set_outputs (Some outs)) id None.

(** The server's session after [insert_and_execute_cell] of one cell whose
    run prints ten characters and leaves a result. *)
Definition printed : Session :=
  after (__init__ None "work.ipynb" "" true;;
         insert_and_execute_cell "print('abcdefg'); 'hij'" "code" None)
    (world (λ n, match n with
                 | 1%nat => prints [Stream "stdout" "abcdefg";
                                    ExecuteResult {[ "text/plain" := "hij" ]}]
                 | _ => quiet
                 end) ∅).

(** The server's session with one cell, after a second [open_notebook] of
    the same path whose warm-up run (the third request) raised. *)
Definition stale : Session :=
  after (__init__ None "work.ipynb" "" true;;
         insert_cell "x = 1" "code" None;;
         open_notebook "work.ipynb")
    (world (λ n, match n with
                 | 2%nat => failing (OtherError "Kernel died")
                 | _ => quiet
                 end) ∅).

(** The server's session with one code cell, over a backend that loses the
    connection on the cell's first run (the second request) and again on the
    retry that follows the restart (the fifth request). *)
Definition lossy : Session :=
  after (__init__ None "work.ipynb" "" true;;
         insert_cell "x = 1" "code" None)
    (world (λ n, match n with
                 | 1%nat | 4%nat => failing (AssertionError "")
                 | _ => quiet
                 end) ∅).

(** The server's session with the one cell [1/0], over a backend whose
    whole-notebook execution (the second request) stores the error record in
    the cell and ends with a kernel execution error. *)
Definition dividing : Session :=
  after (__init__ None "work.ipynb" "" true;;
         insert_cell "1/0" "code" None)
    (world (λ n, match n with
                 | 1%nat =>
                     mkReply id
                       (fmap (set_outputs
                                (Some [ErrorOutput "ZeroDivisionError" "division by zero"])))
                       (Some (CellExecutionError "ZeroDivisionError: division by zero"))
                 | _ => quiet
                 end) ∅).

(** ** The other operations of [JupyterAPI] *)

(** [initialize_notebook]: the bring-up of [start_kernel] without asking the
    old kernel to shut down. *)
Definition initialize_notebook : M unit :=
  nb ← notebook_cells;
  s ← get;
  match original_cells s with
  | None => modify (with_original_cells (Some nb))
  | Some _ => mret tt
  end;;
  fresh ← alloc [];
  modify (with_notebook (Some fresh));;
  s ← get;
  match client s with
  | Some _ => modify (with_client None)
  | None => mret tt
  end;;
  s ← get;
  modify (with_client (Some (length (requests s))));;
  r ← ask Warmup;
  raise_if (failure r);;
  s ← get;
  modify (with_notebook (original_cells s)).

(** [shutdown_kernel]; a client object always has its [km] attribute.  The
    client is dropped only when the shutdown call returns. *)
Definition shutdown_kernel : M unit :=
  s ← get;
  match client s with
  | Some _ =>
      try_except
        (r ← ask Shutdown;
         raise_if (failure r);;
         modify (with_client None))
        (λ _, mret tt)
  | None => mret tt
  end.

(** The dictionary [get_notebook_info] returns. *)
Record NotebookInfo := mkNotebookInfo {
  code_cells : list Z;
  markdown_cells : list Z
}.

(** The loop [for i, cell in enumerate(self.notebook.cells)], from index
    [i] on. *)
Fixpoint enumerate_cells (i : Z) (cs : list Cell) (info : NotebookInfo)
    : NotebookInfo :=
  match cs with
  | [] => info
  | cell :: rest =>
      enumerate_cells (i + 1) rest
        (if bool_decide (cell_type cell = "code")
         then mkNotebookInfo (code_cells info ++ [i]) (markdown_cells info)
         else if bool_decide (cell_type cell = "markdown")
         then mkNotebookInfo (code_cells info) (markdown_cells info ++ [i])
         else info)
  end.

Definition get_notebook_info : M NotebookInfo :=
  s ← get;
  match notebook s with
  | None => raise (ValueError "没有打开的笔记本")
  | Some l => mret (enumerate_cells 0 (deref s l) (mkNotebookInfo [] []))
  end.

(** The loop of [get_image_output]: the payload of the first
    [execute_result] or [display_data] record that has the MIME type. *)
Fixpoint first_image (mime_type : string) (outs : list Output) : option string :=
  match outs with
  | [] => None
  | o :: rest =>
      match o with
      | ExecuteResult data | DisplayData data =>
          match data !! mime_type with
          | Some payload => Some payload
          | None => first_image mime_type rest
          end
      | _ => first_image mime_type rest
      end
  end.

Definition get_image_output (cell_index : Z) (format : string)
    : M (option string) :=
  s ← get;
  match notebook s with
  | None => raise (ValueError "没有打开的笔记本")
  | Some nb =>
      let cs := deref s nb in
      if out_of_range cell_index cs
      then raise (ValueError ("单元格索引超出范围: " +:+ pretty cell_index))
      else
        cell ← cell_at cs cell_index;
        match is_code cell, outputs cell with
        | true, Some outs => mret (first_image ("image/" +:+ format) outs)
        | _, _ => mret None
        end
  end.

(** ** utils.py *)

(** [paser_block(type, content)]: the text between the first
    [```type] line and the next fence.  [String.index n sub t] is
    [t.find(sub, n)], with [None] for -1. *)
Definition paser_block (type content : string) : string :=
  let start_marker := "```" +:+ type +:+ nl in
  match String.index 0 start_marker content with
  | None => ""
  | Some start_idx =>
      let start_code := (start_idx + String.length start_marker)%nat in
      match String.index start_code "```" content with
      | Some end_idx =>
          py_slice content (Z.of_nat start_code) (Some (Z.of_nat end_idx))
      | None => ""
      end
  end.

(** ** What the further properties speak of *)


(** The cell at index [j] of [cs], counting from [i], has type [kind]. *)
Definition kind_at (kind : string) (i : Z) (cs : list Cell) (j : Z) : Prop :=
  i ≤ j ∧ ∃ c, cs !! Z.to_nat (j - i) = Some c ∧ cell_type c = kind.

(** The backend log of [s'] extends that of [s] by [rs]. *)
Definition asked (s s' : Session) (rs : list Request) : Prop :=
  requests s' = requests s ++ rs.

(** [o] carries a payload [p] of type [mime_type], as a result or a
    displayed datum. *)
Definition has_image (mime_type : string) (o : Output) (p : string) : Prop :=
  ∃ data, (o = ExecuteResult data ∨ o = DisplayData data) ∧
          data !! mime_type = Some p.

(** The session after the save [open_notebook] starts with, which it makes
    only when a notebook is open under another path. *)
Definition flushed (path : string) (s : Session) : Session :=
  match notebook s with
  | Some _ =>
      if bool_decide (notebook_path s = path) then s else after save_notebook s
  | None => s
  end.

(** The session [open_notebook] hands to [start_kernel]. *)
Definition opened (path : string) (s : Session) : Session :=
  match disk s !! path with
  | Some doc => opened_existing path doc s
  | None => opened_new path s
  end.

(** [i] is the index of a cell of the list at [l] that is not a code cell. *)
Definition skipped (s : Session) (l : nat) (i : Z) : Prop :=
  0 ≤ i ∧ ∃ c, deref s l !! Z.to_nat i = Some c ∧ cell_type c ≠ "code".

(** [i] is the index of a code cell of the list at [l]. *)
Definition runnable (s : Session) (l : nat) (i : Z) : Prop :=
  0 ≤ i ∧ ∃ c, deref s l !! Z.to_nat i = Some c ∧ cell_type c = "code".

(** The warnings a cell contributes: its [stderr] records, if it is there. *)
Definition warnings_at (s : Session) (l : nat) (i : Z) : list (Z * string) :=
  from_option (stderr_warnings i) [] (deref s l !! Z.to_nat i).

(** The position [insert_cell] gives a new cell: the end for [index = None],
    the index itself otherwise. *)
Definition place (cs : list Cell) (index : option Z) : nat :=
  from_option Z.to_nat (length cs) index.

(** [c not in t]. *)
Fixpoint lacks (c : Ascii.ascii) (t : string) : bool :=
  match t with
  | EmptyString => true
  | String d t => negb (bool_decide (c = d)) && lacks c t
  end.

(** The server's session after [insert_and_execute_cell] of one cell whose
    run prints a line and shows a figure. *)
Definition plotted : Session :=
  after (__init__ None "work.ipynb" "" true;;
         insert_and_execute_cell "plt.plot(xs)" "code" None)
    (world (λ n, match n with
                 | 1%nat => prints [Stream "stdout" "done";
                                    DisplayData {[ "text/plain" := "<Figure>";
                                                   "image/png" := "iVBORw0KGgo=" ]}]
                 | _ => quiet
                 end) ∅).

(** The server's session with one code cell, over a backend that loses the
    connection on the cell's run (the second request) and does not come up
    again: the warm-up run of the restart (the fourth request) raises. *)
Definition unreachable : Session :=
  after (__init__ None "work.ipynb" "" true;;
         insert_cell "x = 1" "code" None)
    (world (λ n, match n with
                 | 1%nat => failing (AssertionError "")
                 | 3%nat => failing (OtherError "Kernel died")
                 | _ => quiet
                 end) ∅).

(** The three-cell session after [shutdown_kernel]: a notebook is open and
    there is no client. *)
Definition disconnected : Session := after shutdown_kernel three_cells.

(** The three-cell session over a backend that answers as nbclient does
    when the index it is given is past the end of the list: the store of
    the executed cell raises [IndexError]. *)
Definition misindexed : Session :=
  with_kernel (λ _, failing (OtherError "list assignment index out of range"))
    three_cells.

(** The server's session with one cell, over a backend whose next warm-up
    run (the third request) raises. *)
Definition dying : Session :=
  after (__init__ None "work.ipynb" "" true;;
         insert_cell "x = 1" "code" None)
    (world (λ n, match n with
                 | 2%nat => failing (OtherError "Kernel died")
                 | _ => quiet
                 end) ∅).

(** ** Tactics *)

(** Unfold the monad's combinators and the primitives of the model. *)
Ltac run :=
  unfold raise_if, mutate, alloc, ask, notebook_cells in *;
  unfold mbind, M_bind, bind, mret, M_ret, ret, get, modify, raise,
    try_except in *;
  cbv beta iota in *.

(** Reduce the projections of updated sessions. *)
Ltac fields :=
  cbn [python_env_path notebook notebook_path client original_cells heap
       disk disk_error written kernel requests
       with_notebook with_notebook_path with_client with_original_cells
       with_heap with_disk with_written with_requests] in *.

(** * Properties *)

(** ** Running computations *)

Lemma run_bind {A B} (m : M A) (k : A → M B) s :
  (m ≫= k) s = match m s with
               | (Return a, s') => k a s'
               | (Raise e, s') => (Raise e, s')
               end.
Proof. reflexivity. Qed.

Lemma run_get {A} (k : Session → M A) s : (get ≫= k) s = k s s.
Proof. reflexivity. Qed.

Lemma run_bind_return {A B} (m : M A) (k : A → M B) s a s' :
  m s = (Return a, s') → (m ≫= k) s = k a s'.
Proof. intros H. rewrite run_bind, H. reflexivity. Qed.

Lemma deref_with_heap s h l : deref (with_heap h s) l = default [] (h !! l).
Proof. reflexivity. Qed.

Lemma out_of_range_false i (cs : list Cell) :
  out_of_range i cs = false ↔ 0 ≤ i < Z.of_nat (length cs).
Proof. unfold out_of_range. rewrite orb_false_iff, Z.ltb_ge, Z.leb_gt. tauto. Qed.

Lemma out_of_range_true i (cs : list Cell) :
  out_of_range i cs = true ↔ i < 0 ∨ Z.of_nat (length cs) ≤ i.
Proof. unfold out_of_range. rewrite orb_true_iff, Z.ltb_lt, Z.leb_le. tauto. Qed.

Lemma deref_alter s s0 f l l' :
  (l < length (heap s))%nat →
  deref (with_heap (alter f l (heap s)) s0) l' =
  if decide (l = l') then f (deref s l) else deref s l'.
Proof.
  intros Hl. rewrite deref_with_heap. unfold deref.
  destruct (decide (l = l')) as [<-|Hne].
  - destruct (lookup_lt_is_Some_2 _ _ Hl) as [v Hv].
    by rewrite list_lookup_alter_eq, Hv.
  - by rewrite list_lookup_alter_ne.
Qed.

Lemma cells_open s l : notebook s = Some l → cells s = deref s l.
Proof. unfold cells. by intros ->. Qed.

Lemma cells_alter s f l :
  notebook s = Some l → (l < length (heap s))%nat →
  cells (with_heap (alter f l (heap s)) s) = f (cells s).
Proof.
  intros Hnb Hl. unfold cells. fields. rewrite Hnb. cbn [from_option].
  rewrite deref_alter by done. by rewrite decide_True.
Qed.

(** ** Deleting and saving *)

(** C9: [delete_cell] never writes to storage, whatever its index: the
    files, the list of writes and the backend log are as before.  With an
    index in range it removes that cell from the document in memory, and a
    [save_notebook] after it (on a writable path) stores the document
    without the cell. *)
Theorem delete_cell_not_persisted s l i :
  notebook s = Some l → (l < length (heap s))%nat →
  (∀ r s', delete_cell i s = (r, s') →
     disk s' = disk s ∧ written s' = written s ∧ requests s' = requests s) ∧
  (0 ≤ i < Z.of_nat (length (cells s)) →
   ∃ s', delete_cell i s = (Return None, s') ∧
     cells s' = delete (Z.to_nat i) (cells s) ∧
     (disk_error s (notebook_path s) = None →
      ∃ s'', save_notebook s' = (Return None, s'') ∧
        disk s'' !! notebook_path s = Some (cells s') ∧
        cells s'' = cells s')).
Proof.
  intros Hnb Hl. split.
  - intros r s'. unfold delete_cell. run. rewrite Hnb.
    destruct (out_of_range i (deref s l)); intros [= <- <-]; done.
  - intros Hi. apply out_of_range_false in Hi.
    rewrite (cells_open _ _ Hnb) in Hi.
    unfold delete_cell. run. rewrite Hnb, Hi.
    eexists. split; [reflexivity|].
    split; [by apply cells_alter|]. intros Hw.
    unfold save_notebook. run. fields. rewrite Hnb, Hw.
    eexists. split; [reflexivity|]. fields.
    rewrite lookup_insert_eq. split; [|reflexivity].
    unfold cells. fields. by rewrite Hnb.
Qed.

Lemma delete_cell_not_persisted_witness :
  ∃ s' s'',
    delete_cell 1 three_cells = (Return None, s') ∧
    disk s' = disk three_cells ∧
    cells s' = [new_code_cell "x = 1"; new_code_cell "print(x)"] ∧
    save_notebook s' = (Return None, s'') ∧
    disk s'' !! "work.ipynb" = Some [new_code_cell "x = 1"; new_code_cell "print(x)"].
Proof.
  destruct (delete_cell_not_persisted three_cells 1%nat 1) as [Hframe Hdel];
    [vm_compute; reflexivity | vm_compute; lia |].
  destruct Hdel as (s' & Hrun & Hcells & Hsave); [vm_compute; split; congruence|].
  destruct Hsave as (s'' & Hrun' & Hdisk & _); [vm_compute; reflexivity|].
  exists s', s''. split; [exact Hrun|].
  split; [exact (proj1 (Hframe _ _ Hrun))|].
  assert (cells s' = [new_code_cell "x = 1"; new_code_cell "print(x)"]) as Hc.
  { rewrite Hcells. vm_compute. reflexivity. }
  split; [exact Hc|]. split; [exact Hrun'|].
  rewrite <- Hc. exact Hdisk.
Defined.

(** ** Inserting *)

Lemma save_notebook_cells s r s' :
  save_notebook s = (r, s') →
  heap s' = heap s ∧ notebook s' = notebook s ∧ requests s' = requests s ∧
  original_cells s' = original_cells s ∧ client s' = client s ∧
  kernel s' = kernel s ∧ notebook_path s' = notebook_path s ∧
  disk_error s' = disk_error s.
Proof.
  unfold save_notebook. run.
  destruct (notebook s) eqn:Hnb; [destruct (disk_error s (notebook_path s))|];
    intros [= <- <-]; repeat split; exact Hnb.
Qed.

(** C7: on an open notebook, [insert_cell] with [index = None] and a
    supported cell type appends: the new cell is the one at position
    [len(cells)] as measured before the call.  With an explicit index
    outside [0, len(cells)] it returns an error message and leaves the whole
    session as it was: no cell is added and nothing is written. *)
Theorem insert_cell_placement s l code cell_type :
  notebook s = Some l → (l < length (heap s))%nat →
  (∀ cell, new_cell code cell_type = Some cell →
     ∃ r s', insert_cell code cell_type None s = (Return r, s') ∧
       cells s' = cells s ++ [cell] ∧
       cells s' !! length (cells s) = Some cell) ∧
  (∀ i, i < 0 ∨ Z.of_nat (length (cells s)) < i →
     ∃ msg, insert_cell code cell_type (Some i) s = (Return msg, s) ∧
       (msg = "不支持的单元格类型: " +:+ cell_type ∨
        msg = "无效的索引位置: " +:+ pretty i)).
Proof.
  intros Hnb Hl. split.
  - intros cell Hcell. unfold insert_cell. run. rewrite Hnb, Hcell. run.
    destruct (save_notebook _) as [r s1] eqn:Hsave.
    destruct (save_notebook_cells _ _ _ Hsave) as (Hh & Hn & _).
    assert (cells s1 = cells s ++ [cell]) as Hc.
    { unfold cells, deref. rewrite Hh, Hn. fields.
      rewrite Hnb. cbn [from_option].
      change (default [] (alter (λ cs, cs ++ [cell]) l (heap s) !! l))
        with (deref (with_heap (alter (λ cs, cs ++ [cell]) l (heap s)) s) l).
      rewrite deref_alter by done. by rewrite decide_True. }
    assert (cells s1 !! length (cells s) = Some cell) as Hlast.
    { rewrite Hc. apply list_lookup_middle. reflexivity. }
    unfold save_notebook in Hsave. run. fields. rewrite Hnb in Hsave.
    destruct (disk_error s (notebook_path s));
      injection Hsave as <- <-; eauto.
  - intros i Hi. unfold insert_cell. run. rewrite Hnb.
    destruct (new_cell code cell_type); [|eauto].
    rewrite <- (cells_open _ _ Hnb).
    replace ((i <? 0) || (Z.of_nat (length (cells s)) <? i)) with true; [eauto|].
    symmetry. rewrite orb_true_iff, Z.ltb_lt, Z.ltb_lt. exact Hi.
Qed.

Lemma insert_cell_placement_witness :
  (∃ r s', insert_cell "y = 2" "code" None three_cells = (Return r, s') ∧
     cells s' !! 3%nat = Some (new_code_cell "y = 2")) ∧
  (∃ msg, insert_cell "y = 2" "code" (Some 7) three_cells = (Return msg, three_cells) ∧
     msg = "无效的索引位置: 7").
Proof.
  destruct (insert_cell_placement three_cells 1%nat "y = 2" "code") as [Happ Hbad];
    [vm_compute; reflexivity | vm_compute; lia |].
  split.
  - destruct (Happ (new_code_cell "y = 2")) as (r & s' & Hrun & _ & Hat);
      [vm_compute; reflexivity|].
    exists r, s'. split; [exact Hrun | exact Hat].
  - destruct (Hbad 7) as (msg & Hrun & Hmsg); [right; vm_compute; reflexivity|].
    exists msg. split; [exact Hrun|].
    destruct Hmsg as [Hmsg|Hmsg]; [|exact Hmsg].
    rewrite Hmsg in Hrun. vm_compute in Hrun. discriminate Hrun.
Defined.

(** ** Text output *)

Lemma append_nil_r (t : string) : t +:+ "" = t.
Proof.
  induction t as [|c t IH]; [reflexivity|].
  change (String c (t +:+ "") = String c t). by rewrite IH.
Qed.

Lemma append_assoc (t u v : string) : t +:+ (u +:+ v) = (t +:+ u) +:+ v.
Proof.
  induction t as [|c t IH]; [reflexivity|].
  change (String c (t +:+ (u +:+ v)) = String c ((t +:+ u) +:+ v)).
  by rewrite IH.
Qed.

Lemma text_output_from acc outs :
  foldl (λ acc o, acc +:+ text_of o) acc outs = acc +:+ concat_text outs.
Proof.
  revert acc. induction outs as [|o outs IH]; intros acc; cbn.
  - by rewrite append_nil_r.
  - by rewrite IH, append_assoc.
Qed.

Lemma text_output_concat outs : text_output outs = concat_text outs.
Proof. unfold text_output. by rewrite text_output_from. Qed.

Lemma substring_past_end t n m :
  (String.length t ≤ n)%nat → String.substring n m t = "".
Proof.
  revert n m. induction t as [|c t IH]; intros [|n] m Hn; cbn in *; try done.
  - by destruct m.
  - lia.
  - apply IH. lia.
Qed.

Lemma substring_clip t n m :
  String.substring n (m `min` (String.length t - n)) t = String.substring n m t.
Proof.
  revert n m. induction t as [|c t IH]; intros [|n] m; cbn.
  - by destruct m.
  - done.
  - destruct m as [|m]; [done|]. cbn.
    f_equal. rewrite <- (IH 0%nat m). by rewrite Nat.sub_0_r.
  - apply IH.
Qed.

Lemma py_bound_inside n i :
  0 ≤ i ≤ Z.of_nat n → py_bound n i = Z.to_nat i.
Proof.
  intros Hi. unfold py_bound.
  destruct (Z.ltb_spec i 0); [lia|]. f_equal. lia.
Qed.

Lemma py_bound_above n i :
  0 ≤ i → py_bound n i = (Z.to_nat i `min` n)%nat.
Proof.
  intros Hi. unfold py_bound.
  destruct (Z.ltb_spec i 0); lia.
Qed.

Lemma py_slice_window t a n :
  0 ≤ a → 0 ≤ n →
  py_slice t a (Some (a + n)) = String.substring (Z.to_nat a) (Z.to_nat n) t.
Proof.
  intros Ha Hn. unfold py_slice. cbn [from_option].
  destruct (decide (Z.of_nat (String.length t) ≤ a)) as [Hpast|Hin].
  - rewrite !substring_past_end; [done| lia |].
    rewrite py_bound_above by done. lia.
  - rewrite (py_bound_inside _ a) by lia.
    rewrite py_bound_above by lia.
    rewrite <- (substring_clip t (Z.to_nat a) (Z.to_nat n)).
    f_equal. lia.
Qed.

Lemma py_slice_rest t a :
  0 ≤ a ≤ Z.of_nat (String.length t) →
  py_slice t a None =
  String.substring (Z.to_nat a) (String.length t - Z.to_nat a) t.
Proof.
  intros Ha. unfold py_slice. cbn [from_option].
  by rewrite py_bound_inside.
Qed.

(** C6, the claim as stated fails on a markdown cell: the call returns the
    empty string, which has no header line. *)
Lemma get_cell_text_output_markdown :
  ∃ r, get_cell_text_output 1 0 (Some 3000) three_cells = (Return r, three_cells) ∧
    ∀ (n : Z) payload, r ≠ "总长度: " +:+ pretty n +:+ nl +:+ payload.
Proof.
  exists "". split; [vm_compute; reflexivity|].
  intros n payload H. discriminate H.
Qed.

(** A limit below zero with [start_index + length < 0] makes the slice
    bound count from the end of the text. *)
Example get_cell_text_output_negative_length :
  get_cell_text_output 0 1 (Some (-3)) printed =
  (Return ("总长度: 10" +:+ nl +:+ "bcdefgh"), printed).
Proof. vm_compute. reflexivity. Qed.

(** C6 (amended): for a code cell that has outputs, any offset, and a limit
    that is [None] or not below zero, [get_cell_text_output] returns the
    header line reporting the length of the concatenated text of the cell's
    output records, whatever the offset and limit, followed by the
    characters at [offset, offset + limit) (from [offset] on when the limit
    is [None]); an offset below zero counts as 0, and an offset at or past
    the end gives an empty slice.  For a cell that is not a code cell it
    returns the empty string, without a header line.  The session is left
    as it was. *)
Theorem get_cell_text_output_window s l i c start_index length :
  notebook s = Some l →
  0 ≤ i → deref s l !! Z.to_nat i = Some c →
  (cell_type c ≠ "code" →
   get_cell_text_output i start_index length s = (Return "", s)) ∧
  (∀ outs, cell_type c = "code" → outputs c = Some outs →
   from_option (λ n, 0 ≤ n) True length →
   let text := concat_text outs in
   let offset := Z.to_nat start_index in
   get_cell_text_output i start_index length s =
     (Return ("总长度: " +:+ pretty (Z.of_nat (String.length text)) +:+ nl +:+
              window text offset (Z.to_nat <$> length)), s) ∧
   ((String.length text ≤ offset)%nat →
    window text offset (Z.to_nat <$> length) = "")).
Proof.
  intros Hnb Hi Hc.
  assert (∀ k : Cell → M string,
            (s ← get;
             match notebook s with
             | None => raise (ValueError "没有打开的笔记本")
             | Some nb =>
                 let cs := deref s nb in
                 if out_of_range i cs
                 then raise (ValueError ("单元格索引超出范围: " +:+ pretty i))
                 else cell ← cell_at cs i; k cell
             end) s = k c s) as Hcell.
  { intros k. run. rewrite Hnb.
    assert (out_of_range i (deref s l) = false) as ->.
    { apply out_of_range_false. apply lookup_lt_Some in Hc. lia. }
    unfold cell_at. rewrite Hc. by run. }
  split.
  - intros Hcode. unfold get_cell_text_output. rewrite Hcell.
    unfold is_code. by rewrite bool_decide_eq_false_2.
  - intros outs Hcode Houts Hlen text offset. split.
    + unfold get_cell_text_output. rewrite Hcell.
      unfold is_code. rewrite bool_decide_eq_true_2 by done. rewrite Houts.
      rewrite text_output_concat. fold text. run.
      do 4 f_equal.
      set (start := if start_index <? 0 then 0 else start_index).
      assert (0 ≤ start ∧ Z.to_nat start = offset) as [Hstart Hoff].
      { subst start offset. destruct (Z.ltb_spec start_index 0); lia. }
      destruct (Z.leb_spec (Z.of_nat (String.length text)) start) as [Hpast|Hin].
      * destruct length as [n|]; cbn [window fmap option_fmap option_map];
          rewrite substring_past_end; (done || lia).
      * destruct length as [n|]; cbn [window fmap option_fmap option_map].
        -- cbn in Hlen. rewrite py_slice_window by done. by rewrite Hoff.
        -- rewrite py_slice_rest by lia. by rewrite Hoff.
    + intros Hpast.
      destruct length as [n|]; cbn [window fmap option_fmap option_map];
        by apply substring_past_end.
Qed.

Lemma get_cell_text_output_window_witness :
  get_cell_text_output 0 (-4) (Some 3) printed =
    (Return ("总长度: 10" +:+ nl +:+ "abc"), printed) ∧
  get_cell_text_output 0 8 None printed =
    (Return ("总长度: 10" +:+ nl +:+ "ij"), printed) ∧
  get_cell_text_output 0 10 (Some 3000) printed =
    (Return ("总长度: 10" +:+ nl), printed) ∧
  get_cell_text_output 1 0 (Some 3000) three_cells = (Return "", three_cells).
Proof.
  pose (outs := [Stream "stdout" "abcdefg"; ExecuteResult {[ "text/plain" := "hij" ]}]).
  pose (c := set_outputs (Some outs) (new_code_cell "print('abcdefg'); 'hij'")).
  assert (notebook printed = Some 1%nat) as Hnb by (vm_compute; reflexivity).
  assert (deref printed 1 !! Z.to_nat 0 = Some c) as Hc by (vm_compute; reflexivity).
  split; [|split; [|split]].
  - exact (proj1 (proj2 (get_cell_text_output_window printed 1%nat 0 c (-4) (Some 3)
                           Hnb ltac:(lia) Hc) outs eq_refl eq_refl ltac:(simpl; lia))).
  - exact (proj1 (proj2 (get_cell_text_output_window printed 1%nat 0 c 8 None
                           Hnb ltac:(lia) Hc) outs eq_refl eq_refl I)).
  - exact (proj1 (proj2 (get_cell_text_output_window printed 1%nat 0 c 10 (Some 3000)
                           Hnb ltac:(lia) Hc) outs eq_refl eq_refl ltac:(simpl; lia))).
  - apply (get_cell_text_output_window three_cells 1%nat 1 (new_markdown_cell "# notes")
             0 (Some 3000)); [vm_compute; reflexivity | lia | vm_compute; reflexivity
                             | discriminate].
Defined.

(** ** Bringing up a connection *)

Lemma start_kernel_run s l :
  notebook s = Some l →
  start_kernel s =
  match failure (kernel s (length (requests s ++ teardown s))) with
  | None => (Return tt, restarted s l)
  | Some e => (Raise e, stranded s l)
  end.
Proof.
  intros Hnb. destruct s as [env nb path cl orig h d de w k rq].
  cbn in Hnb. subst nb.
  unfold start_kernel, stranded, restarted, teardown. run. fields.
  destruct orig as [o|], cl as [c|]; fields; rewrite ?app_nil_r;
    destruct (failure _); reflexivity.
Qed.

Lemma execute_cell_run l p i s :
  execute_cell l p i s =
  let r := kernel s (length (requests s)) in
  (match failure r with None => Return tt | Some e => Raise e end,
   with_heap (alter (alter (on_cell r) p) l (heap s))
     (with_requests (requests s ++ [ExecuteCell i]) s)).
Proof.
  unfold execute_cell. run. fields.
  destruct (failure _); reflexivity.
Qed.

Lemma get_cell_text_output_pure i a b s r s' :
  get_cell_text_output i a b s = (r, s') → s' = s.
Proof.
  unfold get_cell_text_output, cell_at. run.
  destruct (notebook s) as [l|]; [|by intros [= _ <-]].
  destruct (out_of_range i (deref s l)); [by intros [= _ <-]|].
  destruct (deref s l !! Z.to_nat i) as [c|]; [|by intros [= _ <-]].
  destruct (is_code c), (outputs c); by intros [= _ <-].
Qed.

Lemma execute_run s l :
  notebook s = Some l →
  execute s =
  let r := kernel s (length (requests s)) in
  (match failure r with None => Return tt | Some e => Raise e end,
   with_heap (alter (on_notebook r) l (heap s))
     (with_requests (requests s ++ [ExecuteAll]) s)).
Proof.
  intros Hnb. unfold execute. run. fields. rewrite Hnb.
  destruct (failure _); reflexivity.
Qed.

Lemma ensure_client_run s l :
  notebook s = Some l →
  (client s = None → failure (kernel s (length (requests s))) = None) →
  ∃ s1 l1 k,
    match client s with None => start_kernel | Some _ => mret () end s
      = (Return (), s1) ∧
    notebook s1 = Some l1 ∧ client s1 = Some k ∧ kernel s1 = kernel s ∧
    requests s1 = requests s ++ warm_up s ∧ unwritten s s1.
Proof.
  intros Hnb Hfirst. unfold warm_up. destruct (client s) as [k|] eqn:Hcl.
  - exists s, l, k. rewrite app_nil_r. repeat split; done.
  - rewrite (start_kernel_run s l Hnb). unfold teardown. rewrite Hcl.
    rewrite app_nil_r, Hfirst by done.
    eexists _, _, _. split; [reflexivity|]. unfold restarted, teardown.
    rewrite Hcl. fields. rewrite app_nil_r. repeat split; done.
Qed.

Lemma deref_restarted s l o :
  (o < length (heap s))%nat → deref (restarted s l) o = deref s o.
Proof. intros Ho. unfold deref, restarted. fields. by rewrite lookup_app_l. Qed.

(** C4, the claim as stated fails when the backup is not the notebook's
    own list: after an [open_notebook] whose warm-up raised, the notebook
    holds no cell, and the next [start_kernel] brings back the cell of the
    backup. *)
Lemma start_kernel_stale_backup :
  cells stale = [] ∧
  ∃ s', start_kernel stale = (Return tt, s') ∧
    cells s' = [new_code_cell "x = 1"].
Proof.
  split; [vm_compute; reflexivity|].
  eexists. split; vm_compute; reflexivity.
Qed.

(** C4 (amended): a [start_kernel] whose warm-up run completes leaves the
    notebook's cells bound to the backup: they are the cells of
    [original_cells] when a backup is already held, and the cells held
    before the call otherwise.  So they equal the cells held before the call
    whenever no backup is held or the backup is the notebook's own list. *)
Theorem start_kernel_restores_backup s l :
  notebook s = Some l → allocated s →
  failure (kernel s (length (requests s ++ teardown s))) = None →
  ∃ s', start_kernel s = (Return tt, s') ∧
    cells s' = from_option (deref s) (cells s) (original_cells s) ∧
    (original_cells s = None ∨ original_cells s = Some l → cells s' = cells s) ∧
    aliased s'.
Proof.
  intros Hnb [Hl Ho] Hwarm. rewrite (start_kernel_run _ _ Hnb), Hwarm.
  eexists. split; [reflexivity|].
  assert (cells (restarted s l)
          = from_option (deref s) (cells s) (original_cells s)) as Hcells.
  { rewrite (cells_open s l Hnb).
    change (cells (restarted s l))
      with (deref (restarted s l) (default l (original_cells s))).
    destruct (original_cells s) as [o|]; cbn [default from_option id];
      apply deref_restarted; auto. }
  split; [exact Hcells|]. split; [|reflexivity].
  rewrite Hcells. intros [->| ->]; cbn [from_option]; [done|].
  by rewrite (cells_open s l Hnb).
Qed.

Lemma start_kernel_restores_backup_witness :
  ∃ s', start_kernel three_cells = (Return tt, s') ∧
    cells s' = cells three_cells.
Proof.
  destruct (start_kernel_restores_backup three_cells 1%nat)
    as (s' & Hrun & _ & Hsame & _).
  - vm_compute; reflexivity.
  - split; intros l H; vm_compute in H; injection H as <-; vm_compute; lia.
  - vm_compute; reflexivity.
  - exists s'. split; [exact Hrun|]. apply Hsame. right. vm_compute; reflexivity.
Defined.

(** ** Running one cell *)

Lemma run_cell_retry l i s l1 k m :
  notebook s = Some l1 → client s = Some k →
  let n := length (requests s) in
  failure (kernel s n) = Some (AssertionError m) →
  failure (kernel s (n + 2)) = None →
  ∃ text s',
    try_except
      (execute_cell l (Z.to_nat i) i;;
       _ ← save_notebook;
       get_cell_text_output_default i)
      (λ e,
         match e with
         | CellExecutionError _ => mret ("单元格执行错误: " +:+ exn_str e)
         | AssertionError _ =>
             start_kernel;;
             try_except
               (execute_cell l (Z.to_nat i) i;;
                _ ← save_notebook;
                get_cell_text_output_default i)
               (λ e, mret ("重试执行单元格失败: " +:+ exn_str e))
         | _ => raise e
         end) s = (Return text, s') ∧
    requests s' = requests s ++ [ExecuteCell i; Shutdown; Warmup; ExecuteCell i] ∧
    kernel s' = kernel s ∧
    (∀ e, failure (kernel s (n + 3)) = Some e →
          text = "重试执行单元格失败: " +:+ exn_str e ∧ written s' = written s).
Proof.
  intros Hnb Hcl n Hlost Hwarm. run.
  rewrite execute_cell_run. cbv zeta. fold n. rewrite Hlost.
  set (s2 := with_heap _ _).
  assert (notebook s2 = Some l1) as Hnb2 by exact Hnb.
  assert (requests s2 ++ teardown s2 = requests s ++ [ExecuteCell i; Shutdown]) as Hreq2.
  { unfold teardown, s2. fields. rewrite Hcl. by rewrite <- app_assoc. }
  rewrite (start_kernel_run s2 l1 Hnb2). rewrite Hreq2.
  replace (length (requests s ++ [ExecuteCell i; Shutdown])) with (n + 2)%nat
    by (rewrite length_app; cbn; lia).
  change (kernel s2) with (kernel s). rewrite Hwarm.
  rewrite execute_cell_run. cbv zeta.
  set (s3 := restarted s2 l1).
  assert (requests s3 = requests s ++ [ExecuteCell i; Shutdown; Warmup]) as Hreq3.
  { unfold s3, restarted. fields. fold (teardown s2). rewrite Hreq2. by rewrite <- app_assoc. }
  rewrite Hreq3.
  replace (length (requests s ++ [ExecuteCell i; Shutdown; Warmup])) with (n + 3)%nat
    by (rewrite length_app; cbn; lia).
  change (kernel s3) with (kernel s).
  set (s4 := with_heap _ _).
  assert (requests s4 = requests s ++ [ExecuteCell i; Shutdown; Warmup; ExecuteCell i]) as Hreq4.
  { unfold s4. fields. by rewrite <- app_assoc. }
  destruct (failure (kernel s (n + 3))) as [e|] eqn:Hretry.
  - eexists _, _. split; [reflexivity|]. split; [exact Hreq4|]. split; [reflexivity|].
    intros e' [= <-]. split; reflexivity.
  - destruct (save_notebook s4) as [r5 s5] eqn:Hsave.
    destruct (save_notebook_cells _ _ _ Hsave) as (_ & _ & Hreq5 & _ & _ & Hk5 & _).
    assert (∃ a, r5 = Return a) as [a ->].
    { revert Hsave. unfold save_notebook. run.
      destruct (notebook s4); [destruct (disk_error s4 _)|]; intros [= <- _]; eauto. }
    destruct (get_cell_text_output_default i s5) as [r6 s6] eqn:Hget.
    apply get_cell_text_output_pure in Hget as ->.
    destruct r6 as [text|e]; eexists _, _;
      (split; [reflexivity|]); rewrite Hreq5, Hk5;
      (split; [exact Hreq4|]); (split; [reflexivity|]); intros e' [=].
Qed.

(** X27: on an open notebook and an in-range code cell, when the cell's
    execution ends with the connection-lost signal ([AssertionError]) and the
    restart's warm-up run completes, [run_cell] restarts the connection and
    executes the cell once more, and only once: the backend sees the
    execution, the shutdown, the warm-up and one more execution of the same
    index, after the warm-up that creates the client when there was none.
    The call returns a string in every case; when the retry fails too, with
    any exception, the string is the formatted failure message. *)
Theorem run_cell_retries_once s l i c m :
  notebook s = Some l →
  0 ≤ i → deref s l !! Z.to_nat i = Some c → cell_type c = "code" →
  (client s = None → failure (kernel s (length (requests s))) = None) →
  let n := length (requests s ++ warm_up s) in
  failure (kernel s n) = Some (AssertionError m) →
  failure (kernel s (n + 2)) = None →
  ∃ text s', run_cell i s = (Return text, s') ∧
    requests s' = requests s ++ warm_up s ++
                  [ExecuteCell i; Shutdown; Warmup; ExecuteCell i] ∧
    (∀ e, failure (kernel s (n + 3)) = Some e →
          text = "重试执行单元格失败: " +:+ exn_str e).
Proof.
  intros Hnb Hi Hc Hcode Hfirst n Hlost Hwarm.
  destruct (ensure_client_run s l Hnb Hfirst)
    as (s1 & l1 & k & Hs1 & Hnb1 & Hcl1 & Hk1 & Hreq1 & _).
  destruct (run_cell_retry l i s1 l1 k m Hnb1 Hcl1)
    as (text & s' & Hrun & Hreq & _ & Hmsg).
  { rewrite Hk1, Hreq1. exact Hlost. }
  { rewrite Hk1, Hreq1. exact Hwarm. }
  exists text, s'. split; [|split].
  - unfold run_cell. rewrite run_get, Hnb.
    assert (out_of_range i (deref s l) = false) as ->.
    { apply out_of_range_false. apply lookup_lt_Some in Hc. lia. }
    unfold cell_at. rewrite Hc.
    erewrite run_bind_return by reflexivity.
    unfold is_code. rewrite bool_decide_eq_true_2 by done. cbn [negb].
    erewrite run_bind_return by exact Hs1. exact Hrun.
  - rewrite Hreq, Hreq1. by rewrite <- app_assoc.
  - intros e He. apply Hmsg. rewrite Hk1, Hreq1. exact He.
Qed.

Lemma run_cell_retries_once_witness :
  ∃ s', run_cell 0 lossy = (Return "重试执行单元格失败: ", s') ∧
    requests s' = [Warmup; ExecuteCell 0; Shutdown; Warmup; ExecuteCell 0].
Proof.
  destruct (run_cell_retries_once lossy 1%nat 0 (new_code_cell "x = 1") "")
    as (text & s' & Hrun & Hreq & Hmsg).
  - vm_compute; reflexivity.
  - lia.
  - vm_compute; reflexivity.
  - reflexivity.
  - intros H. vm_compute in H. discriminate H.
  - vm_compute; reflexivity.
  - vm_compute; reflexivity.
  - exists s'. split.
    + rewrite Hrun. f_equal. f_equal.
      apply (Hmsg (AssertionError "")). vm_compute; reflexivity.
    + rewrite Hreq. vm_compute; reflexivity.
Defined.

(** C1, where [run_cell] departs from it: the restart that follows the
    connection-lost signal is made outside the inner [try].  When its
    warm-up run raises, [run_cell] raises that exception instead of
    returning a string; the cell is not executed a second time, the
    notebook is left with an empty cell list, and nothing is written.  On
    the same replies [run_all_cells], whose restart is inside the [try],
    returns the formatted failure message. *)
Theorem run_cell_restart_unguarded s l i c k m e :
  notebook s = Some l →
  0 ≤ i → deref s l !! Z.to_nat i = Some c → cell_type c = "code" →
  client s = Some k →
  let n := length (requests s) in
  failure (kernel s n) = Some (AssertionError m) →
  failure (kernel s (n + 2)) = Some e →
  (∃ s', run_cell i s = (Raise e, s') ∧
     requests s' = requests s ++ [ExecuteCell i; Shutdown; Warmup] ∧
     cells s' = [] ∧ unwritten s s') ∧
  (∃ s', run_all_cells s =
           (Return (Some ("重试执行单元格失败: " +:+ exn_str e)), s') ∧
     requests s' = requests s ++ [ExecuteAll; Shutdown; Warmup]).
Proof.
  intros Hnb Hi Hc Hcode Hcl n Hlost Hwarm. split.
  - unfold run_cell. rewrite run_get, Hnb.
    assert (out_of_range i (deref s l) = false) as ->.
    { apply out_of_range_false. apply lookup_lt_Some in Hc. lia. }
    unfold cell_at. rewrite Hc.
    erewrite run_bind_return by reflexivity.
    unfold is_code. rewrite bool_decide_eq_true_2 by done. cbn [negb].
    rewrite Hcl. erewrite run_bind_return by reflexivity.
    unfold try_except. rewrite run_bind, execute_cell_run. cbv zeta.
    fold n. rewrite Hlost.
    set (s2 := with_heap _ _).
    assert (notebook s2 = Some l) as Hnb2 by exact Hnb.
    assert (requests s2 ++ teardown s2 = requests s ++ [ExecuteCell i; Shutdown]) as Hreq2.
    { unfold teardown, s2. fields. rewrite Hcl. by rewrite <- app_assoc. }
    rewrite run_bind, (start_kernel_run s2 l Hnb2). rewrite Hreq2.
    replace (length (requests s ++ [ExecuteCell i; Shutdown])) with (n + 2)%nat
      by (rewrite length_app; cbn; lia).
    change (kernel s2) with (kernel s). rewrite Hwarm.
    eexists. split; [reflexivity|]. split; [|split].
    + unfold stranded, restarted. fields. fold (teardown s2). rewrite Hreq2.
      by rewrite <- app_assoc.
    + unfold cells, stranded, restarted, deref. fields. cbn [from_option].
      by rewrite list_lookup_middle.
    + by repeat split.
  - unfold run_all_cells. rewrite run_get, Hnb. unfold try_except.
    rewrite Hcl. erewrite run_bind_return by reflexivity.
    rewrite run_bind, (execute_run s l Hnb). cbv zeta. fold n. rewrite Hlost.
    set (s2 := with_heap _ _).
    assert (notebook s2 = Some l) as Hnb2 by exact Hnb.
    assert (requests s2 ++ teardown s2 = requests s ++ [ExecuteAll; Shutdown]) as Hreq2.
    { unfold teardown, s2. fields. rewrite Hcl. by rewrite <- app_assoc. }
    rewrite run_bind, (start_kernel_run s2 l Hnb2). rewrite Hreq2.
    replace (length (requests s ++ [ExecuteAll; Shutdown])) with (n + 2)%nat
      by (rewrite length_app; cbn; lia).
    change (kernel s2) with (kernel s). rewrite Hwarm.
    eexists. split; [reflexivity|].
    unfold stranded, restarted. fields. fold (teardown s2). rewrite Hreq2.
    by rewrite <- app_assoc.
Qed.

Lemma run_cell_restart_unguarded_witness :
  (∃ s', run_cell 0 unreachable = (Raise (OtherError "Kernel died"), s') ∧
     requests s' = [Warmup; ExecuteCell 0; Shutdown; Warmup] ∧ cells s' = []) ∧
  (∃ s', run_all_cells unreachable =
           (Return (Some "重试执行单元格失败: Kernel died"), s')).
Proof.
  destruct (run_cell_restart_unguarded unreachable 1%nat 0 (new_code_cell "x = 1")
              0%nat "" (OtherError "Kernel died"))
    as [(s1 & Hrun & Hreq & Hcells & _) (s2 & Hall & _)].
  - vm_compute; reflexivity.
  - lia.
  - vm_compute; reflexivity.
  - reflexivity.
  - vm_compute; reflexivity.
  - vm_compute; reflexivity.
  - vm_compute; reflexivity.
  - split.
    + exists s1. split; [exact Hrun|]. split; [exact Hreq | exact Hcells].
    + exists s2. exact Hall.
Defined.

(** ** Running every cell *)

Lemma unwritten_refl s : unwritten s s.
Proof. by repeat split. Qed.

Lemma start_kernel_unwritten s r s' :
  start_kernel s = (r, s') → unwritten s s' ∧ (is_Some (notebook s) → is_Some (notebook s')).
Proof.
  destruct (notebook s) as [l|] eqn:Hnb.
  - rewrite (start_kernel_run s l Hnb).
    destruct (failure _); intros [= <- <-]; (split; [by repeat split | by eauto]).
  - unfold start_kernel. run. rewrite Hnb. intros [= <- <-].
    split; [apply unwritten_refl | by intros []].
Qed.

Lemma execute_unwritten s r s' :
  execute s = (r, s') → unwritten s s' ∧ notebook s' = notebook s.
Proof.
  unfold execute. run. fields.
  destruct (notebook s) as [l|] eqn:Hnb; destruct (failure _);
    intros [= <- <-]; by repeat split.
Qed.

(** What [save_notebook] does on an open notebook: it writes the cells and
    returns [None], or, on a path that cannot be written, returns the
    message and changes nothing. *)
Lemma save_notebook_run s l :
  notebook s = Some l →
  (∃ s', save_notebook s = (Return None, s') ∧
     written s' = written s ++ [notebook_path s] ∧
     disk s' = <[notebook_path s := cells s]> (disk s) ∧
     cells s' = cells s ∧ notebook_path s' = notebook_path s ∧
     disk_error s' = disk_error s) ∨
  (∃ msg, save_notebook s = (Return (Some msg), s)).
Proof.
  intros Hnb. unfold save_notebook. run. rewrite Hnb.
  destruct (disk_error s (notebook_path s)) as [e|]; [right; eauto|].
  left. eexists. split; [reflexivity|]. fields.
  rewrite (cells_open s l Hnb). repeat split.
  unfold cells. fields. by rewrite Hnb.
Qed.

(** One attempt of [run_all_cells]: some preparation that writes nothing,
    the whole-notebook execution, the save. *)
Lemma bulk_attempt (prepare : M unit) s r s' :
  (∀ r1 s1, prepare s = (r1, s1) → unwritten s s1 ∧ is_Some (notebook s1)) →
  (prepare;; execute;; save_notebook) s = (r, s') →
  notebook_path s' = notebook_path s ∧ disk_error s' = disk_error s ∧
  is_Some (notebook s') ∧
  if succeeded r
  then written s' = written s ++ [notebook_path s] ∧
       disk s' !! notebook_path s = Some (cells s')
  else written s' = written s ∧ disk s' = disk s.
Proof.
  intros Hprep. rewrite run_bind.
  destruct (prepare s) as [r1 s1] eqn:H1.
  destruct (Hprep _ _ eq_refl) as [(Hp1 & He1 & Hd1 & Hw1) [l1 Hnb1]].
  destruct r1 as [[]|e]; [|intros [= <- <-]; by eauto].
  rewrite run_bind.
  destruct (execute s1) as [r2 s2] eqn:H2.
  destruct (execute_unwritten _ _ _ H2) as [(Hp2 & He2 & Hd2 & Hw2) Hnb2].
  rewrite Hnb1 in Hnb2.
  destruct r2 as [[]|e];
    [|intros [= <- <-]; cbn [succeeded]; repeat split; eauto; congruence].
  destruct (save_notebook_run s2 l1 Hnb2)
    as [(s3 & Hsave & Hw3 & Hd3 & Hc3 & Hp3 & He3)|(msg & Hsave)];
    rewrite Hsave; intros [= <- <-].
  - apply save_notebook_cells in Hsave as (_ & Hnb3 & _).
    cbn [succeeded]. repeat split; try congruence.
    + rewrite Hnb3. eauto.
    + rewrite Hd3, Hc3. rewrite <- Hp1, <- Hp2. apply lookup_insert_eq.
  - cbn [succeeded]. repeat split; eauto; congruence.
Qed.

Lemma ensure_client_unwritten s l r1 s1 :
  notebook s = Some l →
  match client s with None => start_kernel | Some _ => mret () end s = (r1, s1) →
  unwritten s s1 ∧ is_Some (notebook s1).
Proof.
  intros Hnb. destruct (client s).
  - intros [= <- <-]. split; [apply unwritten_refl | by eauto].
  - intros H. apply start_kernel_unwritten in H as [? H]. split; [done|].
    apply H. by eauto.
Qed.

Lemma run_all_cells_written s l r s' :
  notebook s = Some l →
  run_all_cells s = (r, s') →
  if succeeded r
  then written s' = written s ++ [notebook_path s] ∧
       disk s' !! notebook_path s = Some (cells s')
  else written s' = written s ∧ disk s' = disk s.
Proof.
  intros Hnb. unfold run_all_cells. rewrite run_get, Hnb.
  unfold try_except.
  destruct ((_ ;; execute;; save_notebook) s) as [r1 s1] eqn:H1.
  pose proof (bulk_attempt _ s r1 s1 (λ r s', ensure_client_unwritten s l r s' Hnb) H1)
    as (Hp1 & He1 & Hnb1 & Hres1).
  destruct r1 as [a|e]; [by intros [= <- <-]|].
  cbn [succeeded] in Hres1. destruct Hres1 as [Hw1 Hd1].
  destruct e; try (intros [= <- <-]; by cbn [succeeded]).
  destruct ((start_kernel;; execute;; save_notebook) s1) as [r2 s2] eqn:H2.
  pose proof (bulk_attempt _ s1 r2 s2
    (λ r s' H, let '(conj U N) := start_kernel_unwritten s1 r s' H in conj U (N Hnb1)) H2)
    as (Hp2 & He2 & _ & Hres2).
  destruct r2 as [a|e]; intros [= <- <-].
  - rewrite Hw1, Hd1, Hp1 in Hres2.
    destruct (succeeded (Return a)); exact Hres2.
  - cbn [succeeded] in *. destruct Hres2. split; congruence.
Qed.

Lemma save_notebook_writable s l :
  notebook s = Some l → disk_error s (notebook_path s) = None →
  ∃ s', save_notebook s = (Return None, s').
Proof.
  intros Hnb Hw. destruct (save_notebook_run s l Hnb) as [(s' & H & _)|(msg & H)].
  - eauto.
  - revert H. unfold save_notebook. run. by rewrite Hnb, Hw.
Qed.

Lemma run_all_cells_outcome s l r s' :
  notebook s = Some l →
  (client s = None → failure (kernel s (length (requests s))) = None) →
  disk_error s (notebook_path s) = None →
  run_all_cells s = (r, s') →
  let n := length (requests s ++ warm_up s) in
  match failure (kernel s n) with
  | None => r = Return None
  | Some (CellExecutionError m) => r = Return (Some ("单元格执行错误: " +:+ m))
  | Some (AssertionError _) =>
      failure (kernel s (n + 2)) = None →
      match failure (kernel s (n + 3)) with
      | None => r = Return None
      | Some e => r = Return (Some ("重试执行单元格失败: " +:+ exn_str e))
      end
  | Some e => r = Raise e
  end.
Proof.
  intros Hnb Hfirst Hw Hrun n.
  destruct (ensure_client_run s l Hnb Hfirst)
    as (s1 & l1 & k & Hs1 & Hnb1 & Hcl1 & Hk1 & Hreq1 & (Hp1 & He1 & _)).
  revert Hrun. unfold run_all_cells. rewrite run_get, Hnb. unfold try_except.
  erewrite run_bind_return by exact Hs1.
  rewrite run_bind, (execute_run s1 l1 Hnb1). cbv zeta.
  rewrite Hk1, Hreq1. fold n.
  set (s2 := with_heap _ _).
  assert (notebook s2 = Some l1) as Hnb2 by exact Hnb1.
  assert (disk_error s2 (notebook_path s2) = None) as Hw2.
  { change (disk_error s1 (notebook_path s1) = None). by rewrite He1, Hp1. }
  destruct (failure (kernel s n)) as [e|] eqn:Hfail.
  2: { destruct (save_notebook_writable s2 l1 Hnb2 Hw2) as [s3 ->].
       by intros [= <- _]. }
  destruct e; try by intros [= <- _].
  intros Hrun Hwarm. revert Hrun.
  rewrite run_bind, (start_kernel_run s2 l1 Hnb2).
  assert (requests s2 ++ teardown s2 = requests s ++ warm_up s ++ [ExecuteAll; Shutdown])
    as Hreq2.
  { unfold teardown, s2. fields. rewrite Hcl1. by rewrite <- !app_assoc. }
  rewrite Hreq2.
  replace (length (requests s ++ warm_up s ++ [ExecuteAll; Shutdown])) with (n + 2)%nat
    by (unfold n; rewrite !length_app; cbn; lia).
  change (kernel s2) with (kernel s1). rewrite Hk1, Hwarm.
  set (s3 := restarted s2 l1).
  assert (∃ l3, notebook s3 = Some l3) as [l3 Hnb3] by (eexists; reflexivity).
  rewrite run_bind, (execute_run s3 l3 Hnb3). cbv zeta.
  assert (length (requests s3) = (n + 3)%nat) as ->.
  { unfold s3, restarted. fields. fold (teardown s2). rewrite Hreq2.
    unfold n. rewrite !length_app. cbn. lia. }
  change (kernel s3) with (kernel s1). rewrite Hk1.
  set (s4 := with_heap _ _).
  destruct (failure (kernel s (n + 3))) as [e|]; [by intros [= <- _]|].
  destruct (save_notebook_writable s4 l3) as [s5 ->]; [exact Hnb3 | | by intros [= <- _]].
  change (disk_error s1 (notebook_path s1) = None). by rewrite He1, Hp1.
Qed.

(** C2, the claim as stated fails when the whole-notebook execution ends
    with a kernel execution error: the backend has stored the error record
    in the cell, [run_all_cells] returns the message, and the file still
    holds the cell as it was before the run. *)
Lemma run_all_cells_error_unsaved :
  ∃ s', run_all_cells dividing =
          (Return (Some "单元格执行错误: ZeroDivisionError: division by zero"), s') ∧
    written s' = written dividing ∧
    disk s' !! "work.ipynb" = Some [new_code_cell "1/0"] ∧
    disk s' !! "work.ipynb" ≠ Some (cells s').
Proof.
  eexists. split; [vm_compute; reflexivity|].
  split; [vm_compute; reflexivity|].
  split; [vm_compute; reflexivity|].
  intros H. vm_compute in H. discriminate H.
Qed.

(** C2 (amended): [run_all_cells] writes the document to its path exactly
    when it returns [None]: then the path was written once and the file
    holds the document's cells; when it returns a message or raises, nothing
    was written.  On a writable path with a connection that can be brought
    up it returns [None] when the whole-notebook execution completes, at the
    first attempt or at the single retry that follows a connection-lost
    signal and a restart; on a kernel execution error and on a failed retry
    it returns the message, so the document is not written then. *)
Theorem run_all_cells_persists s l r s' :
  notebook s = Some l →
  run_all_cells s = (r, s') →
  (if succeeded r
   then written s' = written s ++ [notebook_path s] ∧
        disk s' !! notebook_path s = Some (cells s')
   else written s' = written s ∧ disk s' = disk s) ∧
  ((client s = None → failure (kernel s (length (requests s))) = None) →
   disk_error s (notebook_path s) = None →
   let n := length (requests s ++ warm_up s) in
   match failure (kernel s n) with
   | None => r = Return None
   | Some (CellExecutionError m) => r = Return (Some ("单元格执行错误: " +:+ m))
   | Some (AssertionError _) =>
       failure (kernel s (n + 2)) = None →
       match failure (kernel s (n + 3)) with
       | None => r = Return None
       | Some e => r = Return (Some ("重试执行单元格失败: " +:+ exn_str e))
       end
   | Some e => r = Raise e
   end).
Proof.
  intros Hnb Hrun. split.
  - exact (run_all_cells_written s l r s' Hnb Hrun).
  - intros Hfirst Hw. exact (run_all_cells_outcome s l r s' Hnb Hfirst Hw Hrun).
Qed.

Lemma run_all_cells_persists_witness :
  ∃ s', run_all_cells three_cells = (Return None, s') ∧
    written s' = written three_cells ++ ["work.ipynb"] ∧
    disk s' !! "work.ipynb" = Some (cells s').
Proof.
  destruct (run_all_cells three_cells) as [r s'] eqn:Hrun.
  destruct (run_all_cells_persists three_cells 1%nat r s') as [Hsave Hout];
    [vm_compute; reflexivity | exact Hrun |].
  assert (r = Return None) as ->.
  { assert (client three_cells = None →
            failure (kernel three_cells (length (requests three_cells))) = None) as H1
      by (intros _; vm_compute; reflexivity).
    assert (disk_error three_cells (notebook_path three_cells) = None) as H2
      by (vm_compute; reflexivity).
    specialize (Hout H1 H2). vm_compute in Hout. exact Hout. }
  exists s'. split; [reflexivity|]. exact Hsave.
Defined.

(** ** Running a list of cells *)

Lemma execute_loop_stops l bad post pre : ∀ result s,
  notebook s = Some l → (l < length (heap s))%nat →
  Forall (in_range s l) pre →
  out_of_range bad (deref s l) = true →
  ∃ result' s' js,
    execute_loop (pre ++ bad :: post) result s = (Return result', s') ∧
    notebook s' = Some l ∧ length (deref s' l) = length (deref s l) ∧
    unwritten s s' ∧ kernel s' = kernel s ∧
    requests s' = requests s ++ (ExecuteCell <$> js) ∧
    js `sublist_of` pre ∧
    success result' = false ∧
    (last_index result' = last_index result ∨
     ∃ i, i ∈ pre ∧ last_index result' = Some i) ∧
    (error result' = Some ("单元格索引超出范围: " +:+ pretty bad) ∨
     ∃ i e, i ∈ pre ∧
       error result' = Some ("执行单元格 " +:+ pretty i +:+ " 时出错: " +:+ exn_str e)) ∧
    ((∀ k, (k < length pre)%nat →
           failure (kernel s (length (requests s) + k)) = None) →
     error result' = Some ("单元格索引超出范围: " +:+ pretty bad)).
Proof.
  induction pre as [|idx pre IH]; intros result s Hnb Hl Hpre Hbad.
  - cbn [app execute_loop]. unfold try_except. run. rewrite Hnb, Hbad.
    eexists _, _, []. split; [reflexivity|].
    cbn [fmap list_fmap]. rewrite app_nil_r.
    repeat split; auto using sublist_nil_l.
  - apply Forall_cons in Hpre as [Hidx Hpre].
    cbn [app execute_loop]. unfold try_except, cell_at. run. rewrite Hnb.
    assert (out_of_range idx (deref s l) = false) as -> by by apply out_of_range_false.
    destruct (lookup_lt_is_Some_2 (deref s l) (Z.to_nat idx)) as [cell Hcell];
      [unfold in_range in Hidx; lia|].
    rewrite Hcell.
    destruct (is_code cell); cbn [negb].
    + rewrite execute_cell_run. cbv zeta.
      set (s2 := with_heap _ _).
      assert (length (deref s2 l) = length (deref s l)) as Hlen.
      { unfold s2. rewrite deref_alter by done. rewrite decide_True by done.
        apply length_alter. }
      destruct (failure (kernel s (length (requests s)))) as [e|] eqn:Hfail.
      * eexists _, _, [idx]. split; [reflexivity|].
        repeat split; auto.
        -- apply sublist_skip, sublist_nil_l.
        -- right. exists idx. split; [left|reflexivity].
        -- right. exists idx, e. split; [left|reflexivity].
        -- intros Hall. specialize (Hall 0%nat). rewrite Nat.add_0_r, Hfail in Hall.
           discriminate Hall. cbn. lia.
      * destruct (lookup_lt_is_Some_2 (deref s2 l) (Z.to_nat idx)) as [cell' Hcell'];
          [rewrite Hlen; unfold in_range in Hidx; lia|].
        rewrite Hcell'.
        assert (l < length (heap s2))%nat as Hl2
          by (unfold s2; fields; by rewrite length_alter).
        assert (Forall (in_range s2 l) pre) as Hpre2.
        { eapply Forall_impl; [exact Hpre|]. unfold in_range. intros i. by rewrite Hlen. }
        assert (out_of_range bad (deref s2 l) = true) as Hbad2.
        { revert Hbad. unfold out_of_range. by rewrite Hlen. }
        lazymatch goal with
        | |- context [execute_loop _ ?r s2] =>
            destruct (IH r s2 Hnb Hl2 Hpre2 Hbad2)
              as (result' & s' & js & Hrun & Hnb' & Hlen' & Hun & Hk & Hreq
                  & Hsub & Hsucc & Hlast & Herr & Hgood)
        end.
        rewrite Hrun.
        exists result', s', (idx :: js). split; [reflexivity|].
        rewrite Hlen', Hlen.
        split; [done|]. split; [done|]. split; [exact Hun|]. split; [exact Hk|].
        split.
        { rewrite Hreq. unfold s2. fields. by rewrite <- app_assoc. }
        split; [by apply sublist_skip|]. split; [done|].
        split.
        { right. destruct Hlast as [Hlast|(i & Hi & Hlast)].
          - exists idx. split; [left|exact Hlast].
          - exists i. split; [by right|exact Hlast]. }
        split.
        { destruct Herr as [Herr|(i & e & Hi & Herr)]; [by left|].
          right. exists i, e. split; [by right|exact Herr]. }
        intros Hall. apply Hgood. intros k Hk'.
        change (kernel s2) with (kernel s).
        replace (length (requests s2) + k)%nat with (length (requests s) + S k)%nat.
        { apply Hall. cbn. lia. }
        unfold s2. fields. rewrite length_app. cbn. lia.
    + edestruct (IH result s) as (result' & s' & js & Hrun & Hnb' & Hlen' & Hun & Hk & Hreq
                                & Hsub & Hsucc & Hlast & Herr & Hgood); eauto.
      rewrite Hrun.
      exists result', s', js. split; [reflexivity|].
      repeat split; auto; try apply Hun.
      * by apply sublist_cons.
      * destruct Hlast as [Hlast|(i & Hi & Hlast)]; [by left|].
        right. exists i. split; [by right|exact Hlast].
      * destruct Herr as [Herr|(i & e & Hi & Herr)]; [by left|].
        right. exists i, e. split; [by right|exact Herr].
      * intros Hall. apply Hgood. intros k Hk'. apply Hall. cbn. lia.
Qed.

Lemma ensure_client_same s l :
  notebook s = Some l → (l < length (heap s))%nat →
  (client s = None →
   failure (kernel s (length (requests s))) = None ∧
   (original_cells s = None ∨ original_cells s = Some l)) →
  ∃ s1,
    match client s with None => start_kernel | Some _ => mret () end s
      = (Return (), s1) ∧
    notebook s1 = Some l ∧ (l < length (heap s1))%nat ∧
    deref s1 l = deref s l ∧ kernel s1 = kernel s ∧
    requests s1 = requests s ++ warm_up s.
Proof.
  intros Hnb Hl Hfirst. unfold warm_up. destruct (client s) as [k|] eqn:Hcl.
  - exists s. rewrite app_nil_r. repeat split; done.
  - destruct Hfirst as [Hwarm Horig]; [done|].
    rewrite (start_kernel_run s l Hnb). unfold teardown. rewrite Hcl.
    rewrite app_nil_r, Hwarm.
    eexists. split; [reflexivity|].
    split; [|split; [|split; [by apply deref_restarted|]]].
    + unfold restarted. fields. by destruct Horig as [-> | ->].
    + unfold restarted. fields. rewrite length_app. lia.
    + unfold restarted, teardown. rewrite Hcl. fields.
      rewrite app_nil_r. done.
Qed.

Lemma get_cell_text_output_returns s l i a b :
  notebook s = Some l → in_range s l i →
  ∃ text, get_cell_text_output i a b s = (Return text, s).
Proof.
  intros Hnb Hi. unfold get_cell_text_output, cell_at. run. rewrite Hnb.
  assert (out_of_range i (deref s l) = false) as -> by by apply out_of_range_false.
  destruct (lookup_lt_is_Some_2 (deref s l) (Z.to_nat i)) as [c ->];
    [unfold in_range in Hi; lia|].
  destruct (is_code c), (outputs c); eauto.
Qed.

(** C5: on an open notebook whose connection exists or can be brought up,
    for an index list [pre ++ bad :: post] whose first out-of-range index is
    [bad], [execute_cells_by_indices] returns a result with
    [success = false]; the cells it has executed are drawn, in order, from
    the indices before [bad], so no cell at or after [bad] in the list is
    executed; the error names [bad] unless the execution of an earlier index
    raised and stopped the batch there, and it does name [bad] when the
    executions before it complete. *)
Theorem execute_cells_by_indices_stops s l pre bad post :
  notebook s = Some l → (l < length (heap s))%nat →
  (client s = None →
   failure (kernel s (length (requests s))) = None ∧
   (original_cells s = None ∨ original_cells s = Some l)) →
  Forall (λ i, 0 ≤ i < Z.of_nat (length (cells s))) pre →
  bad < 0 ∨ Z.of_nat (length (cells s)) ≤ bad →
  ∃ result s' js,
    execute_cells_by_indices (pre ++ bad :: post) s = (Return result, s') ∧
    success result = false ∧
    requests s' = requests s ++ warm_up s ++ (ExecuteCell <$> js) ∧
    js `sublist_of` pre ∧
    (error result = Some ("单元格索引超出范围: " +:+ pretty bad) ∨
     ∃ i e, i ∈ pre ∧
       error result = Some ("执行单元格 " +:+ pretty i +:+ " 时出错: " +:+ exn_str e)) ∧
    ((∀ k, (k < length pre)%nat →
           failure (kernel s (length (requests s ++ warm_up s) + k)) = None) →
     error result = Some ("单元格索引超出范围: " +:+ pretty bad)).
Proof.
  intros Hnb Hl Hfirst Hpre Hbad.
  rewrite (cells_open s l Hnb) in Hpre, Hbad.
  destruct (ensure_client_same s l Hnb Hl Hfirst)
    as (s1 & Hs1 & Hnb1 & Hl1 & Hd1 & Hk1 & Hreq1).
  destruct (execute_loop_stops l bad post pre batch_start s1 Hnb1 Hl1)
    as (result & s2 & js & Hloop & Hnb2 & Hlen2 & _ & Hk2 & Hreq2 & Hsub
        & Hsucc & Hlast & Herr & Hgood).
  { unfold in_range. by rewrite Hd1. }
  { apply out_of_range_true. by rewrite Hd1. }
  destruct (save_notebook s2) as [r3 s3] eqn:Hsave.
  destruct (save_notebook_cells _ _ _ Hsave) as (Hh3 & Hnb3 & Hreq3 & _).
  assert (∃ a, r3 = Return a) as [a ->].
  { revert Hsave. unfold save_notebook. run.
    destruct (notebook s2); [destruct (disk_error s2 _)|]; intros [= <- _]; eauto. }
  assert (requests s3 = requests s ++ warm_up s ++ (ExecuteCell <$> js)) as Hreq.
  { rewrite Hreq3, Hreq2, Hreq1. by rewrite <- app_assoc. }
  assert (∃ result' s', execute_cells_by_indices (pre ++ bad :: post) s
                        = (Return result', s') ∧
          success result' = success result ∧ error result' = error result ∧
          requests s' = requests s3) as (result' & s' & Hrun & Hsucc' & Herr' & Hreq').
  { unfold execute_cells_by_indices. rewrite run_get, Hnb.
    erewrite run_bind_return by exact Hs1.
    erewrite run_bind_return by exact Hloop.
    erewrite run_bind_return by exact Hsave.
    destruct (last_index result) as [i|] eqn:Hli;
      [|eexists _, _; split; [reflexivity | done]].
    destruct (get_cell_text_output_returns s3 l i 0 (Some 3000)) as [text Hget].
    { by rewrite Hnb3. }
    { destruct Hlast as [Hlast|(j & Hj & Hlast)]; [discriminate Hlast|].
      injection Hlast as <-. unfold in_range, deref. rewrite Hh3.
      fold (deref s2 l). rewrite Hlen2, Hd1.
      by apply (proj1 (Forall_forall _ _) Hpre). }
    unfold get_cell_text_output_default.
    erewrite run_bind_return by exact Hget.
    eexists _, _; split; [reflexivity | done]. }
  exists result', s', js. split; [exact Hrun|].
  rewrite Hsucc', Herr', Hreq'. repeat split; auto.
  intros Hall. apply Hgood. intros k Hk. rewrite Hk1, Hreq1. by apply Hall.
Qed.

Lemma execute_cells_by_indices_stops_witness :
  ∃ result s',
    execute_cells_by_indices [5] three_cells = (Return result, s') ∧
    success result = false ∧
    error result = Some "单元格索引超出范围: 5" ∧
    requests s' = requests three_cells.
Proof.
  destruct (execute_cells_by_indices_stops three_cells 1%nat [] 5 [])
    as (result & s' & js & Hrun & Hsucc & Hreq & Hsub & _ & Herr).
  - vm_compute; reflexivity.
  - vm_compute; lia.
  - intros H. vm_compute in H. discriminate H.
  - constructor.
  - right. vm_compute. discriminate.
  - exists result, s'. split; [exact Hrun|]. split; [exact Hsucc|].
    split; [apply Herr; cbn; lia|].
    apply sublist_nil_r in Hsub. subst js. rewrite Hreq.
    vm_compute; reflexivity.
Defined.

(** ** Malformed parameters *)

(** C3, the claim as stated fails in each of its parts.  [insert_cell]
    answers an unknown cell type, and [set_slideshow_type] an unknown slide
    type, with a returned message: nothing is raised.
    [insert_and_execute_cell] on a session without a client raises the
    unknown cell type only after the warm-up run that brings up a
    connection.  [execute_cells_by_indices] does not raise an index out of
    range: it returns a result that reports it, and saves the document. *)
Lemma insert_cell_returns_validation_error :
  insert_cell "x" "raw" None three_cells =
    (Return "不支持的单元格类型: raw", three_cells) ∧
  set_slideshow_type 0 (Some "title") three_cells =
    (Return (Some "无效的幻灯片类型: title，有效类型为: slide, subslide, fragment, skip, notes, None"),
     three_cells) ∧
  (∃ s', insert_and_execute_cell "x" "raw" None disconnected =
           (Raise (ValueError "不支持的单元格类型: raw"), s') ∧
     requests s' = requests disconnected ++ [Warmup]) ∧
  (∃ result s', execute_cells_by_indices [7] three_cells = (Return result, s') ∧
     error result = Some "单元格索引超出范围: 7" ∧
     written s' = written three_cells ++ ["work.ipynb"]).
Proof.
  split; [vm_compute; reflexivity|].
  split; [vm_compute; reflexivity|].
  split.
  - eexists. split; vm_compute; reflexivity.
  - eexists _, _. split; [vm_compute; reflexivity|].
    split; vm_compute; reflexivity.
Qed.

(** C3 (amended): on an open notebook, [run_cell], [get_cell_text_output]
    and [get_image_output] raise a malformed parameter as a [ValueError]
    (an index out of range; for [run_cell] also a cell that is not code),
    and [insert_cell], [edit_cell_content], [set_slideshow_type] and
    [delete_cell] return it as an error message instead of raising (an
    index out of range, an unknown cell type, an unknown slide type); all
    seven do so before any backend work and without any change to the
    session.  [insert_and_execute_cell] and [execute_cells_by_indices] first
    make sure that a connection exists, with a warm-up run when the session
    has no client, and check their parameters after that; the warm-up run
    is taken to complete and, for [execute_cells_by_indices], to put the
    notebook's own cells back.  [insert_and_execute_cell] then raises an
    unknown cell type as a [ValueError] and writes nothing; with a client
    in place the session is unchanged.  [execute_cells_by_indices] does not
    raise an index out of range: met first in the list, it is reported in
    the error field of the result returned, with no cell run, and the
    document is saved. *)
Theorem malformed_parameter_detected_first s l :
  notebook s = Some l →
  (∀ i, i < 0 ∨ Z.of_nat (length (cells s)) ≤ i →
     let msg := "单元格索引超出范围: " +:+ pretty i in
     run_cell i s = (Raise (ValueError msg), s) ∧
     (∀ a b, get_cell_text_output i a b s = (Raise (ValueError msg), s)) ∧
     (∀ src, edit_cell_content i src s = (Return (Some msg), s)) ∧
     (∀ t, set_slideshow_type i t s = (Return (Some msg), s)) ∧
     delete_cell i s = (Return (Some msg), s) ∧
     (∀ format, get_image_output i format s = (Raise (ValueError msg), s))) ∧
  (∀ i c, 0 ≤ i → cells s !! Z.to_nat i = Some c → cell_type c ≠ "code" →
     run_cell i s = (Raise (ValueError ("单元格不是代码类型: " +:+ pretty i)), s)) ∧
  (∀ code cell_type index, cell_type ≠ "code" → cell_type ≠ "markdown" →
     insert_cell code cell_type index s =
       (Return ("不支持的单元格类型: " +:+ cell_type), s)) ∧
  (∀ code cell_type i, i < 0 ∨ Z.of_nat (length (cells s)) < i →
     ∃ msg, insert_cell code cell_type (Some i) s = (Return msg, s)) ∧
  (∀ i t, 0 ≤ i < Z.of_nat (length (cells s)) → t ∉ valid_types →
     set_slideshow_type i t s =
       (Return (Some ("无效的幻灯片类型: " +:+ slide_type_str t +:+
                      "，有效类型为: slide, subslide, fragment, skip, notes, None")), s)) ∧
  (∀ code cell_type index, cell_type ≠ "code" → cell_type ≠ "markdown" →
     (client s = None → failure (kernel s (length (requests s))) = None) →
     ∃ s', insert_and_execute_cell code cell_type index s =
             (Raise (ValueError ("不支持的单元格类型: " +:+ cell_type)), s') ∧
       requests s' = requests s ++ warm_up s ∧ unwritten s s' ∧
       (is_Some (client s) → s' = s)) ∧
  (∀ i rest, i < 0 ∨ Z.of_nat (length (cells s)) ≤ i →
     (l < length (heap s))%nat →
     (client s = None →
      failure (kernel s (length (requests s))) = None ∧
      (original_cells s = None ∨ original_cells s = Some l)) →
     ∃ s', execute_cells_by_indices (i :: rest) s =
             (Return (mkBatchResult false None
                        (Some ("单元格索引超出范围: " +:+ pretty i)) [] None), s') ∧
       requests s' = requests s ++ warm_up s ∧
       cells s' = cells s ∧
       match disk_error s (notebook_path s) with
       | None => written s' = written s ++ [notebook_path s] ∧
                 disk s' !! notebook_path s = Some (cells s)
       | Some _ => written s' = written s ∧ disk s' = disk s
       end).
Proof.
  intros Hnb. rewrite (cells_open s l Hnb).
  split; [|split; [|split; [|split; [|split; [|split]]]]].
  - intros i Hi msg. apply out_of_range_true in Hi.
    unfold run_cell, get_cell_text_output, edit_cell_content,
      set_slideshow_type, delete_cell, get_image_output.
    run. rewrite Hnb, Hi. repeat split.
  - intros i c Hi Hc Hcode. unfold run_cell, cell_at. run. rewrite Hnb.
    assert (out_of_range i (deref s l) = false) as ->.
    { apply out_of_range_false. apply lookup_lt_Some in Hc. lia. }
    rewrite Hc. unfold is_code. by rewrite bool_decide_eq_false_2.
  - intros code cell_type index Hc Hm. unfold insert_cell, new_cell. run.
    rewrite Hnb. by rewrite !bool_decide_eq_false_2.
  - intros code cell_type i Hi. unfold insert_cell. run. rewrite Hnb.
    destruct (new_cell code cell_type); [|by eauto].
    replace ((i <? 0) || (Z.of_nat (length (deref s l)) <? i)) with true; [by eauto|].
    symmetry. rewrite orb_true_iff, !Z.ltb_lt. exact Hi.
  - intros i t Hi Ht. apply out_of_range_false in Hi.
    unfold set_slideshow_type. run. rewrite Hnb, Hi.
    by rewrite bool_decide_eq_false_2.
  - intros code cell_type index Hc Hm Hfirst.
    destruct (ensure_client_run s l Hnb Hfirst)
      as (s1 & l1 & k & Hs1 & Hnb1 & Hcl1 & Hk1 & Hreq1 & Hunw).
    exists s1. split; [|split; [exact Hreq1|split; [exact Hunw|]]].
    + unfold insert_and_execute_cell. rewrite run_get, Hnb.
      erewrite run_bind_return by exact Hs1.
      unfold new_cell. by rewrite !bool_decide_eq_false_2.
    + intros [k' Hk']. rewrite Hk' in Hs1. by injection Hs1 as <-.
  - intros i rest Hi Hl Hfirst.
    destruct (ensure_client_same s l Hnb Hl Hfirst)
      as (s1 & Hs1 & Hnb1 & Hl1 & Hd1 & Hk1 & Hreq1).
    destruct (ensure_client_unwritten s l _ s1 Hnb Hs1) as [(Hp1 & He1 & Hdisk1 & Hw1) _].
    apply out_of_range_true in Hi. rewrite <- Hd1 in Hi.
    assert (execute_loop (i :: rest) batch_start s1 =
              (Return (mkBatchResult false None
                         (Some ("单元格索引超出范围: " +:+ pretty i)) [] None), s1)) as Hloop.
    { cbn [execute_loop]. run. rewrite Hnb1, Hi. reflexivity. }
    unfold execute_cells_by_indices. rewrite run_get, Hnb.
    erewrite run_bind_return by exact Hs1.
    erewrite run_bind_return by exact Hloop.
    unfold save_notebook. run. rewrite Hnb1. cbn [last_index].
    rewrite He1, Hp1.
    destruct (disk_error s (notebook_path s)) as [e|] eqn:Hde.
    + exists s1. split; [reflexivity|]. split; [exact Hreq1|].
      split; [by rewrite (cells_open s1 l Hnb1)|]. by split.
    + eexists. split; [reflexivity|]. fields.
      split; [exact Hreq1|].
      split; [unfold cells; fields; by rewrite Hnb1|].
      rewrite Hw1, Hp1. split; [done|].
      rewrite lookup_insert_eq. by rewrite Hd1.
Qed.

Lemma malformed_parameter_detected_first_witness :
  run_cell 3 three_cells = (Raise (ValueError "单元格索引超出范围: 3"), three_cells) ∧
  run_cell 1 three_cells = (Raise (ValueError "单元格不是代码类型: 1"), three_cells) ∧
  delete_cell (-1) three_cells = (Return (Some "单元格索引超出范围: -1"), three_cells) ∧
  insert_cell "x" "raw" (Some 0) three_cells =
    (Return "不支持的单元格类型: raw", three_cells) ∧
  insert_and_execute_cell "x" "raw" (Some 0) three_cells =
    (Raise (ValueError "不支持的单元格类型: raw"), three_cells) ∧
  (∃ s', insert_and_execute_cell "x" "raw" (Some 0) disconnected =
           (Raise (ValueError "不支持的单元格类型: raw"), s') ∧
     requests s' = [Warmup; Shutdown; Warmup]) ∧
  (∃ s', execute_cells_by_indices [3; 0] three_cells =
           (Return (mkBatchResult false None (Some "单元格索引超出范围: 3") [] None), s') ∧
     requests s' = [Warmup] ∧
     written s' = written three_cells ++ ["work.ipynb"]).
Proof.
  destruct (malformed_parameter_detected_first three_cells 1%nat)
    as (Hidx & Hcode & Hkind & _ & _ & Hrun & Hbatch); [vm_compute; reflexivity|].
  destruct (malformed_parameter_detected_first disconnected 1%nat)
    as (_ & _ & _ & _ & _ & Hrun' & _); [vm_compute; reflexivity|].
  split; [|split; [|split; [|split; [|split; [|split]]]]].
  - apply (Hidx 3). right. vm_compute. discriminate.
  - apply (Hcode 1 (new_markdown_cell "# notes")); [lia | vm_compute; reflexivity | discriminate].
  - apply (Hidx (-1)). left. lia.
  - apply (Hkind "x" "raw" (Some 0)); discriminate.
  - destruct (Hrun "x" "raw" (Some 0)) as (s' & Hr & _ & _ & Hsame);
      [discriminate | discriminate | intros H; vm_compute in H; discriminate H|].
    rewrite Hr. f_equal. apply Hsame. vm_compute. by eexists.
  - destruct (Hrun' "x" "raw" (Some 0)) as (s' & Hr & Hreq & _);
      [discriminate | discriminate | intros _; vm_compute; reflexivity|].
    exists s'. split; [exact Hr|]. rewrite Hreq. vm_compute; reflexivity.
  - destruct (Hbatch 3 [0]) as (s' & Hr & Hreq & _ & Hsave).
    + right. vm_compute. discriminate.
    + vm_compute; lia.
    + intros H; vm_compute in H; discriminate H.
    + exists s'. split; [exact Hr|]. split; [rewrite Hreq; vm_compute; reflexivity|].
      change (disk_error three_cells (notebook_path three_cells)) with (@None string) in Hsave.
      destruct Hsave as [Hw _]. rewrite Hw. reflexivity.
Defined.

(** ** Opening and constructing *)

Lemma open_notebook_new path s :
  notebook s = None → disk s !! path = None →
  open_notebook path s = start_kernel (opened_new path s).
Proof.
  intros Hnb Hfile. destruct s as [env nb p cl orig h d de w k rq].
  cbn in Hnb, Hfile. subst nb.
  unfold open_notebook, save_notebook, opened_new. run. fields.
  rewrite Hfile. fields.
  rewrite length_app. cbn [length]. rewrite <- app_assoc. cbn [app].
  rewrite Nat.add_1_r.
  destruct (de path) as [e|]; fields; [reflexivity|].
  do 2 f_equal. unfold deref. fields.
  by rewrite (list_lookup_middle h [[]] [] (length h)).
Qed.

Lemma open_notebook_existing path doc s :
  notebook s = None → disk s !! path = Some doc →
  open_notebook path s = start_kernel (opened_existing path doc s).
Proof.
  intros Hnb Hfile. destruct s as [env nb p cl orig h d de w k rq].
  cbn in Hnb, Hfile. subst nb.
  unfold open_notebook, opened_existing. run. fields. by rewrite Hfile.
Qed.

Lemma cells_stranded s l : cells (stranded s l) = [].
Proof.
  unfold cells, stranded, restarted, deref. fields. cbn [from_option].
  by rewrite list_lookup_middle.
Qed.

Lemma cells_restarted_new path s :
  cells (restarted (opened_new path s) (length (heap s))) = [].
Proof.
  unfold cells, restarted, opened_new, deref. fields.
  cbn [from_option default id].
  rewrite lookup_app_l by (rewrite length_app; cbn; lia).
  rewrite lookup_app_r by lia.
  by replace (S (length (heap s)) - length (heap s))%nat with 1%nat by lia.
Qed.

Lemma cells_restarted_existing path doc s :
  cells (restarted (opened_existing path doc s) (length (heap s))) = doc.
Proof.
  unfold cells, restarted, opened_existing, deref. fields.
  cbn [from_option default id].
  rewrite lookup_app_l by (rewrite length_app; cbn; lia).
  by rewrite list_lookup_middle.
Qed.

Lemma __init___run env path init_code isnew s :
  __init__ env path init_code isnew s =
  (open_notebook path;;
   if negb (bool_decide (init_code = ""))
   then _ ← insert_and_execute_cell init_code "code" (Some 0); mret tt
   else mret tt)
    (let s0 := constructed env path s in
     if isnew then with_disk (delete path (disk s0)) s0 else s0).
Proof. unfold __init__. run. by destruct isnew. Qed.

(** C10: with [isnew = True] the constructor removes the file at
    [notebook_path] before it opens the path.  So the session it builds
    over an existing file is the one it builds where there is no file: the
    previous contents play no part.  Without initial code the document it
    leaves has no cell, and the file is the empty document (or is gone, when
    the path cannot be written).  With [isnew = False], no initial code and
    a connection that comes up, the cells of an existing file are the
    document's cells and the files are untouched. *)
Theorem construction_starts_fresh env path s :
  (∀ doc init_code,
     __init__ env path init_code true (with_disk (<[path := doc]> (disk s)) s) =
     __init__ env path init_code true (with_disk (delete path (disk s)) s)) ∧
  (∀ r s', __init__ env path "" true s = (r, s') →
     cells s' = [] ∧
     disk s' !! path =
       match disk_error s path with None => Some [] | Some _ => None end) ∧
  (∀ doc, disk s !! path = Some doc →
     failure (kernel s (length (requests s))) = None →
     ∃ s', __init__ env path "" false s = (Return tt, s') ∧
       cells s' = doc ∧ disk s' = disk s ∧ written s' = written s).
Proof.
  split; [|split].
  - intros doc init_code. rewrite !__init___run. cbv zeta.
    unfold constructed. fields.
    by rewrite delete_insert_eq, delete_delete_eq.
  - intros r s'. rewrite __init___run. cbv zeta.
    cbn [negb bool_decide decide_rel].
    set (s0 := with_disk _ _).
    rewrite run_bind.
    rewrite (open_notebook_new path s0) by (try apply lookup_delete_eq; reflexivity).
    rewrite (start_kernel_run _ (length (heap s))) by reflexivity.
    assert (disk (opened_new path s0) !! path =
            match disk_error s path with None => Some [] | Some _ => None end) as Hfile.
    { unfold opened_new, s0, constructed. fields.
      destruct (disk_error s path); [apply lookup_delete_eq | apply lookup_insert_eq]. }
    destruct (failure _); intros [= <- <-].
    + split; [apply cells_stranded | exact Hfile].
    + split; [apply (cells_restarted_new path s0) | exact Hfile].
  - intros doc Hfile Hwarm. rewrite __init___run. cbv zeta.
    cbn [negb bool_decide decide_rel].
    rewrite run_bind.
    rewrite (open_notebook_existing path doc) by (reflexivity || exact Hfile).
    rewrite (start_kernel_run _ (length (heap s))) by reflexivity.
    unfold teardown, opened_existing, constructed. fields.
    rewrite app_nil_r, Hwarm.
    eexists. split; [reflexivity|].
    split; [apply (cells_restarted_existing path doc (constructed env path s))|done].
Qed.

Lemma construction_starts_fresh_witness :
  ∃ s', __init__ None "work.ipynb" "" false three_cells = (Return tt, s') ∧
    cells s' = cells three_cells ∧ disk s' = disk three_cells.
Proof.
  destruct (construction_starts_fresh None "work.ipynb" three_cells)
    as (_ & _ & Hload).
  destruct (Hload (cells three_cells)) as (s' & Hrun & Hcells & Hdisk & _);
    [vm_compute; reflexivity | vm_compute; reflexivity |].
  exists s'. split; [exact Hrun|]. split; [exact Hcells | exact Hdisk].
Defined.

(** ** Inserting and executing *)

(** What [insert_and_execute_cell] does once the cell is in the list and
    has been executed: it leaves the backend alone. *)
Lemma insert_and_execute_cell_tail l p s :
  ∃ r s',
    (s1 ← get;
     modify (with_original_cells (notebook s1));;
     _ ← save_notebook;
     s2 ← get;
     cell_at (deref s2 l) (Z.of_nat p)) s = (r, s') ∧
    requests s' = requests s.
Proof.
  rewrite run_get, run_bind. unfold modify at 1. cbv beta iota.
  set (s3 := with_original_cells _ s).
  rewrite run_bind.
  destruct (save_notebook s3) as [[a|e] s4] eqn:Hsave;
    destruct (save_notebook_cells _ _ _ Hsave) as (_ & _ & Hreq & _).
  - rewrite run_get. destruct (cell_at _ _ s4) as [r s5] eqn:Hcell.
    exists r, s5. split; [reflexivity|].
    revert Hcell. unfold cell_at. destruct (_ !! _); run; intros [= <- <-]; exact Hreq.
  - eexists _, _. split; [reflexivity|]. exact Hreq.
Qed.

(** C8, at an explicit index past the end of the list: [insert_cell]
    rejects the index and leaves the session as it was, whereas
    [insert_and_execute_cell] makes no check.  The list insertion clips the
    index, so the new cell goes to the end of the list, and the backend is
    asked to execute it under the index given, which is no position of the
    list.  What follows is the backend's answer.  If the run is taken as
    done, or fails in the cell's own code, the cell is returned and the
    document with the misplaced cell is saved.  If it ends with any other
    exception but the connection-lost signal, as with nbclient, whose store
    of the cell under that index is an [IndexError], the exception is
    raised to the caller: the cell stays in the list in memory and nothing
    is written.  On the connection-lost signal a restart follows. *)
Theorem insert_and_execute_cell_unchecked_index s l k code i :
  notebook s = Some l → (l < length (heap s))%nat → client s = Some k →
  Z.of_nat (length (cells s)) < i →
  let r := kernel s (length (requests s)) in
  let cell := on_cell r (new_code_cell code) in
  insert_cell code "code" (Some i) s = (Return ("无效的索引位置: " +:+ pretty i), s) ∧
  ∃ res s' rs,
    insert_and_execute_cell code "code" (Some i) s = (res, s') ∧
    requests s' = requests s ++ ExecuteCell i :: rs ∧
    match failure r with
    | None | Some (CellExecutionError _) =>
        res = Return cell ∧ rs = [] ∧ cells s' = cells s ++ [cell] ∧
        match disk_error s (notebook_path s) with
        | None => disk s' !! notebook_path s = Some (cells s ++ [cell])
        | Some _ => disk s' = disk s
        end
    | Some (AssertionError _) => ∃ rs', rs = Shutdown :: Warmup :: rs'
    | Some e =>
        res = Raise e ∧ rs = [] ∧ cells s' = cells s ++ [cell] ∧ unwritten s s'
    end.
Proof.
  intros Hnb Hl Hcl Hi r cell.
  pose proof (cells_open s l Hnb) as Hcs.
  split.
  { unfold insert_cell. rewrite run_get, Hnb.
    change (new_cell code "code") with (Some (new_code_cell code)). cbv beta iota zeta.
    rewrite <- Hcs.
    assert ((i <? 0) || (Z.of_nat (length (cells s)) <? i) = true) as ->; [|done].
    apply orb_true_iff. right. by apply Z.ltb_lt. }
  set (p := length (cells s)).
  set (s1 := with_heap (alter (py_insert i (new_code_cell code)) l (heap s)) s).
  assert ((mutate l (py_insert i (new_code_cell code));;
           mret (py_bound (length (deref s l)) i, i)) s = (Return (p, i), s1)) as Hins.
  { run. rewrite <- Hcs.
    replace (py_bound (length (cells s)) i) with p; [reflexivity|].
    rewrite py_bound_above by lia. unfold p. lia. }
  assert (deref s1 l = cells s ++ [new_code_cell code]) as Hd1.
  { unfold s1. rewrite deref_alter by done. rewrite decide_True by done.
    rewrite <- Hcs. unfold py_insert. rewrite py_bound_above by lia.
    replace (Z.to_nat i `min` length (cells s))%nat with (length (cells s)) by lia.
    by rewrite take_ge, drop_ge. }
  assert (l < length (heap s1))%nat as Hl1 by (unfold s1; fields; by rewrite length_alter).
  set (s2 := with_heap (alter (alter (on_cell r) p) l (heap s1))
               (with_requests (requests s ++ [ExecuteCell i]) s1)).
  assert (execute_cell l p i s1 =
            (match failure r with None => Return tt | Some e => Raise e end, s2)) as Hexec.
  { by rewrite execute_cell_run. }
  assert (deref s2 l = cells s ++ [cell]) as Hd2.
  { unfold s2. rewrite deref_alter by done. rewrite decide_True by done. rewrite Hd1.
    rewrite alter_app_r_alt by (unfold p; lia).
    by replace (p - length (cells s))%nat with 0%nat by (unfold p; lia). }
  assert (notebook s2 = Some l ∧ notebook_path s2 = notebook_path s ∧
          disk_error s2 = disk_error s ∧ disk s2 = disk s ∧ written s2 = written s ∧
          client s2 = Some k ∧ kernel s2 = kernel s ∧
          requests s2 = requests s ++ [ExecuteCell i] ∧
          (l < length (heap s2))%nat)
    as (Hnb2 & Hp2 & He2 & Hdk2 & Hw2 & Hcl2 & Hk2 & Hreq2 & Hl2).
  { unfold s2. fields. rewrite ?length_alter. done. }
  (* the call after the insertion *)
  assert (∀ res s',
            (try_except (execute_cell l p i)
               (λ e, match e with
                     | CellExecutionError _ => mret ()
                     | AssertionError _ =>
                         start_kernel;;
                         try_except (execute_cell l p i) (λ _, mret ())
                     | _ => raise e
                     end);;
             s3 ← get;
             modify (with_original_cells (notebook s3));;
             _ ← save_notebook;
             s4 ← get;
             cell_at (deref s4 l) (Z.of_nat p)) s1 = (res, s') →
            insert_and_execute_cell code "code" (Some i) s = (res, s')) as Hstep.
  { intros res s' <-.
    unfold insert_and_execute_cell. rewrite run_get, Hnb, Hcl.
    erewrite run_bind_return by reflexivity.
    change (new_cell code "code") with (Some (new_code_cell code)). cbv beta iota.
    erewrite (run_bind_return notebook_cells)
      by (unfold notebook_cells; rewrite run_get, Hnb; reflexivity).
    rewrite run_get.
    erewrite run_bind_return by exact Hins. cbv beta iota.
    by rewrite bool_decide_eq_true_2. }
  (* a run that is taken as done: the cell is returned and the document saved *)
  assert (∃ s',
            (s3 ← get;
             modify (with_original_cells (notebook s3));;
             _ ← save_notebook;
             s4 ← get;
             cell_at (deref s4 l) (Z.of_nat p)) s2 = (Return cell, s') ∧
            requests s' = requests s ++ [ExecuteCell i] ∧
            cells s' = cells s ++ [cell] ∧
            match disk_error s (notebook_path s) with
            | None => disk s' !! notebook_path s = Some (cells s ++ [cell])
            | Some _ => disk s' = disk s
            end) as (sd & Hdone & Hreqd & Hcd & Hdiskd).
  { rewrite run_get, run_bind. unfold modify at 1. cbv beta iota. rewrite Hnb2.
    set (s3 := with_original_cells (Some l) s2).
    assert (notebook s3 = Some l) as Hnb3 by exact Hnb2.
    assert (cells s3 = cells s ++ [cell]) as Hc3.
    { rewrite (cells_open s3 l Hnb3). exact Hd2. }
    destruct (save_notebook s3) as [a s4] eqn:Hsave.
    destruct (save_notebook_cells _ _ _ Hsave) as (Hh & Hn & Hr & _).
    assert (deref s4 l = cells s ++ [cell]) as Hd4.
    { unfold deref. rewrite Hh. exact Hd2. }
    assert (cells s4 = cells s ++ [cell]) as Hc4.
    { unfold cells. rewrite Hn, Hnb3. exact Hd4. }
    assert (∃ a', a = Return a' ∧
              match disk_error s (notebook_path s) with
              | None => disk s4 !! notebook_path s = Some (cells s ++ [cell])
              | Some _ => disk s4 = disk s
              end) as (a' & -> & Hdisk).
    { revert Hsave. unfold save_notebook. run. rewrite Hnb3.
      change (disk_error s3) with (disk_error s2).
      change (notebook_path s3) with (notebook_path s2). rewrite He2, Hp2.
      destruct (disk_error s (notebook_path s)); intros [= <- <-].
      - eexists. split; [reflexivity|]. exact Hdk2.
      - eexists. split; [reflexivity|]. fields.
        rewrite lookup_insert_eq. change (deref s3 l) with (deref s2 l).
        by rewrite Hd2. }
    exists s4. rewrite run_bind, Hsave, run_get. unfold cell_at.
    rewrite Hd4, Nat2Z.id. unfold p. rewrite list_lookup_middle by done.
    split; [reflexivity|]. split; [by rewrite Hr|]. split; [exact Hc4|exact Hdisk]. }
  destruct (failure r) as [e|] eqn:Hfail.
  2: { exists (Return cell), sd, []. split; [|split; [exact Hreqd|by repeat split]].
       apply Hstep. rewrite run_bind. unfold try_except. rewrite Hexec.
       exact Hdone. }
  destruct e as [m|m|m|m|m].
  1, 2, 5:
    eexists (Raise _), s2, [];
    (split; [apply Hstep; rewrite run_bind; unfold try_except;
             by rewrite Hexec|]);
    (split; [exact Hreq2|]); (split; [reflexivity|]); (split; [reflexivity|]);
    (split; [by rewrite (cells_open s2 l Hnb2)|]); by repeat split.
  - exists (Return cell), sd, []. split; [|split; [exact Hreqd|by repeat split]].
    apply Hstep. rewrite run_bind. unfold try_except. rewrite Hexec.
    exact Hdone.
  - (* the connection is lost: a restart, and one more attempt if it comes up *)
    assert (requests s2 ++ teardown s2 = requests s ++ [ExecuteCell i; Shutdown]) as Ht2.
    { unfold teardown. rewrite Hcl2, Hreq2. by rewrite <- app_assoc. }
    pose proof (start_kernel_run s2 l Hnb2) as Hstart. rewrite Ht2 in Hstart.
    destruct (failure (kernel s2 _)) as [e|] eqn:Hwarm.
    + exists (Raise e), (stranded s2 l), [Shutdown; Warmup].
      split; [|split; [|by exists []]].
      * apply Hstep. rewrite run_bind. unfold try_except. rewrite Hexec.
        rewrite run_bind. by rewrite Hstart.
      * unfold stranded, restarted. fields. fold (teardown s2). rewrite Ht2.
        by rewrite <- app_assoc.
    + set (s3 := restarted s2 l) in *.
      assert (requests s3 = requests s ++ [ExecuteCell i; Shutdown; Warmup]) as Hreq3.
      { unfold s3, restarted. fields. fold (teardown s2). rewrite Ht2.
        by rewrite <- app_assoc. }
      pose proof (execute_cell_run l p i s3) as Hretry. cbv zeta in Hretry.
      set (s4 := with_heap _ _) in Hretry.
      assert (requests s4 = requests s ++ [ExecuteCell i; Shutdown; Warmup; ExecuteCell i])
        as Hreq4.
      { unfold s4. fields. rewrite Hreq3. by rewrite <- app_assoc. }
      destruct (insert_and_execute_cell_tail l p s4) as (res & s' & Htail & Hreq').
      exists res, s', [Shutdown; Warmup; ExecuteCell i].
      split; [|split; [|by exists [ExecuteCell i]]].
      * apply Hstep. rewrite run_bind. unfold try_except. rewrite Hexec.
        rewrite run_bind, Hstart. rewrite Hretry.
        destruct (failure (kernel s3 _)); exact Htail.
      * by rewrite Hreq', Hreq4.
Qed.

Lemma insert_and_execute_cell_unchecked_index_witness :
  insert_cell "y = 2" "code" (Some 7) misindexed =
    (Return "无效的索引位置: 7", misindexed) ∧
  ∃ s', insert_and_execute_cell "y = 2" "code" (Some 7) misindexed =
          (Raise (OtherError "list assignment index out of range"), s') ∧
    requests s' = [Warmup; ExecuteCell 7] ∧
    cells s' = [new_code_cell "x = 1"; new_markdown_cell "# notes";
                new_code_cell "print(x)"; new_code_cell "y = 2"] ∧
    disk s' = disk misindexed ∧ written s' = written misindexed.
Proof.
  destruct (insert_and_execute_cell_unchecked_index misindexed 1%nat 0%nat "y = 2" 7)
    as (Hcheck & res & s' & rs & Hrun & Hreq & Hrow).
  - reflexivity.
  - vm_compute; lia.
  - reflexivity.
  - vm_compute; reflexivity.
  - split; [exact Hcheck|].
    change (failure (kernel misindexed (length (requests misindexed))))
      with (Some (OtherError "list assignment index out of range")) in Hrow.
    cbv beta iota in Hrow.
    destruct Hrow as (-> & -> & Hcells & _ & _ & Hdisk & Hwritten).
    exists s'. split; [exact Hrun|]. split; [exact Hreq|].
    split; [exact Hcells|]. split; [exact Hdisk | exact Hwritten].
Defined.

(** ** Python strings: [find] and slices *)

Lemma length_append (t u : string) :
  String.length (t +:+ u) = (String.length t + String.length u)%nat.
Proof.
  induction t as [|c t IH]; [reflexivity|].
  change (S (String.length (t +:+ u)) = S (String.length t + String.length u)).
  by rewrite IH.
Qed.

Lemma prefix_append (t u : string) : String.prefix t (t +:+ u) = true.
Proof.
  induction t as [|c t IH]; [by destruct u|].
  change (String.prefix (String c t) (String c (t +:+ u)) = true).
  cbn [String.prefix]. by destruct (Ascii.ascii_dec c c).
Qed.

(** The first occurrence of a text lies behind a stretch that lacks its
    first character. *)
Lemma index_behind c m (a t : string) :
  lacks c a = true →
  String.index 0 (String c m) (a +:+ String c m +:+ t) = Some (String.length a).
Proof.
  induction a as [|d a IH]; intros Ha.
  - change ("" +:+ String c m +:+ t) with (String c m +:+ t).
    change (String c m +:+ t) with (String c (m +:+ t)) at 1.
    cbn [String.index]. change (String c (m +:+ t)) with (String c m +:+ t).
    by rewrite prefix_append.
  - cbn [lacks] in Ha. apply andb_true_iff in Ha as [Hd Ha].
    apply negb_true_iff, bool_decide_eq_false in Hd.
    change (String d a +:+ String c m +:+ t)
      with (String d (a +:+ String c m +:+ t)).
    cbn [String.index String.prefix String.length].
    destruct (Ascii.ascii_dec c d) as [?|_]; [done|].
    by rewrite (IH Ha).
Qed.

(** Without its first character a text does not occur. *)
Lemma index_lacking c m n (a : string) :
  lacks c a = true → String.index n (String c m) a = None.
Proof.
  revert n. induction a as [|d a IH]; intros n Ha.
  - by destruct n.
  - cbn [lacks] in Ha. apply andb_true_iff in Ha as [Hd Ha].
    apply negb_true_iff, bool_decide_eq_false in Hd.
    destruct n as [|n]; cbn [String.index String.prefix].
    + destruct (Ascii.ascii_dec c d) as [?|_]; [done|]. by rewrite (IH 0%nat Ha).
    + by rewrite (IH n Ha).
Qed.

(** [find(sub, start)] looks at nothing before [start]. *)
Lemma index_skip (u a t : string) :
  String.index (String.length a) u (a +:+ t) =
  (λ i, (String.length a + i)%nat) <$> String.index 0 u t.
Proof.
  induction a as [|d a IH].
  - change ("" +:+ t) with t. cbn [String.length].
    by destruct (String.index 0 u t).
  - change (String d a +:+ t) with (String d (a +:+ t)).
    cbn [String.length String.index]. rewrite IH.
    by destruct (String.index 0 u t).
Qed.

Lemma substring_skip (a t : string) m :
  String.substring (String.length a) m (a +:+ t) = String.substring 0 m t.
Proof.
  induction a as [|d a IH]; [reflexivity|].
  change (String d a +:+ t) with (String d (a +:+ t)).
  cbn [String.length String.substring]. exact IH.
Qed.

Lemma substring_head (a t : string) :
  String.substring 0 (String.length a) (a +:+ t) = a.
Proof.
  induction a as [|d a IH]; [by destruct t|].
  change (String d a +:+ t) with (String d (a +:+ t)).
  cbn [String.length String.substring]. by rewrite IH.
Qed.

Lemma substring_substring (t : string) : ∀ a len m k,
  (m + k ≤ len)%nat →
  String.substring m k (String.substring a len t) = String.substring (a + m) k t.
Proof.
  induction t as [|c t IH]; intros a len m k Hk.
  - destruct a, len, m, k; reflexivity.
  - destruct a as [|a].
    + cbn [Nat.add]. destruct len as [|len].
      * assert (m = 0 ∧ k = 0)%nat as [-> ->] by lia. reflexivity.
      * cbn [String.substring]. destruct m as [|m].
        -- destruct k as [|k]; [reflexivity|].
           cbn [String.substring]. f_equal.
           rewrite (IH 0%nat len 0%nat k) by lia. reflexivity.
        -- cbn [String.substring].
           rewrite (IH 0%nat len m k) by lia. reflexivity.
    + cbn [String.substring Nat.add]. by apply IH.
Qed.

Lemma length_substring_le (t : string) : ∀ a len,
  (String.length (String.substring a len t) ≤ len)%nat.
Proof.
  induction t as [|c t IH]; intros a len.
  - destruct a, len; cbn; lia.
  - destruct a as [|a]; cbn [String.substring].
    + destruct len as [|len]; cbn [String.length]; [lia|].
      specialize (IH 0%nat len). lia.
    + apply IH.
Qed.

Lemma length_substring_fits (t : string) : ∀ m k,
  (0 < k)%nat → String.length (String.substring m k t) = k →
  (m + k ≤ String.length t)%nat.
Proof.
  induction t as [|c t IH]; intros m k Hk Hlen.
  - destruct m, k; cbn in Hlen; lia.
  - destruct m as [|m]; cbn [String.substring String.length] in *.
    + destruct k as [|k]; [lia|]. cbn [String.length] in Hlen.
      destruct k as [|k]; [lia|].
      specialize (IH 0%nat (S k)). lia.
    + specialize (IH m k Hk Hlen). lia.
Qed.

Lemma index_in_range (u : string) : ∀ (t : string) n i,
  String.index n u t = Some i → (n ≤ i ≤ String.length t)%nat.
Proof.
  induction t as [|c t IH]; intros n i Hi.
  - destruct n; cbn in Hi; [|done]. destruct u; [|done].
    injection Hi as <-. cbn. lia.
  - destruct n as [|n]; cbn [String.index String.length] in *.
    + destruct (String.prefix u (String c t)); [injection Hi as <-; lia|].
      destruct (String.index 0 u t) as [j|] eqn:Hj; [|done].
      injection Hi as <-. specialize (IH _ _ Hj). lia.
    + destruct (String.index n u t) as [j|] eqn:Hj; [|done].
      injection Hi as <-. specialize (IH _ _ Hj). lia.
Qed.

Lemma substring_split (t : string) : ∀ a m k,
  String.substring a (m + k) t =
  String.substring a m t +:+ String.substring (a + m) k t.
Proof.
  induction t as [|c t IH]; intros a m k.
  - destruct a, m, k; reflexivity.
  - destruct a as [|a].
    + destruct m as [|m]; [reflexivity|].
      cbn [Nat.add String.substring]. rewrite (IH 0%nat m k).
      reflexivity.
    + cbn [Nat.add String.substring]. apply IH.
Qed.

Lemma substring_all (t : string) : String.substring 0 (String.length t) t = t.
Proof.
  induction t as [|c t IH]; [reflexivity|].
  cbn [String.length String.substring]. by rewrite IH.
Qed.

(** ** Editing a cell in place *)

(** An in-place change of the notebook's list followed by a save. *)
Lemma mutate_then_save s l f :
  notebook s = Some l → (l < length (heap s))%nat →
  ∃ r s', (mutate l f;; save_notebook) s = (Return r, s') ∧
    cells s' = f (cells s) ∧
    notebook s' = notebook s ∧ original_cells s' = original_cells s ∧
    client s' = client s ∧ requests s' = requests s ∧
    notebook_path s' = notebook_path s ∧
    match disk_error s (notebook_path s) with
    | None => r = None ∧ disk s' = <[notebook_path s := f (cells s)]> (disk s) ∧
              written s' = written s ++ [notebook_path s]
    | Some e => r = Some ("保存笔记本时出错: " +:+ e) ∧ disk s' = disk s ∧
                written s' = written s
    end.
Proof.
  intros Hnb Hl. unfold save_notebook. run. fields. rewrite Hnb.
  assert (deref (with_heap (alter f l (heap s)) s) l = f (cells s)) as Hd.
  { rewrite deref_alter by done. rewrite decide_True by done.
    by rewrite (cells_open s l Hnb). }
  destruct (disk_error s (notebook_path s)) as [e|] eqn:Hw.
  - eexists _, _. split; [reflexivity|]. fields.
    split; [by rewrite <- Hd; unfold cells; fields; rewrite Hnb|].
    repeat split; done.
  - eexists _, _. split; [reflexivity|]. fields.
    split; [by rewrite <- Hd; unfold cells; fields; rewrite Hnb|].
    rewrite Hd. repeat split; done.
Qed.

(** X1: on an open notebook, [edit_cell_content] at an in-range index
    replaces the source of that cell and nothing else: the number of cells,
    every other cell, and the other fields of the edited cell stay as they
    were, and the backend is not called.  The document is then saved; a save
    that fails is answered as text and leaves storage as it was. *)
Theorem edit_cell_content_source_only s l i new_content :
  notebook s = Some l → (l < length (heap s))%nat →
  0 ≤ i < Z.of_nat (length (cells s)) →
  ∃ r s', edit_cell_content i new_content s = (Return r, s') ∧
    length (cells s') = length (cells s) ∧
    (∀ j c, cells s !! j = Some c →
       cells s' !! j =
         Some (if decide (j = Z.to_nat i) then set_source new_content c else c)) ∧
    requests s' = requests s ∧
    match disk_error s (notebook_path s) with
    | None => r = None ∧ disk s' !! notebook_path s = Some (cells s')
    | Some e => r = Some ("保存笔记本时出错: " +:+ e) ∧ disk s' = disk s
    end.
Proof.
  intros Hnb Hl Hi.
  destruct (mutate_then_save s l (alter (set_source new_content) (Z.to_nat i)) Hnb Hl)
    as (r & s' & Hrun & Hcells & _ & _ & _ & Hreq & _ & Hsave).
  exists r, s'. split.
  { unfold edit_cell_content. rewrite run_get, Hnb.
    rewrite <- (cells_open s l Hnb).
    by rewrite (proj2 (out_of_range_false i (cells s)) Hi). }
  rewrite Hcells. split; [apply length_alter|]. split.
  { intros j c Hc. destruct (decide (j = Z.to_nat i)) as [->|Hne].
    - by rewrite list_lookup_alter_eq, Hc.
    - by rewrite list_lookup_alter_ne. }
  split; [exact Hreq|].
  destruct (disk_error s (notebook_path s)).
  - destruct Hsave as (-> & -> & _). done.
  - destruct Hsave as (-> & -> & _). split; [done|]. apply lookup_insert_eq.
Qed.

Lemma edit_cell_content_source_only_witness :
  ∃ s', edit_cell_content 1 "# title" three_cells = (Return None, s') ∧
    cells s' = [new_code_cell "x = 1"; new_markdown_cell "# title";
                new_code_cell "print(x)"].
Proof.
  destruct (edit_cell_content_source_only three_cells 1%nat 1 "# title")
    as (r & s' & Hrun & Hlen & Hcells & _ & Hsave).
  - reflexivity.
  - vm_compute; lia.
  - vm_compute; split; [discriminate | reflexivity].
  - exists s'. destruct Hsave as [-> _]. split; [exact Hrun|].
    apply list_eq. intros [|[|[|j]]].
    + by rewrite (Hcells 0%nat (new_code_cell "x = 1")).
    + by rewrite (Hcells 1%nat (new_markdown_cell "# notes")).
    + by rewrite (Hcells 2%nat (new_code_cell "print(x)")).
    + rewrite lookup_ge_None_2; [done|]. rewrite Hlen. vm_compute; lia.
Defined.






(** ** Listing the cells by type *)

Lemma kind_at_cons kind i c cs j :
  kind_at kind i (c :: cs) j ↔
  (j = i ∧ cell_type c = kind) ∨ kind_at kind (i + 1) cs j.
Proof.
  unfold kind_at. split.
  - intros [Hij (c' & Hc' & Hk)].
    destruct (decide (j = i)) as [->|Hne].
    + left. rewrite Z.sub_diag in Hc'. cbn in Hc'. by injection Hc' as ->.
    + right. split; [lia|]. exists c'. split; [|done].
      replace (Z.to_nat (j - i)) with (S (Z.to_nat (j - (i + 1)))) in Hc' by lia.
      exact Hc'.
  - intros [[-> Hk]|[Hij (c' & Hc' & Hk)]].
    + split; [lia|]. exists c. by rewrite Z.sub_diag.
    + split; [lia|]. exists c'. split; [|done].
      replace (Z.to_nat (j - i)) with (S (Z.to_nat (j - (i + 1)))) by lia.
      exact Hc'.
Qed.

Lemma enumerate_cells_elem cs : ∀ i info j,
  (j ∈ code_cells (enumerate_cells i cs info) ↔
   j ∈ code_cells info ∨ kind_at "code" i cs j) ∧
  (j ∈ markdown_cells (enumerate_cells i cs info) ↔
   j ∈ markdown_cells info ∨ kind_at "markdown" i cs j).
Proof.
  induction cs as [|c cs IH]; intros i info j.
  - cbn. unfold kind_at. split; split; auto; intros [?|[_ (c & Hc & _)]]; auto;
      discriminate Hc.
  - cbn [enumerate_cells]. rewrite !kind_at_cons.
    destruct (IH (i + 1) (if bool_decide (cell_type c = "code")
         then mkNotebookInfo (code_cells info ++ [i]) (markdown_cells info)
         else if bool_decide (cell_type c = "markdown")
         then mkNotebookInfo (code_cells info) (markdown_cells info ++ [i])
         else info) j) as [-> ->].
    destruct (bool_decide_reflect (cell_type c = "code")) as [Hc|Hc];
      [|destruct (bool_decide_reflect (cell_type c = "markdown")) as [Hm|Hm]];
      cbn [code_cells markdown_cells];
      rewrite ?elem_of_app, ?list_elem_of_singleton; split; split;
      try (rewrite Hc); try (rewrite Hm); intuition congruence.
Qed.

Lemma enumerate_cells_sorted cs : ∀ i info,
  StronglySorted Z.lt (code_cells info) → Forall (λ j, j < i) (code_cells info) →
  StronglySorted Z.lt (markdown_cells info) → Forall (λ j, j < i) (markdown_cells info) →
  StronglySorted Z.lt (code_cells (enumerate_cells i cs info)) ∧
  StronglySorted Z.lt (markdown_cells (enumerate_cells i cs info)).
Proof.
  assert (∀ (l : list Z) i, StronglySorted Z.lt l → Forall (λ j, j < i) l →
            StronglySorted Z.lt (l ++ [i]) ∧ Forall (λ j, j < i + 1) (l ++ [i])) as Hsnoc.
  { intros l i Hs Hlt. split.
    - induction Hs as [|x l Hs IH Hx]; cbn; [repeat constructor|].
      apply Forall_cons in Hlt as [Hxi Hlt]. constructor; [by apply IH|].
      apply Forall_app. split; [done|]. by constructor.
    - apply Forall_app. split; [|constructor; [lia|constructor]].
      eapply Forall_impl; [exact Hlt|]. cbn. lia. }
  assert (∀ (l : list Z) i, Forall (λ j, j < i) l → Forall (λ j, j < i + 1) l) as Hweak.
  { intros l i H. eapply Forall_impl; [exact H|]. cbn. lia. }
  induction cs as [|c cs IH]; intros i info Hsc Hlc Hsm Hlm; [done|].
  cbn [enumerate_cells]. apply IH;
    destruct (bool_decide (cell_type c = "code"));
    [|destruct (bool_decide (cell_type c = "markdown"))| |
      destruct (bool_decide (cell_type c = "markdown"))| |
      destruct (bool_decide (cell_type c = "markdown"))| |
      destruct (bool_decide (cell_type c = "markdown"))];
    cbn [code_cells markdown_cells]; auto; by apply Hsnoc.
Qed.

(** X3: [get_notebook_info] lists under [code_cells] exactly the indices of
    the code cells and under [markdown_cells] exactly those of the markdown
    cells, each list in ascending order without repetition; it changes
    nothing. *)
Theorem get_notebook_info_partition s l :
  notebook s = Some l →
  ∃ info, get_notebook_info s = (Return info, s) ∧
    (∀ j, j ∈ code_cells info ↔
          0 ≤ j ∧ ∃ c, cells s !! Z.to_nat j = Some c ∧ cell_type c = "code") ∧
    (∀ j, j ∈ markdown_cells info ↔
          0 ≤ j ∧ ∃ c, cells s !! Z.to_nat j = Some c ∧ cell_type c = "markdown") ∧
    StronglySorted Z.lt (code_cells info) ∧
    StronglySorted Z.lt (markdown_cells info).
Proof.
  intros Hnb. unfold get_notebook_info. rewrite run_get, Hnb.
  eexists. split; [reflexivity|]. rewrite (cells_open s l Hnb).
  split; [|split].
  - intros j. rewrite (proj1 (enumerate_cells_elem _ 0 _ j)).
    cbn [code_cells]. unfold kind_at. rewrite Z.sub_0_r.
    rewrite elem_of_nil. tauto.
  - intros j. rewrite (proj2 (enumerate_cells_elem _ 0 _ j)).
    cbn [markdown_cells]. unfold kind_at. rewrite Z.sub_0_r.
    rewrite elem_of_nil. tauto.
  - apply enumerate_cells_sorted; constructor.
Qed.

Lemma get_notebook_info_partition_witness :
  ∃ info, get_notebook_info three_cells = (Return info, three_cells) ∧
    2 ∈ code_cells info ∧ 1 ∈ markdown_cells info ∧ 1 ∉ code_cells info.
Proof.
  destruct (get_notebook_info_partition three_cells 1%nat)
    as (info & Hrun & Hcode & Hmd & _).
  - reflexivity.
  - exists info. split; [exact Hrun|]. split; [|split].
    + apply Hcode. split; [lia|]. exists (new_code_cell "print(x)").
      split; [vm_compute; reflexivity | reflexivity].
    + apply Hmd. split; [lia|]. exists (new_markdown_cell "# notes").
      split; [vm_compute; reflexivity | reflexivity].
    + intros Hin. apply Hcode in Hin as (_ & c & Hc & Hk).
      vm_compute in Hc. injection Hc as <-. discriminate Hk.
Defined.

(** ** Which indices reach the backend *)

Lemma start_kernel_asked s r s' :
  start_kernel s = (r, s') → ∃ rs, asked s s' rs.
Proof.
  destruct (notebook s) as [l|] eqn:Hnb.
  - rewrite (start_kernel_run s l Hnb).
    destruct (failure _); intros [= <- <-];
      exists (teardown s ++ [Warmup]); unfold asked, stranded, restarted; fields;
      by rewrite app_assoc.
  - unfold start_kernel. run. rewrite Hnb. intros [= <- <-].
    exists []. unfold asked. by rewrite app_nil_r.
Qed.

Lemma attempt_asked l p i s r s' :
  (execute_cell l p i;; _ ← save_notebook; get_cell_text_output_default i) s = (r, s') →
  asked s s' [ExecuteCell i].
Proof.
  rewrite run_bind, execute_cell_run. cbv zeta.
  destruct (failure _); [by intros [= <- <-]|].
  rewrite run_bind.
  destruct (save_notebook _) as [r1 s1] eqn:Hsave.
  apply save_notebook_cells in Hsave as (_ & _ & Hreq & _).
  destruct r1 as [a|e]; [|intros [= <- <-]; exact Hreq].
  destruct (get_cell_text_output_default i s1) as [r2 s2] eqn:Hget.
  apply get_cell_text_output_pure in Hget as ->.
  intros [= <- <-]. exact Hreq.
Qed.

(** Past its validation, [run_cell] always reaches the backend. *)
Lemma run_cell_asks s l i c r s' :
  notebook s = Some l → 0 ≤ i → deref s l !! Z.to_nat i = Some c →
  cell_type c = "code" →
  run_cell i s = (r, s') →
  ∃ q rs, asked s s' (q :: rs).
Proof.
  intros Hnb Hi Hc Hcode. unfold run_cell. rewrite run_get, Hnb.
  assert (out_of_range i (deref s l) = false) as ->.
  { apply out_of_range_false. apply lookup_lt_Some in Hc. lia. }
  unfold cell_at. rewrite Hc. erewrite run_bind_return by reflexivity.
  unfold is_code. rewrite bool_decide_eq_true_2 by done. cbn [negb].
  rewrite run_bind.
  assert (∀ s1 r s', 
    try_except
      (execute_cell l (Z.to_nat i) i;;
       _ ← save_notebook;
       get_cell_text_output_default i)
      (λ e,
         match e with
         | CellExecutionError _ => mret ("单元格执行错误: " +:+ exn_str e)
         | AssertionError _ =>
             start_kernel;;
             try_except
               (execute_cell l (Z.to_nat i) i;;
                _ ← save_notebook;
                get_cell_text_output_default i)
               (λ e, mret ("重试执行单元格失败: " +:+ exn_str e))
         | _ => raise e
         end) s1 = (r, s') → ∃ rs, asked s1 s' (ExecuteCell i :: rs)) as Htail.
  { intros s1 r1 s1'. unfold try_except at 1.
    destruct ((execute_cell _ _ _;; _) s1) as [r2 s2] eqn:H2.
    apply attempt_asked in H2.
    destruct r2 as [a|e]; [intros [= <- <-]; by exists []|].
    destruct e; try (intros [= <- <-]; by exists []).
    rewrite run_bind. destruct (start_kernel s2) as [r3 s3] eqn:H3.
    apply start_kernel_asked in H3 as [rs3 H3].
    destruct r3 as [[]|e]; [|intros [= <- <-]].
    2: { exists rs3. unfold asked in *. by rewrite H3, H2, <- app_assoc. }
    unfold try_except.
    destruct ((execute_cell _ _ _;; _) s3) as [r4 s4] eqn:H4.
    apply attempt_asked in H4.
    assert (asked s1 s4 (ExecuteCell i :: rs3 ++ [ExecuteCell i])) as Hall.
    { unfold asked in *. rewrite H4, H3, H2. by rewrite <- !app_assoc. }
    destruct r4; intros [= <- <-]; eauto. }
  destruct (client s) as [k|] eqn:Hcl.
  - intros H. apply Htail in H as [rs H]. eauto.
  - destruct (start_kernel s) as [r1 s1] eqn:H1.
    pose proof H1 as H1'. rewrite (start_kernel_run s l Hnb) in H1'.
    assert (asked s s1 (teardown s ++ [Warmup])) as Hask.
    { destruct (failure _); injection H1' as <- <-;
        unfold asked, stranded, restarted; fields; by rewrite app_assoc. }
    unfold teardown in Hask. rewrite Hcl in Hask. cbn [app] in Hask.
    destruct r1 as [[]|e]; [|intros [= <- <-]; eauto].
    intros H. apply Htail in H as [rs H].
    exists Warmup, (ExecuteCell i :: rs). unfold asked in *.
    rewrite H, Hask. by rewrite <- app_assoc.
Qed.

(** X4: [run_cell] calls the backend exactly at the indices that
    [get_notebook_info] lists as code cells: there it makes at least one
    request, and at any other index it raises [ValueError] with the session
    untouched. *)
Theorem run_cell_reaches_backend_on_code_cells s l info :
  notebook s = Some l →
  get_notebook_info s = (Return info, s) →
  ∀ i r s', run_cell i s = (r, s') →
    (i ∈ code_cells info → ∃ q rs, requests s' = requests s ++ q :: rs) ∧
    (i ∉ code_cells info → s' = s ∧ ∃ msg, r = Raise (ValueError msg)).
Proof.
  intros Hnb Hinfo i r s' Hrun.
  unfold get_notebook_info in Hinfo. rewrite run_get, Hnb in Hinfo.
  injection Hinfo as <-.
  assert (i ∈ code_cells (enumerate_cells 0 (deref s l) (mkNotebookInfo [] [])) ↔
          0 ≤ i ∧ ∃ c, deref s l !! Z.to_nat i = Some c ∧ cell_type c = "code")
    as Hcode.
  { rewrite (proj1 (enumerate_cells_elem _ 0 _ i)).
    cbn [code_cells]. unfold kind_at. rewrite Z.sub_0_r.
    rewrite elem_of_nil. tauto. }
  split.
  - intros Hi. apply Hcode in Hi as (Hi & c & Hc & Hk).
    exact (run_cell_asks s l i c r s' Hnb Hi Hc Hk Hrun).
  - intros Hi. revert Hrun. unfold run_cell. rewrite run_get, Hnb.
    destruct (out_of_range i (deref s l)) eqn:Hrange; [intros [= <- <-]; eauto|].
    apply out_of_range_false in Hrange.
    destruct (lookup_lt_is_Some_2 (deref s l) (Z.to_nat i)) as [c Hc]; [lia|].
    unfold cell_at. rewrite Hc. erewrite run_bind_return by reflexivity.
    unfold is_code.
    destruct (bool_decide_reflect (cell_type c = "code")) as [Hk|Hk]; cbn [negb].
    + destruct Hi. apply Hcode. split; [lia|]. eauto.
    + intros [= <- <-]; eauto.
Qed.

Lemma run_cell_reaches_backend_on_code_cells_witness :
  (run_cell 1 three_cells).2 = three_cells ∧
  ∃ q rs, requests (run_cell 2 three_cells).2 = requests three_cells ++ q :: rs.
Proof.
  pose proof (run_cell_reaches_backend_on_code_cells three_cells 1%nat
                (mkNotebookInfo [0; 2] [1])) as H.
  split.
  - destruct (H eq_refl ltac:(vm_compute; reflexivity) 1
                (run_cell 1 three_cells).1 (run_cell 1 three_cells).2) as [_ Hno].
    + by destruct (run_cell 1 three_cells).
    + apply Hno. cbn [code_cells]. intros Hin.
      apply elem_of_cons in Hin as [Hin|Hin]; [discriminate Hin|].
      apply elem_of_cons in Hin as [Hin|Hin]; [discriminate Hin|].
      by apply elem_of_nil in Hin.
  - destruct (H eq_refl ltac:(vm_compute; reflexivity) 2
                (run_cell 2 three_cells).1 (run_cell 2 three_cells).2) as [Hyes _].
    + by destruct (run_cell 2 three_cells).
    + apply Hyes. cbn [code_cells]. apply list_elem_of_further, list_elem_of_here.
Defined.

(** ** Image output *)

Lemma first_image_some mime outs p :
  first_image mime outs = Some p ↔
  ∃ k o, outs !! k = Some o ∧ has_image mime o p ∧
    ∀ k' o' p', (k' < k)%nat → outs !! k' = Some o' → ¬ has_image mime o' p'.
Proof.
  induction outs as [|o outs IH]; cbn [first_image].
  - split; [discriminate|]. intros (k & o & Hk & _). discriminate Hk.
  - assert (∀ q, (∃ data, (o = ExecuteResult data ∨ o = DisplayData data) ∧
                     data !! mime = Some q) → first_image mime (o :: outs) = Some q)
      as Hhere.
    { intros q (data & [-> | ->] & Hd); cbn; by rewrite Hd. }
    assert ((∀ q, ¬ has_image mime o q) →
            (first_image mime outs = Some p ↔
             ∃ k o0, (o :: outs) !! k = Some o0 ∧ has_image mime o0 p ∧
               ∀ k' o' p', (k' < k)%nat → (o :: outs) !! k' = Some o' →
                           ¬ has_image mime o' p')) as Hskip.
    { intros Hno. rewrite IH. split.
      - intros (k & o0 & Hk & Hp & Hfirst). exists (S k), o0.
        split; [done|]. split; [done|]. intros [|k'] o' p' Hlt Hk'.
        + injection Hk' as <-. apply Hno.
        + apply (Hfirst k'); [lia | done].
      - intros (k & o0 & Hk & Hp & Hfirst). destruct k as [|k].
        + injection Hk as <-. by destruct (Hno p).
        + exists k, o0. split; [done|]. split; [done|].
          intros k' o' p' Hlt Hk'. apply (Hfirst (S k')); [lia | done]. }
    assert (∀ data, data !! mime = None →
              (o = ExecuteResult data ∨ o = DisplayData data) →
              ∀ q, ¬ has_image mime o q) as Hmiss.
    { intros data Hd Ho q (data' & Ho' & Hd').
      destruct Ho as [-> | ->], Ho' as [[= <-] | [= <-]]; congruence. }
    assert (∀ data q, data !! mime = Some q →
              (o = ExecuteResult data ∨ o = DisplayData data) →
              (Some q = Some p ↔
               ∃ k o0, (o :: outs) !! k = Some o0 ∧ has_image mime o0 p ∧
                 ∀ k' o' p', (k' < k)%nat → (o :: outs) !! k' = Some o' →
                             ¬ has_image mime o' p')) as Hhit.
    { intros data q Hd Ho. split.
      - intros [= ->]. exists 0%nat, o. split; [done|].
        split; [by exists data|]. intros k' o' p' Hlt. lia.
      - intros (k & o0 & Hk & (data' & Ho' & Hd') & Hfirst). destruct k as [|k].
        + injection Hk as <-.
          destruct Ho as [-> | ->], Ho' as [[= <-] | [= <-]]; congruence.
        + destruct (Hfirst 0%nat o q); [lia | done | by exists data]. }
    destruct o as [name text|data|data|ename evalue].
    + apply Hskip. intros q (data & [[=]|[=]] & _).
    + destruct (data !! mime) as [q|] eqn:Hd; [by eapply Hhit; eauto|].
      apply Hskip. eapply Hmiss; eauto.
    + destruct (data !! mime) as [q|] eqn:Hd; [by eapply Hhit; eauto|].
      apply Hskip. eapply Hmiss; eauto.
    + apply Hskip. intros q (data & [[=]|[=]] & _).
Qed.

(** X5: [get_image_output] answers with the payload of the first output
    record, in record order, that is an [execute_result] or a
    [display_data] carrying [image/<format>]; it answers [None] exactly when
    the cell is not a code cell, has no outputs, or no record carries one.
    The session is unchanged. *)
Theorem get_image_output_first_match s l i c format :
  notebook s = Some l → 0 ≤ i → cells s !! Z.to_nat i = Some c →
  ∃ r, get_image_output i format s = (Return r, s) ∧
    (∀ p, r = Some p ↔
       cell_type c = "code" ∧ ∃ outs k o,
         outputs c = Some outs ∧ outs !! k = Some o ∧
         has_image ("image/" +:+ format) o p ∧
         ∀ k' o' p', (k' < k)%nat → outs !! k' = Some o' →
                     ¬ has_image ("image/" +:+ format) o' p').
Proof.
  intros Hnb Hi Hc. rewrite (cells_open s l Hnb) in Hc.
  unfold get_image_output. rewrite run_get, Hnb.
  assert (out_of_range i (deref s l) = false) as ->.
  { apply out_of_range_false. apply lookup_lt_Some in Hc. lia. }
  unfold cell_at. rewrite Hc. erewrite run_bind_return by reflexivity.
  unfold is_code.
  destruct (bool_decide_reflect (cell_type c = "code")) as [Hk|Hk].
  - destruct (outputs c) as [outs|] eqn:Houts.
    + eexists. split; [reflexivity|]. intros p.
      rewrite first_image_some. split.
      * intros (k & o & H). split; [done|]. by exists outs, k, o.
      * intros (_ & outs' & k & o & [= <-] & H). by exists k, o.
    + eexists. split; [reflexivity|]. intros p. split; [discriminate|].
      intros (_ & outs' & k & o & [=] & _).
  - eexists. split; [reflexivity|]. intros p. split; [discriminate|].
    intros (Hk' & _). done.
Qed.

Lemma get_image_output_first_match_witness :
  ∃ r, get_image_output 0 "png" plotted = (Return r, plotted) ∧
    r = Some "iVBORw0KGgo=".
Proof.
  set (figure := DisplayData {[ "text/plain" := "<Figure>";
                                "image/png" := "iVBORw0KGgo=" ]}).
  destruct (get_image_output_first_match plotted 1%nat 0
              (set_outputs (Some [Stream "stdout" "done"; figure])
                 (new_code_cell "plt.plot(xs)")) "png") as (r & Hrun & Hr).
  - reflexivity.
  - lia.
  - vm_compute; reflexivity.
  - exists r. split; [exact Hrun|]. apply Hr. split; [reflexivity|].
    exists [Stream "stdout" "done"; figure], 1%nat, figure.
    split; [reflexivity|]. split; [reflexivity|]. split.
    + eexists. split; [by right|]. vm_compute; reflexivity.
    + intros [|k'] o' p' Hlt Ho'; [|lia]. injection Ho' as <-.
      intros (data & [[=]|[=]] & _).
Defined.

(** ** Shutting down and re-initialising *)

(** [shutdown_kernel] on a session that holds a client. *)
Lemma shutdown_kernel_run s k :
  client s = Some k →
  shutdown_kernel s =
  (Return tt,
   let s1 := with_requests (requests s ++ [Shutdown]) s in
   match failure (kernel s (length (requests s))) with
   | None => with_client None s1
   | Some _ => s1
   end).
Proof.
  intros Hcl. unfold shutdown_kernel. rewrite run_get, Hcl. run. fields.
  by destruct (failure _).
Qed.

(** X6: [shutdown_kernel] never raises and touches neither the notebook,
    the backup nor storage.  Without a connection it does nothing; with one
    it makes one shutdown request, and forgets the connection only when
    that request went through: a failed shutdown is swallowed and the
    connection is kept. *)
Theorem shutdown_kernel_best_effort s :
  ∃ s', shutdown_kernel s = (Return tt, s') ∧
    notebook s' = notebook s ∧ original_cells s' = original_cells s ∧
    heap s' = heap s ∧ kernel s' = kernel s ∧ unwritten s s' ∧
    match client s with
    | None => s' = s
    | Some k =>
        requests s' = requests s ++ [Shutdown] ∧
        client s' = match failure (kernel s (length (requests s))) with
                    | None => None
                    | Some _ => Some k
                    end
    end.
Proof.
  destruct (client s) as [k|] eqn:Hcl.
  - rewrite (shutdown_kernel_run s k Hcl). cbv zeta.
    destruct (failure _); eexists; (split; [reflexivity|]);
      fields; repeat split; done.
  - exists s. unfold shutdown_kernel. rewrite run_get, Hcl. repeat split; done.
Qed.

(** What [initialize_notebook] leaves when its warm-up completes. *)
Lemma initialize_notebook_run s l :
  notebook s = Some l →
  initialize_notebook s =
  match failure (kernel s (length (requests s))) with
  | None => (Return tt, restarted (with_client None s) l)
  | Some e => (Raise e, stranded (with_client None s) l)
  end.
Proof.
  intros Hnb. destruct s as [env nb path cl orig h d de w k rq].
  cbn in Hnb. subst nb.
  unfold initialize_notebook, stranded, restarted, teardown. run. fields.
  destruct orig as [o|], cl as [c|]; fields; rewrite ?app_nil_r;
    destruct (failure _); reflexivity.
Qed.

(** X7: [initialize_notebook], when its warm-up run completes, puts the
    backed-up cells (or the current ones, when there was no backup) back
    in place and leaves a connection after one warm-up request only: unlike
    [start_kernel], it does not ask an existing kernel to shut down.
    Without a connection the two do the same. *)
Theorem initialize_notebook_keeps_old_kernel s l :
  notebook s = Some l → allocated s →
  failure (kernel s (length (requests s))) = None →
  ∃ s', initialize_notebook s = (Return tt, s') ∧
    cells s' = from_option (deref s) (cells s) (original_cells s) ∧
    requests s' = requests s ++ [Warmup] ∧
    is_Some (client s') ∧ aliased s' ∧
    (client s = None → start_kernel s = (Return tt, s')).
Proof.
  intros Hnb [Hl Ho] Hwarm. rewrite (initialize_notebook_run s l Hnb), Hwarm.
  eexists. split; [reflexivity|].
  split.
  { rewrite (cells_open s l Hnb).
    change (cells (restarted (with_client None s) l))
      with (deref (restarted (with_client None s) l) (default l (original_cells s))).
    destruct (original_cells s) as [o|]; cbn [default from_option id];
      apply (deref_restarted (with_client None s)); auto. }
  split; [unfold restarted, teardown; fields; by rewrite app_nil_r|].
  split; [by eexists|]. split; [reflexivity|].
  intros Hcl. rewrite (start_kernel_run s l Hnb). unfold teardown.
  rewrite Hcl, app_nil_r, Hwarm. do 2 f_equal.
  destruct s; cbn in *; by subst.
Qed.

Lemma initialize_notebook_keeps_old_kernel_witness :
  ∃ s', initialize_notebook three_cells = (Return tt, s') ∧
    cells s' = cells three_cells ∧
    requests s' = [Warmup; Warmup].
Proof.
  destruct (initialize_notebook_keeps_old_kernel three_cells 1%nat)
    as (s' & Hrun & Hcells & Hreq & _).
  - reflexivity.
  - split; intros l H; vm_compute in H; injection H as <-; vm_compute; lia.
  - reflexivity.
  - exists s'. split; [exact Hrun|]. split; [|exact Hreq].
    rewrite Hcells. vm_compute; reflexivity.
Defined.

(** ** One run of a code cell *)

(** One execution of the cell at [i] of the notebook's own list that
    completes, the save and the text read back. *)
Lemma attempt_completes s l i :
  notebook s = Some l → (l < length (heap s))%nat →
  0 ≤ i < Z.of_nat (length (cells s)) →
  failure (kernel s (length (requests s))) = None →
  ∃ text s',
    (execute_cell l (Z.to_nat i) i;;
     _ ← save_notebook;
     get_cell_text_output_default i) s = (Return text, s') ∧
    cells s' = alter (on_cell (kernel s (length (requests s)))) (Z.to_nat i) (cells s) ∧
    requests s' = requests s ++ [ExecuteCell i] ∧
    get_cell_text_output i 0 (Some 3000) s' = (Return text, s') ∧
    notebook s' = notebook s ∧ original_cells s' = original_cells s ∧
    client s' = client s ∧ notebook_path s' = notebook_path s ∧
    match disk_error s (notebook_path s) with
    | None => disk s' !! notebook_path s = Some (cells s') ∧
              written s' = written s ++ [notebook_path s]
    | Some _ => disk s' = disk s ∧ written s' = written s
    end.
Proof.
  intros Hnb Hl Hi Hok.
  rewrite run_bind, execute_cell_run. cbv zeta. rewrite Hok.
  set (s1 := with_heap _ _).
  assert (notebook s1 = Some l) as Hnb1 by exact Hnb.
  assert (cells s1 = alter (on_cell (kernel s (length (requests s)))) (Z.to_nat i) (cells s))
    as Hcells1.
  { unfold cells. rewrite Hnb1, Hnb. cbn [from_option]. unfold s1.
    rewrite deref_alter by done. by rewrite decide_True. }
  rewrite run_bind.
  destruct (save_notebook_run s1 l Hnb1)
    as [(s2 & Hsave & Hw2 & Hd2 & Hc2 & Hp2 & He2)|(msg & Hsave)]; rewrite Hsave.
  - destruct (save_notebook_cells _ _ _ Hsave) as (Hh & Hn & Hr & Ho & Hc & _).
    destruct (get_cell_text_output_returns s2 l i 0 (Some 3000)) as [text Hget].
    { by rewrite Hn. }
    { unfold in_range. rewrite <- (cells_open s2 l) by by rewrite Hn.
      by rewrite Hc2, Hcells1, length_alter. }
    unfold get_cell_text_output_default. rewrite Hget.
    exists text, s2. split; [done|]. rewrite Hc2, Hn, Ho, Hc, Hr, Hp2.
    repeat split; try done.
    assert (disk_error s (notebook_path s) = None) as ->.
    { revert Hsave. unfold save_notebook. run. rewrite Hnb1.
      change (disk_error s1 (notebook_path s1)) with (disk_error s (notebook_path s)).
      by destruct (disk_error s (notebook_path s)). }
    split; [|exact Hw2]. rewrite Hd2. apply lookup_insert_eq.
  - destruct (get_cell_text_output_returns s1 l i 0 (Some 3000)) as [text Hget].
    { exact Hnb1. }
    { unfold in_range. rewrite <- (cells_open s1 l Hnb1).
      by rewrite Hcells1, length_alter. }
    unfold get_cell_text_output_default. rewrite Hget.
    exists text, s1. split; [done|].
    repeat split; try done.
    assert (∃ e, disk_error s (notebook_path s) = Some e) as [e ->]; [|done].
    revert Hsave. unfold save_notebook. run. rewrite Hnb1.
    change (disk_error s1 (notebook_path s1)) with (disk_error s (notebook_path s)).
    destruct (disk_error s (notebook_path s)); [by eauto | discriminate].
Qed.

Lemma run_cell_validated s l i c :
  notebook s = Some l → 0 ≤ i → cells s !! Z.to_nat i = Some c →
  cell_type c = "code" →
  run_cell i s =
  (match client s with None => start_kernel | Some _ => mret () end;;
   try_except
     (execute_cell l (Z.to_nat i) i;;
      _ ← save_notebook;
      get_cell_text_output_default i)
     (λ e,
        match e with
        | CellExecutionError _ => mret ("单元格执行错误: " +:+ exn_str e)
        | AssertionError _ =>
            start_kernel;;
            try_except
              (execute_cell l (Z.to_nat i) i;;
               _ ← save_notebook;
               get_cell_text_output_default i)
              (λ e, mret ("重试执行单元格失败: " +:+ exn_str e))
        | _ => raise e
        end)) s.
Proof.
  intros Hnb Hi Hc Hcode. rewrite (cells_open s l Hnb) in Hc.
  unfold run_cell. rewrite run_get, Hnb.
  assert (out_of_range i (deref s l) = false) as ->.
  { apply out_of_range_false. apply lookup_lt_Some in Hc. lia. }
  unfold cell_at. rewrite Hc. erewrite run_bind_return by reflexivity.
  unfold is_code. by rewrite bool_decide_eq_true_2.
Qed.

(** X8: on an open notebook with a connection, [run_cell] on a code cell
    whose run completes makes exactly one request, changes no other cell,
    answers what [get_cell_text_output] answers for that cell afterwards
    (from offset 0, 3000 characters), and saves the document when storage
    takes it. *)
Theorem run_cell_completes s l i c k :
  notebook s = Some l → (l < length (heap s))%nat →
  0 ≤ i → cells s !! Z.to_nat i = Some c → cell_type c = "code" →
  client s = Some k →
  failure (kernel s (length (requests s))) = None →
  ∃ text s', run_cell i s = (Return text, s') ∧
    requests s' = requests s ++ [ExecuteCell i] ∧
    length (cells s') = length (cells s) ∧
    (∀ j, j ≠ Z.to_nat i → cells s' !! j = cells s !! j) ∧
    get_cell_text_output i 0 (Some 3000) s' = (Return text, s') ∧
    match disk_error s (notebook_path s) with
    | None => disk s' !! notebook_path s = Some (cells s')
    | Some _ => disk s' = disk s
    end.
Proof.
  intros Hnb Hl Hi Hc Hcode Hcl Hok.
  assert (0 ≤ i < Z.of_nat (length (cells s))) as Hin
    by (apply lookup_lt_Some in Hc; lia).
  destruct (attempt_completes s l i Hnb Hl Hin Hok)
    as (text & s' & Hrun & Hcells & Hreq & Hget & _ & _ & _ & _ & Hsave).
  exists text, s'. split.
  { rewrite (run_cell_validated s l i c) by done.
    rewrite Hcl. erewrite run_bind_return by reflexivity.
    unfold try_except. by rewrite Hrun. }
  split; [exact Hreq|]. rewrite Hcells.
  split; [apply length_alter|].
  split; [intros j Hj; by rewrite list_lookup_alter_ne|].
  split; [exact Hget|].
  destruct (disk_error s (notebook_path s)); [apply Hsave | by rewrite <- Hcells; apply Hsave].
Qed.

Lemma run_cell_completes_witness :
  ∃ text s', run_cell 0 three_cells = (Return text, s') ∧
    requests s' = [Warmup; ExecuteCell 0] ∧
    disk s' !! "work.ipynb" = Some (cells s').
Proof.
  destruct (run_cell_completes three_cells 1%nat 0 (new_code_cell "x = 1") 0%nat)
    as (text & s' & Hrun & Hreq & _ & _ & _ & Hdisk).
  - reflexivity.
  - vm_compute; lia.
  - lia.
  - vm_compute; reflexivity.
  - reflexivity.
  - reflexivity.
  - reflexivity.
  - by exists text, s'.
Defined.

(** X9: when the cell's own code raises ([CellExecutionError]), [run_cell]
    does not raise: it answers the error as text after one request and no
    retry, keeps the outputs the backend left in the cell, and does not
    save. *)
Theorem run_cell_execution_error s l i c k m :
  notebook s = Some l → (l < length (heap s))%nat →
  0 ≤ i → cells s !! Z.to_nat i = Some c → cell_type c = "code" →
  client s = Some k →
  failure (kernel s (length (requests s))) = Some (CellExecutionError m) →
  ∃ s', run_cell i s = (Return ("单元格执行错误: " +:+ m), s') ∧
    requests s' = requests s ++ [ExecuteCell i] ∧
    (∀ j, j ≠ Z.to_nat i → cells s' !! j = cells s !! j) ∧
    cells s' !! Z.to_nat i = Some (on_cell (kernel s (length (requests s))) c) ∧
    disk s' = disk s ∧ written s' = written s.
Proof.
  intros Hnb Hl Hi Hc Hcode Hcl Hfail.
  rewrite (run_cell_validated s l i c) by done.
  rewrite Hcl. erewrite run_bind_return by reflexivity.
  unfold try_except. rewrite run_bind, execute_cell_run. cbv zeta.
  rewrite Hfail. eexists. split; [reflexivity|]. fields.
  split; [done|].
  assert (∀ s0, cells (with_heap (alter (alter (on_cell (kernel s (length (requests s))))
                   (Z.to_nat i)) l (heap s)) (with_requests s0 s))
                = alter (on_cell (kernel s (length (requests s)))) (Z.to_nat i) (cells s))
    as ->.
  { intros s0. unfold cells. fields. rewrite Hnb. cbn [from_option].
    rewrite deref_alter by done. by rewrite decide_True. }
  split; [intros j Hj; by rewrite list_lookup_alter_ne|].
  split; [by rewrite list_lookup_alter_eq, Hc|]. done.
Qed.

Lemma run_cell_execution_error_witness :
  ∃ s', run_cell 0 dividing =
          (Return "单元格执行错误: ZeroDivisionError: division by zero", s') ∧
    requests s' = [Warmup; ExecuteCell 0] ∧ disk s' = disk dividing.
Proof.
  destruct (run_cell_execution_error dividing 1%nat 0 (new_code_cell "1/0") 0%nat
              "ZeroDivisionError: division by zero")
    as (s' & Hrun & Hreq & _ & _ & Hdisk & _).
  - reflexivity.
  - vm_compute; lia.
  - lia.
  - vm_compute; reflexivity.
  - reflexivity.
  - reflexivity.
  - reflexivity.
  - by exists s'.
Defined.

(** X10: after [shutdown_kernel], [run_cell] brings a connection up again by
    itself: the requests are the shutdown, one warm-up and the run of the
    cell, a connection is in place afterwards, and no other cell has
    changed. *)
Theorem run_cell_after_shutdown s l i c k :
  notebook s = Some l → (l < length (heap s))%nat → original_cells s = Some l →
  0 ≤ i → cells s !! Z.to_nat i = Some c → cell_type c = "code" →
  client s = Some k →
  let n := length (requests s) in
  failure (kernel s n) = None →
  failure (kernel s (n + 1)) = None →
  failure (kernel s (n + 2)) = None →
  ∃ s1 text s2,
    shutdown_kernel s = (Return tt, s1) ∧ client s1 = None ∧
    run_cell i s1 = (Return text, s2) ∧
    requests s2 = requests s ++ [Shutdown; Warmup; ExecuteCell i] ∧
    is_Some (client s2) ∧
    length (cells s2) = length (cells s) ∧
    (∀ j, j ≠ Z.to_nat i → cells s2 !! j = cells s !! j).
Proof.
  intros Hnb Hl Ho Hi Hc Hcode Hcl n Hdown Hwarm Hexec.
  pose proof (shutdown_kernel_run s k Hcl) as Hrun1. cbv zeta in Hrun1.
  fold n in Hrun1. rewrite Hdown in Hrun1.
  set (s1 := with_client None (with_requests (requests s ++ [Shutdown]) s)) in *.
  assert (notebook s1 = Some l) as Hnb1 by exact Hnb.
  assert (original_cells s1 = Some l) as Ho1 by exact Ho.
  assert (heap s1 = heap s) as Hh1 by reflexivity.
  assert (kernel s1 = kernel s) as Hk1 by reflexivity.
  assert (requests s1 = requests s ++ [Shutdown]) as Hreq1 by reflexivity.
  assert (client s1 = None) as Hcl1 by reflexivity.
  assert (cells s1 = cells s) as Hcells1.
  { unfold cells, deref. by rewrite Hnb1, Hnb, Hh1. }
  assert (length (requests s1) = (n + 1)%nat) as Hn1
    by (rewrite Hreq1, length_app; cbn; lia).
  set (s1' := restarted s1 l).
  assert (start_kernel s1 = (Return tt, s1')) as Hstart.
  { rewrite (start_kernel_run s1 l Hnb1). unfold teardown.
    rewrite Hcl1, app_nil_r, Hn1, Hk1. by rewrite Hwarm. }
  assert (notebook s1' = Some l) as Hnb1'.
  { unfold s1', restarted. fields. by rewrite Ho1. }
  assert (cells s1' = cells s) as Hcells1'.
  { rewrite (cells_open s1' l Hnb1'). unfold s1'.
    rewrite deref_restarted by by rewrite Hh1.
    by rewrite <- (cells_open s1 l Hnb1). }
  assert (requests s1' = requests s ++ [Shutdown; Warmup]) as Hreq1'.
  { unfold s1', restarted, teardown. fields.
    rewrite Hcl1, app_nil_r, Hreq1. by rewrite <- app_assoc. }
  destruct (attempt_completes s1' l i)
    as (text & s2 & Hrun2 & Hcells2 & Hreq2 & _ & _ & _ & Hcl2 & _).
  { exact Hnb1'. }
  { unfold s1', restarted. fields. rewrite length_app, Hh1. lia. }
  { rewrite Hcells1'. apply lookup_lt_Some in Hc. lia. }
  { rewrite Hreq1', length_app. cbn [length].
    change (kernel s1') with (kernel s1). by rewrite Hk1. }
  exists s1, text, s2. split; [exact Hrun1|]. split; [exact Hcl1|].
  split.
  { rewrite (run_cell_validated s1 l i c) by (by rewrite ?Hcells1).
    rewrite Hcl1. erewrite run_bind_return by exact Hstart.
    unfold try_except. by rewrite Hrun2. }
  split; [rewrite Hreq2, Hreq1'; by rewrite <- app_assoc|].
  split; [rewrite Hcl2; by eexists|].
  rewrite Hcells2, Hcells1'.
  split; [apply length_alter|]. intros j Hj. by rewrite list_lookup_alter_ne.
Qed.

Lemma run_cell_after_shutdown_witness :
  ∃ s1 text s2,
    shutdown_kernel three_cells = (Return tt, s1) ∧ client s1 = None ∧
    run_cell 2 s1 = (Return text, s2) ∧
    requests s2 = [Warmup; Shutdown; Warmup; ExecuteCell 2].
Proof.
  destruct (run_cell_after_shutdown three_cells 1%nat 2 (new_code_cell "print(x)") 0%nat)
    as (s1 & text & s2 & H1 & Hcl & H2 & Hreq & _).
  - reflexivity.
  - vm_compute; lia.
  - reflexivity.
  - lia.
  - vm_compute; reflexivity.
  - reflexivity.
  - reflexivity.
  - reflexivity.
  - reflexivity.
  - reflexivity.
  - by exists s1, text, s2.
Defined.

(** ** Opening a path over a session *)

Lemma open_notebook_run path s :
  open_notebook path s = start_kernel (opened path (flushed path s)).
Proof.
  assert (∀ s0, (modify (with_notebook_path path);;
                 s1 ← get;
                 match disk s1 !! path with
                 | Some doc =>
                     l ← alloc doc;
                     modify (with_notebook (Some l));;
                     modify (with_original_cells (Some l))
                 | None =>
                     l ← alloc [];
                     modify (with_notebook (Some l));;
                     o ← alloc [];
                     modify (with_original_cells (Some o));;
                     _ ← save_notebook;
                     mret tt
                 end;;
                 start_kernel) s0 = start_kernel (opened path s0)) as Hrest.
  { intros s0. destruct s0 as [env nb p cl orig h d de w k rq].
    unfold opened, opened_existing, opened_new, save_notebook. run. fields.
    destruct (d !! path) as [doc|]; fields; [reflexivity|].
    rewrite length_app. cbn [length]. rewrite <- app_assoc. cbn [app].
    rewrite Nat.add_1_r.
    destruct (de path) as [e|]; fields; [reflexivity|].
    do 2 f_equal. unfold deref. fields.
    by rewrite (list_lookup_middle h [[]] [] (length h)). }
  unfold open_notebook, flushed, after. rewrite run_get.
  destruct (notebook s) as [l|] eqn:Hnb.
  - destruct (bool_decide (notebook_path s = path)); cbn [negb].
    + rewrite run_bind. exact (Hrest s).
    + rewrite run_bind. rewrite (run_bind save_notebook).
      destruct (save_notebook_run s l Hnb) as [(s1 & H & _)|(msg & H)];
        rewrite H; exact (Hrest _).
  - rewrite run_bind. exact (Hrest s).
Qed.

Lemma flushed_frame path s :
  heap (flushed path s) = heap s ∧ client (flushed path s) = client s ∧
  kernel (flushed path s) = kernel s ∧ requests (flushed path s) = requests s ∧
  disk_error (flushed path s) = disk_error s ∧
  disk (flushed path s) !! path = disk s !! path ∧
  (notebook s = None ∨ notebook_path s = path → flushed path s = s) ∧
  (∀ l, notebook s = Some l → notebook_path s ≠ path →
        disk_error s (notebook_path s) = None →
        disk (flushed path s) !! notebook_path s = Some (cells s)).
Proof.
  unfold flushed, after. destruct (notebook s) as [l|] eqn:Hnb.
  2: { repeat split; auto. intros l' [=]. }
  destruct (bool_decide_reflect (notebook_path s = path)) as [Hp|Hp].
  { repeat split; auto. intros l' _ Hne. done. }
  destruct (save_notebook s) as [r s1] eqn:Hsave. cbn [snd].
  destruct (save_notebook_cells _ _ _ Hsave) as (Hh & _ & Hr & _ & Hc & Hk & _ & He).
  destruct (save_notebook_run s l Hnb)
    as [(s1' & Hsave' & _ & Hd & _)|(msg & Hsave')];
    rewrite Hsave' in Hsave; injection Hsave as <- <-.
  - repeat split; auto.
    + rewrite Hd. by apply lookup_insert_ne.
    + intros H; destruct H as [H|H]; [discriminate H | done].
    + intros l' _ _ _. rewrite Hd. apply lookup_insert_eq.
  - repeat split; auto.
    intros l' _ _ Hw. revert Hsave'. unfold save_notebook. run.
      by rewrite Hnb, Hw.
Qed.

(** Opening a path that holds a document, from a session with no notebook
    or with the notebook of that same path: nothing is written. *)
Lemma open_notebook_reads path doc s :
  disk s !! path = Some doc →
  failure (kernel s (length (requests s ++ teardown s))) = None →
  notebook s = None ∨ notebook_path s = path →
  ∃ s', open_notebook path s = (Return tt, s') ∧
    cells s' = doc ∧ disk s' = disk s ∧ written s' = written s.
Proof.
  intros Hfile Hwarm Hsame. rewrite open_notebook_run.
  destruct (flushed_frame path s) as (_ & _ & _ & _ & _ & _ & Hflush & _).
  rewrite (Hflush Hsame). unfold opened. rewrite Hfile.
  rewrite (start_kernel_run _ (length (heap s))) by reflexivity.
  change (teardown (opened_existing path doc s)) with (teardown s).
  change (requests (opened_existing path doc s)) with (requests s).
  change (kernel (opened_existing path doc s)) with (kernel s).
  rewrite Hwarm. eexists. split; [reflexivity|].
  split; [apply cells_restarted_existing|]. by split.
Qed.

(** X11: [open_notebook] on a path with no file makes an empty notebook
    there, writes it when storage takes it, and brings up a connection; a
    notebook that was open under another path is saved to its own path
    first. *)
Theorem open_notebook_creates path s :
  disk s !! path = None →
  failure (kernel s (length (requests s ++ teardown s))) = None →
  ∃ s', open_notebook path s = (Return tt, s') ∧
    cells s' = [] ∧ notebook_path s' = path ∧ aliased s' ∧ is_Some (client s') ∧
    disk s' !! path =
      match disk_error s path with None => Some [] | Some _ => None end ∧
    (∀ l, notebook s = Some l → notebook_path s ≠ path →
          disk_error s (notebook_path s) = None →
          disk s' !! notebook_path s = Some (cells s)).
Proof.
  intros Hfile Hwarm. rewrite open_notebook_run.
  destruct (flushed_frame path s) as (Hh & Hc & Hk & Hr & He & Hd & _ & Hflush).
  set (s0 := flushed path s) in *.
  unfold opened. rewrite Hd, Hfile.
  rewrite (start_kernel_run _ (length (heap s0))) by reflexivity.
  assert (teardown (opened_new path s0) = teardown s) as Ht
    by (unfold teardown, opened_new; fields; by rewrite Hc).
  rewrite Ht.
  change (requests (opened_new path s0)) with (requests s0).
  change (kernel (opened_new path s0)) with (kernel s0).
  rewrite Hr, Hk, Hwarm.
  eexists. split; [reflexivity|].
  split; [apply cells_restarted_new|].
  split; [reflexivity|]. split; [reflexivity|]. split; [by eexists|].
  unfold restarted, opened_new. fields. rewrite He. split.
  - destruct (disk_error s path); [by rewrite Hd | apply lookup_insert_eq].
  - intros l Hnb Hne Hw.
    destruct (disk_error s path).
    + by apply Hflush with l.
    + rewrite lookup_insert_ne by done. by apply Hflush with l.
Qed.

Lemma open_notebook_creates_witness :
  ∃ s', open_notebook "other.ipynb" three_cells = (Return tt, s') ∧
    cells s' = [] ∧ disk s' !! "other.ipynb" = Some [] ∧
    disk s' !! "work.ipynb" = Some (cells three_cells).
Proof.
  destruct (open_notebook_creates "other.ipynb" three_cells)
    as (s' & Hrun & Hcells & _ & _ & _ & Hnew & Hold).
  - vm_compute; reflexivity.
  - reflexivity.
  - exists s'. split; [exact Hrun|]. split; [exact Hcells|].
    split; [exact Hnew|]. apply (Hold 1%nat); [reflexivity | discriminate | reflexivity].
Defined.

(** X12: [open_notebook] on a path with a file loads the file's cells and
    leaves the file as it is.  When no notebook was open, or the open one
    has the same path, nothing is written at all; a notebook open under
    another path is saved to its own path first. *)
Theorem open_notebook_loads path doc s :
  disk s !! path = Some doc →
  failure (kernel s (length (requests s ++ teardown s))) = None →
  ∃ s', open_notebook path s = (Return tt, s') ∧
    cells s' = doc ∧ notebook_path s' = path ∧ aliased s' ∧ is_Some (client s') ∧
    disk s' !! path = Some doc ∧
    (notebook s = None ∨ notebook_path s = path →
     disk s' = disk s ∧ written s' = written s) ∧
    (∀ l, notebook s = Some l → notebook_path s ≠ path →
          disk_error s (notebook_path s) = None →
          disk s' !! notebook_path s = Some (cells s)).
Proof.
  intros Hfile Hwarm. rewrite open_notebook_run.
  destruct (flushed_frame path s) as (Hh & Hc & Hk & Hr & He & Hd & Hsame & Hflush).
  set (s0 := flushed path s) in *.
  unfold opened. rewrite Hd, Hfile.
  rewrite (start_kernel_run _ (length (heap s0))) by reflexivity.
  assert (teardown (opened_existing path doc s0) = teardown s) as Ht
    by (unfold teardown, opened_existing; fields; by rewrite Hc).
  rewrite Ht.
  change (requests (opened_existing path doc s0)) with (requests s0).
  change (kernel (opened_existing path doc s0)) with (kernel s0).
  rewrite Hr, Hk, Hwarm.
  eexists. split; [reflexivity|].
  split; [apply cells_restarted_existing|].
  split; [reflexivity|]. split; [reflexivity|]. split; [by eexists|].
  unfold restarted, opened_existing. fields.
  split; [by rewrite Hd|]. split.
  - intros H. by rewrite (Hsame H).
  - intros l Hnb Hne Hw. by apply Hflush with l.
Qed.

Lemma open_notebook_loads_witness :
  ∃ s', open_notebook "work.ipynb" (world (λ _, quiet) (disk three_cells))
          = (Return tt, s') ∧
    cells s' = cells three_cells ∧ written s' = [].
Proof.
  destruct (open_notebook_loads "work.ipynb" (cells three_cells)
              (world (λ _, quiet) (disk three_cells)))
    as (s' & Hrun & Hcells & _ & _ & _ & _ & Hsame & _).
  - vm_compute; reflexivity.
  - reflexivity.
  - exists s'. split; [exact Hrun|]. split; [exact Hcells|].
    apply Hsame. by left.
Defined.

(** X13: saving and then opening the notebook's own path gives the same
    cells back, and the opening changes nothing in storage. *)
Theorem save_then_open_round_trip s l :
  notebook s = Some l →
  disk_error s (notebook_path s) = None →
  failure (kernel s (length (requests s ++ teardown s))) = None →
  ∃ s1 s2,
    save_notebook s = (Return None, s1) ∧
    open_notebook (notebook_path s) s1 = (Return tt, s2) ∧
    cells s2 = cells s ∧ disk s2 = disk s1.
Proof.
  intros Hnb Hw Hwarm.
  destruct (save_notebook_writable s l Hnb Hw) as [s1 Hsave].
  destruct (save_notebook_cells _ _ _ Hsave) as (_ & _ & Hr & _ & Hc & Hk & Hp & _).
  destruct (save_notebook_run s l Hnb) as [(s1' & Hsave' & _ & Hd & _)|(msg & Hsave')];
    rewrite Hsave' in Hsave; [injection Hsave as <-|discriminate Hsave].
  destruct (open_notebook_reads (notebook_path s) (cells s) s1')
    as (s2 & Hopen & Hcells & Hsame & _).
  { rewrite Hd. apply lookup_insert_eq. }
  { unfold teardown. by rewrite Hr, Hc, Hk. }
  { by right. }
  by exists s1', s2.
Qed.

Lemma save_then_open_round_trip_witness :
  ∃ s1 s2,
    save_notebook three_cells = (Return None, s1) ∧
    open_notebook "work.ipynb" s1 = (Return tt, s2) ∧
    cells s2 = cells three_cells.
Proof.
  destruct (save_then_open_round_trip three_cells 1%nat)
    as (s1 & s2 & H1 & H2 & Hcells & _); try reflexivity.
  by exists s1, s2.
Defined.

Lemma delete_cell_frame i s :
  ∃ r h, delete_cell i s = (Return r, with_heap h s).
Proof.
  unfold delete_cell. run. destruct (notebook s) as [l|].
  - destruct (out_of_range i (deref s l)); [|by eauto].
    exists (Some ("单元格索引超出范围: " +:+ pretty i)), (heap s). by destruct s.
  - exists (Some "没有打开的笔记本"), (heap s). by destruct s.
Qed.

(** X14: a [delete_cell] is lost by opening the notebook's own path again:
    [open_notebook] does not save a notebook it re-opens under the same
    path, so the cells are those of the file, and storage is as it was
    before the deletion. *)
Theorem reopen_discards_unsaved_delete s i doc :
  disk s !! notebook_path s = Some doc →
  failure (kernel s (length (requests s ++ teardown s))) = None →
  ∃ r s1 s2,
    delete_cell i s = (Return r, s1) ∧
    open_notebook (notebook_path s) s1 = (Return tt, s2) ∧
    cells s2 = doc ∧ disk s2 = disk s.
Proof.
  intros Hfile Hwarm.
  destruct (delete_cell_frame i s) as (r & h & Hdel).
  destruct (open_notebook_reads (notebook_path s) doc (with_heap h s))
    as (s2 & Hopen & Hcells & Hsame & _); [done | done | by right |].
  by exists r, (with_heap h s), s2.
Qed.

Lemma reopen_discards_unsaved_delete_witness :
  ∃ r s1 s2,
    delete_cell 1 three_cells = (Return r, s1) ∧
    open_notebook "work.ipynb" s1 = (Return tt, s2) ∧
    cells s2 = cells three_cells.
Proof.
  destruct (reopen_discards_unsaved_delete three_cells 1 (cells three_cells))
    as (r & s1 & s2 & H1 & H2 & Hcells & _).
  - vm_compute; reflexivity.
  - reflexivity.
  - by exists r, s1, s2.
Defined.

(** ** A batch of cells *)

(** The loop of [execute_cells_by_indices] returns for every index list; it
    asks the backend for executions of some of the indices, in their order,
    and writes nothing. *)
Lemma execute_loop_returns l : ∀ indices result s,
  notebook s = Some l → (l < length (heap s))%nat →
  ∃ result' s' js,
    execute_loop indices result s = (Return result', s') ∧
    notebook s' = Some l ∧ (l < length (heap s'))%nat ∧
    length (deref s' l) = length (deref s l) ∧
    unwritten s s' ∧ kernel s' = kernel s ∧
    requests s' = requests s ++ (ExecuteCell <$> js) ∧
    js `sublist_of` indices ∧
    output result' = output result ∧
    (last_index result' = last_index result ∨
     ∃ i, in_range s l i ∧ last_index result' = Some i) ∧
    (Forall (skipped s l) indices →
     result' = result ∧ js = [] ∧ deref s' l = deref s l).
Proof.
  induction indices as [|idx indices IH]; intros result s Hnb Hl.
  - exists result, s, []. cbn [fmap list_fmap]. rewrite app_nil_r.
    repeat split; auto.
  - cbn [execute_loop]. unfold try_except, cell_at. run. rewrite Hnb.
    destruct (out_of_range idx (deref s l)) eqn:Hrange.
    { eexists _, _, []. split; [reflexivity|].
      cbn [fmap list_fmap]. rewrite app_nil_r.
      split; [done|]. split; [done|]. split; [done|].
      split; [apply unwritten_refl|]. split; [done|]. split; [done|].
      split; [apply sublist_nil_l|]. split; [done|]. split; [by left|].
      intros Hmd. apply Forall_cons in Hmd as [(Hi & c & Hc & _) _].
      apply lookup_lt_Some in Hc. apply out_of_range_true in Hrange. lia. }
    pose proof (proj1 (out_of_range_false _ _) Hrange) as Hidx.
    destruct (lookup_lt_is_Some_2 (deref s l) (Z.to_nat idx)) as [cell Hcell]; [lia|].
    rewrite Hcell.
    destruct (is_code cell) eqn:Hcode; cbn [negb].
    + rewrite execute_cell_run. cbv zeta.
      set (s2 := with_heap _ _).
      assert (length (deref s2 l) = length (deref s l)) as Hlen.
      { unfold s2. rewrite deref_alter by done. rewrite decide_True by done.
        apply length_alter. }
      assert (l < length (heap s2))%nat as Hl2
        by (unfold s2; fields; by rewrite length_alter).
      assert (∀ (P : Prop), Forall (skipped s l) (idx :: indices) → P) as Hno.
      { intros P Hmd. apply Forall_cons in Hmd as [(_ & c & Hc & Hne) _].
        rewrite Hcell in Hc. injection Hc as <-. destruct Hne.
        unfold is_code in Hcode. by apply bool_decide_eq_true in Hcode. }
      destruct (failure (kernel s (length (requests s)))) as [e|] eqn:Hfail.
      * eexists _, _, [idx]. split; [reflexivity|].
        split; [done|]. split; [done|]. split; [done|].
        split; [by repeat split|]. split; [done|]. split; [done|].
        split; [apply sublist_skip, sublist_nil_l|]. split; [done|].
        split; [right; exists idx; split; [exact Hidx | reflexivity]|].
        apply Hno.
      * destruct (lookup_lt_is_Some_2 (deref s2 l) (Z.to_nat idx)) as [cell' Hcell'];
          [rewrite Hlen; lia|].
        rewrite Hcell'.
        lazymatch goal with
        | |- context [execute_loop _ ?r s2] =>
            destruct (IH r s2 Hnb Hl2)
              as (result' & s' & js & Hrun & Hnb' & Hl' & Hlen' & Hun & Hk & Hreq
                  & Hsub & Hout & Hlast & _)
        end.
        rewrite Hrun.
        exists result', s', (idx :: js). split; [reflexivity|].
        rewrite Hlen', Hlen.
        split; [done|]. split; [done|]. split; [done|].
        split; [exact Hun|]. split; [exact Hk|].
        split.
        { rewrite Hreq. unfold s2. fields. by rewrite <- app_assoc. }
        split; [by apply sublist_skip|]. split; [exact Hout|].
        split; [|apply Hno].
        right. destruct Hlast as [Hlast|(i & Hi & Hlast)].
        -- exists idx. split; [exact Hidx | exact Hlast].
        -- exists i. split; [|exact Hlast]. unfold in_range in *. by rewrite <- Hlen.
    + destruct (IH result s Hnb Hl)
        as (result' & s' & js & Hrun & Hnb' & Hl' & Hlen' & Hun & Hk & Hreq
            & Hsub & Hout & Hlast & Hmd).
      rewrite Hrun.
      exists result', s', js. split; [reflexivity|].
      split; [done|]. split; [done|]. split; [done|].
      split; [exact Hun|]. split; [done|]. split; [done|].
      split; [by apply sublist_cons|]. split; [done|]. split; [done|].
      intros H. apply Forall_cons in H as [_ H]. by apply Hmd.
Qed.

(** What [execute_cells_by_indices] does after its loop: the save, and the
    text of the last cell executed. *)
Lemma execute_cells_by_indices_after_loop s l k indices result s1 :
  notebook s = Some l → client s = Some k →
  execute_loop indices batch_start s = (Return result, s1) →
  notebook s1 = Some l →
  (∀ i, last_index result = Some i → in_range s1 l i) →
  ∃ result' s',
    execute_cells_by_indices indices s = (Return result', s') ∧
    success result' = success result ∧ error result' = error result ∧
    last_index result' = last_index result ∧ warnings result' = warnings result ∧
    (output result = None →
     match last_index result with
     | Some i => ∃ text, output result' = Some text ∧
                   get_cell_text_output i 0 (Some 3000) s' = (Return text, s')
     | None => result' = result
     end) ∧
    notebook s' = Some l ∧ requests s' = requests s1 ∧ cells s' = cells s1 ∧
    match disk_error s1 (notebook_path s1) with
    | None => written s' = written s1 ++ [notebook_path s1] ∧
              disk s' !! notebook_path s1 = Some (cells s')
    | Some _ => written s' = written s1 ∧ disk s' = disk s1
    end.
Proof.
  intros Hnb Hcl Hloop Hnb1 Hlast.
  assert (∃ r2 s2, save_notebook s1 = (Return r2, s2) ∧ cells s2 = cells s1 ∧
            heap s2 = heap s1 ∧ notebook s2 = Some l ∧ requests s2 = requests s1 ∧
            match disk_error s1 (notebook_path s1) with
            | None => written s2 = written s1 ++ [notebook_path s1] ∧
                      disk s2 !! notebook_path s1 = Some (cells s2)
            | Some _ => written s2 = written s1 ∧ disk s2 = disk s1
            end) as (r2 & s2 & Hsave & Hc2 & Hh2 & Hnb2 & Hreq2 & Hdisk).
  { destruct (save_notebook s1) as [r2 s2] eqn:Hsave.
    destruct (save_notebook_cells _ _ _ Hsave) as (Hh & Hn & Hr & _).
    assert (cells s2 = cells s1) as Hc by (unfold cells, deref; by rewrite Hn, Hh).
    destruct (save_notebook_run s1 l Hnb1)
      as [(s2' & Hsave' & Hw & Hd & _)|(msg & Hsave')];
      rewrite Hsave' in Hsave; injection Hsave as <- <-.
    - eexists _, _. split; [reflexivity|]. rewrite Hn.
      repeat split; try done.
      assert (disk_error s1 (notebook_path s1) = None) as ->.
      { revert Hsave'. unfold save_notebook. run. rewrite Hnb1.
        by destruct (disk_error s1 (notebook_path s1)). }
      rewrite Hw, Hd, Hc. split; [done|]. apply lookup_insert_eq.
    - eexists _, _. split; [reflexivity|].
      repeat split; try done.
      assert (∃ e, disk_error s1 (notebook_path s1) = Some e) as [e ->]; [|done].
      revert Hsave'. unfold save_notebook. run. rewrite Hnb1.
      destruct (disk_error s1 (notebook_path s1)); [by eauto | discriminate]. }
  unfold execute_cells_by_indices. rewrite run_get, Hnb, Hcl.
  erewrite run_bind_return by reflexivity.
  erewrite run_bind_return by exact Hloop.
  erewrite run_bind_return by exact Hsave.
  destruct (last_index result) as [i|] eqn:Hli.
  - destruct (get_cell_text_output_returns s2 l i 0 (Some 3000)) as [text Hget].
    { exact Hnb2. }
    { specialize (Hlast i eq_refl). unfold in_range, deref in *. by rewrite Hh2. }
    unfold get_cell_text_output_default.
    erewrite run_bind_return by exact Hget.
    eexists _, _. split; [reflexivity|]. cbn [success error last_index warnings output].
    repeat split; try done. intros _. by exists text.
  - eexists _, _. split; [reflexivity|]. rewrite Hli. repeat split; done.
Qed.

Lemma execute_cells_by_indices_run s l k indices :
  notebook s = Some l → (l < length (heap s))%nat → client s = Some k →
  ∃ result s' js,
    execute_cells_by_indices indices s = (Return result, s') ∧
    requests s' = requests s ++ (ExecuteCell <$> js) ∧
    js `sublist_of` indices ∧
    length (cells s') = length (cells s) ∧
    match disk_error s (notebook_path s) with
    | None => written s' = written s ++ [notebook_path s] ∧
              disk s' !! notebook_path s = Some (cells s')
    | Some _ => written s' = written s ∧ disk s' = disk s
    end ∧
    (is_Some (output result) ↔ is_Some (last_index result)) ∧
    (Forall (skipped s l) indices →
     result = batch_start ∧ js = [] ∧ cells s' = cells s).
Proof.
  intros Hnb Hl Hcl.
  destruct (execute_loop_returns l indices batch_start s Hnb Hl)
    as (result & s1 & js & Hloop & Hnb1 & Hl1 & Hlen1 & (Hp1 & He1 & Hd1 & Hw1) & Hk1
        & Hreq1 & Hsub & Hout1 & Hlast & Hmd).
  destruct (execute_cells_by_indices_after_loop s l k indices result s1)
    as (result' & s' & Hrun & _ & _ & Hli & _ & Hout & _ & Hreq & Hcells & Hdisk);
    try done.
  { intros i Hi. destruct Hlast as [Hlast|(j & Hj & Hlast)].
    - rewrite Hlast in Hi. discriminate Hi.
    - rewrite Hlast in Hi. injection Hi as <-. unfold in_range in *. by rewrite Hlen1. }
  exists result', s', js. split; [exact Hrun|].
  split; [by rewrite Hreq|]. split; [exact Hsub|].
  split.
  { rewrite Hcells, (cells_open s1 l Hnb1), (cells_open s l Hnb). exact Hlen1. }
  split.
  { rewrite He1, Hp1, Hw1, Hd1 in Hdisk. exact Hdisk. }
  specialize (Hout Hout1). split.
  { rewrite Hli. destruct (last_index result) as [i|].
    - destruct Hout as (text & -> & _). split; eauto.
    - rewrite Hout, Hout1. cbn. split; intros [? [=]]. }
  intros Hskip. destruct (Hmd Hskip) as (-> & -> & Hd).
  cbn [last_index batch_start] in Hout. rewrite Hout.
  split; [done|]. split; [done|].
  by rewrite Hcells, (cells_open s1 l Hnb1), (cells_open s l Hnb).
Qed.

Lemma execute_loop_in_order l : ∀ indices result s,
  notebook s = Some l → (l < length (heap s))%nat →
  NoDup indices → Forall (runnable s l) indices →
  (∀ p, (p < length indices)%nat →
        failure (kernel s (length (requests s) + p)) = None) →
  ∃ result' s',
    execute_loop indices result s = (Return result', s') ∧
    notebook s' = Some l ∧ length (deref s' l) = length (deref s l) ∧
    requests s' = requests s ++ (ExecuteCell <$> indices) ∧
    success result' = success result ∧ error result' = error result ∧
    output result' = output result ∧
    last_index result' = from_option Some (last_index result) (last indices) ∧
    warnings result' = warnings result ++ (indices ≫= warnings_at s' l) ∧
    (∀ p i, indices !! p = Some i →
       deref s' l !! Z.to_nat i =
       on_cell (kernel s (length (requests s) + p)) <$> deref s l !! Z.to_nat i) ∧
    (∀ j, (∀ i, i ∈ indices → Z.to_nat i ≠ j) → deref s' l !! j = deref s l !! j).
Proof.
  induction indices as [|idx indices IH]; intros result s Hnb Hl Hnd Hrun Hok.
  - exists result, s. cbn. rewrite !app_nil_r. repeat split; auto.
    intros p i Hp. discriminate Hp.
  - apply NoDup_cons in Hnd as [Hnotin Hnd].
    apply Forall_cons in Hrun as [(Hidx & cell & Hcell & Hcode) Hrun].
    cbn [execute_loop]. unfold try_except, cell_at. run. rewrite Hnb.
    assert (out_of_range idx (deref s l) = false) as ->.
    { apply out_of_range_false. apply lookup_lt_Some in Hcell. lia. }
    rewrite Hcell. unfold is_code. rewrite bool_decide_eq_true_2 by done. cbn [negb].
    rewrite execute_cell_run. cbv zeta.
    pose proof (Hok 0%nat ltac:(cbn; lia)) as Hok0. rewrite Nat.add_0_r in Hok0.
    rewrite Hok0.
    set (r0 := kernel s (length (requests s))).
    set (s2 := with_heap _ _).
    assert (deref s2 l = alter (on_cell r0) (Z.to_nat idx) (deref s l)) as Hd2.
    { unfold s2. rewrite deref_alter by done. by rewrite decide_True. }
    assert (l < length (heap s2))%nat as Hl2
      by (unfold s2; fields; by rewrite length_alter).
    assert (∀ i, i ∈ indices → 0 ≤ i → Z.to_nat i ≠ Z.to_nat idx) as Hne.
    { intros i Hi Hi0 Heq. apply Hnotin. by replace idx with i by lia. }
    assert (deref s2 l !! Z.to_nat idx = Some (on_cell r0 cell)) as Hcell2.
    { by rewrite Hd2, list_lookup_alter_eq, Hcell. }
    rewrite Hcell2.
    lazymatch goal with
    | |- context [execute_loop _ ?r s2] =>
        destruct (IH r s2 Hnb Hl2 Hnd)
          as (result' & s' & Hloop & Hnb' & Hlen' & Hreq & Hsucc & Herr & Hout
              & Hlast & Hwarn & Hexec & Hrest)
    end.
    { apply Forall_forall. intros i Hi.
      destruct (proj1 (Forall_forall _ _) Hrun i Hi) as (Hi0 & c & Hc & Hk).
      split; [done|]. exists c. split; [|done].
      rewrite Hd2, list_lookup_alter_ne; [done|]. intros Heq. by apply (Hne i). }
    { intros p Hp. change (kernel s2) with (kernel s).
      replace (length (requests s2) + p)%nat with (length (requests s) + S p)%nat.
      - apply Hok. cbn. lia.
      - unfold s2. fields. rewrite length_app. cbn. lia. }
    rewrite Hloop. exists result', s'. split; [reflexivity|].
    split; [done|].
    split; [by rewrite Hlen', Hd2, length_alter|].
    split.
    { rewrite Hreq. unfold s2. fields. by rewrite <- app_assoc. }
    split; [done|]. split; [done|]. split; [done|].
    assert (deref s' l !! Z.to_nat idx = Some (on_cell r0 cell)) as Hfinal.
    { rewrite Hrest; [done|]. intros i Hi Heq.
      destruct (proj1 (Forall_forall _ _) Hrun i Hi) as (Hi0 & _).
      by apply (Hne i). }
    split.
    { rewrite Hlast. cbn [last_index]. destruct indices as [|i indices']; [done|].
      by rewrite last_cons_cons; destruct (last (i :: indices')) eqn:E;
        [|apply last_None in E]. }
    split.
    { rewrite Hwarn. cbn [warnings mbind list_bind]. 
      unfold warnings_at at 2. rewrite Hfinal. cbn [from_option].
      by rewrite <- app_assoc. }
    split.
    { intros [|p] i Hp.
      - injection Hp as <-. rewrite Nat.add_0_r, Hfinal. by rewrite Hcell.
      - rewrite (Hexec p i Hp).
        change (kernel s2) with (kernel s).
        replace (length (requests s2) + p)%nat with (length (requests s) + S p)%nat
          by (unfold s2; fields; rewrite length_app; cbn; lia).
        f_equal. rewrite Hd2. apply list_lookup_alter_ne.
        intros Heq. pose proof (list_elem_of_lookup_2 indices p i Hp) as Hin.
        destruct (proj1 (Forall_forall _ _) Hrun i Hin) as (Hi0 & _).
        by apply (Hne i). }
    intros j Hj. rewrite Hrest.
    + rewrite Hd2. apply list_lookup_alter_ne. apply Hj. by left.
    + intros i Hi. apply Hj. by right.
Qed.

(** X15: on an open notebook with a connection, [execute_cells_by_indices]
    returns a result for any list of indices and any backend.  The runs it
    requests are a sub-list of the indices, in their order; the number of
    cells does not change; the document is saved once, whatever happened,
    when storage takes it; and the result has an output exactly when it has
    a last index. *)
Theorem execute_cells_by_indices_always_saves s l k indices :
  notebook s = Some l → (l < length (heap s))%nat → client s = Some k →
  ∃ result s' js,
    execute_cells_by_indices indices s = (Return result, s') ∧
    requests s' = requests s ++ (ExecuteCell <$> js) ∧
    js `sublist_of` indices ∧
    length (cells s') = length (cells s) ∧
    match disk_error s (notebook_path s) with
    | None => written s' = written s ++ [notebook_path s] ∧
              disk s' !! notebook_path s = Some (cells s')
    | Some _ => written s' = written s ∧ disk s' = disk s
    end ∧
    (is_Some (output result) ↔ is_Some (last_index result)).
Proof.
  intros Hnb Hl Hcl.
  destruct (execute_cells_by_indices_run s l k indices Hnb Hl Hcl)
    as (result & s' & js & H1 & H2 & H3 & H4 & H5 & H6 & _).
  by exists result, s', js.
Qed.

Lemma execute_cells_by_indices_always_saves_witness :
  ∃ result s',
    execute_cells_by_indices [0; 1; 7] three_cells = (Return result, s') ∧
    written s' = written three_cells ++ ["work.ipynb"] ∧
    disk s' !! "work.ipynb" = Some (cells s').
Proof.
  destruct (execute_cells_by_indices_always_saves three_cells 1%nat 0%nat [0; 1; 7])
    as (result & s' & js & Hrun & _ & _ & _ & Hdisk & _).
  - reflexivity.
  - vm_compute; lia.
  - reflexivity.
  - exists result, s'. split; [exact Hrun|]. exact Hdisk.
Defined.

(** X16: indices that all name cells other than code cells are skipped
    silently: the result is the one the batch starts with, the backend is
    not called, the cells are unchanged, and the document is saved all the
    same. *)
Theorem execute_cells_by_indices_skips_non_code s l k indices :
  notebook s = Some l → (l < length (heap s))%nat → client s = Some k →
  Forall (skipped s l) indices →
  ∃ s', execute_cells_by_indices indices s = (Return batch_start, s') ∧
    requests s' = requests s ∧ cells s' = cells s ∧
    (disk_error s (notebook_path s) = None →
     disk s' !! notebook_path s = Some (cells s)).
Proof.
  intros Hnb Hl Hcl Hskip.
  destruct (execute_cells_by_indices_run s l k indices Hnb Hl Hcl)
    as (result & s' & js & Hrun & Hreq & _ & _ & Hdisk & _ & Hmd).
  destruct (Hmd Hskip) as (-> & -> & Hcells).
  exists s'. split; [exact Hrun|].
  split; [by rewrite Hreq, app_nil_r|]. split; [exact Hcells|].
  intros Hw. rewrite Hw in Hdisk. rewrite <- Hcells. apply Hdisk.
Qed.

Lemma execute_cells_by_indices_skips_non_code_witness :
  ∃ s', execute_cells_by_indices [1; 1] three_cells = (Return batch_start, s') ∧
    requests s' = [Warmup] ∧ cells s' = cells three_cells.
Proof.
  destruct (execute_cells_by_indices_skips_non_code three_cells 1%nat 0%nat [1; 1])
    as (s' & Hrun & Hreq & Hcells & _).
  - reflexivity.
  - vm_compute; lia.
  - reflexivity.
  - assert (skipped three_cells 1 1) as Hskip.
    { split; [lia|]. exists (new_markdown_cell "# notes").
      split; [vm_compute; reflexivity | discriminate]. }
    constructor; [exact Hskip|]. constructor; [exact Hskip|]. constructor.
  - by exists s'.
Defined.

(** X17: distinct indices of code cells whose runs all complete are run in
    the order given, one request each.  The result reports success, no
    error, the last index of the list, the [stderr] warnings of the cells
    in that order, and as output the text output of the last cell; each
    cell holds the outputs of its own run and the other cells are
    unchanged. *)
Theorem execute_cells_by_indices_in_order s l k indices :
  notebook s = Some l → (l < length (heap s))%nat → client s = Some k →
  NoDup indices → Forall (runnable s l) indices →
  (∀ p, (p < length indices)%nat →
        failure (kernel s (length (requests s) + p)) = None) →
  ∃ result s',
    execute_cells_by_indices indices s = (Return result, s') ∧
    notebook s' = Some l ∧
    success result = true ∧ error result = None ∧
    last_index result = last indices ∧
    requests s' = requests s ++ (ExecuteCell <$> indices) ∧
    warnings result = indices ≫= warnings_at s' l ∧
    (∀ p i, indices !! p = Some i →
       cells s' !! Z.to_nat i =
       on_cell (kernel s (length (requests s) + p)) <$> cells s !! Z.to_nat i) ∧
    (∀ j, (∀ i, i ∈ indices → Z.to_nat i ≠ j) → cells s' !! j = cells s !! j) ∧
    (∀ i, last indices = Some i →
       ∃ text, output result = Some text ∧
         get_cell_text_output i 0 (Some 3000) s' = (Return text, s')).
Proof.
  intros Hnb Hl Hcl Hnd Hrun Hok.
  destruct (execute_loop_in_order l indices batch_start s Hnb Hl Hnd Hrun Hok)
    as (result & s1 & Hloop & Hnb1 & Hlen1 & Hreq1 & Hsucc & Herr & Hout & Hlast
        & Hwarn & Hexec & Hrest).
  cbn [batch_start success error output last_index warnings app] in *.
  assert (last_index result = last indices) as Hlast'.
  { rewrite Hlast. by destruct (last indices). }
  destruct (execute_cells_by_indices_after_loop s l k indices result s1)
    as (result' & s' & Hrun' & Hsucc' & Herr' & Hli' & Hwarn' & Hout' & Hnb' & Hreq'
        & Hcells' & _); try done.
  { intros i Hi. rewrite Hlast' in Hi. apply last_Some_elem_of in Hi.
    destruct (proj1 (Forall_forall _ _) Hrun i Hi) as (Hi0 & c & Hc & _).
    unfold in_range. rewrite Hlen1. apply lookup_lt_Some in Hc. lia. }
  assert (deref s' l = deref s1 l) as Hd.
  { by rewrite <- (cells_open s' l Hnb'), <- (cells_open s1 l Hnb1). }
  exists result', s'. split; [exact Hrun'|]. split; [exact Hnb'|].
  split; [congruence|]. split; [congruence|]. split; [congruence|].
  split; [congruence|].
  split.
  { rewrite Hwarn', Hwarn. unfold warnings_at. by rewrite Hd. }
  rewrite (cells_open s' l Hnb'), (cells_open s l Hnb), Hd.
  split; [exact Hexec|]. split; [exact Hrest|].
  intros i Hi. specialize (Hout' Hout). rewrite Hlast', Hi in Hout'. exact Hout'.
Qed.

Lemma execute_cells_by_indices_in_order_witness :
  ∃ result s',
    execute_cells_by_indices [2; 0] three_cells = (Return result, s') ∧
    success result = true ∧ last_index result = Some 0 ∧
    requests s' = [Warmup; ExecuteCell 2; ExecuteCell 0].
Proof.
  destruct (execute_cells_by_indices_in_order three_cells 1%nat 0%nat [2; 0])
    as (result & s' & Hrun & _ & Hsucc & _ & Hlast & Hreq & _).
  - reflexivity.
  - vm_compute; lia.
  - reflexivity.
  - apply NoDup_cons. split.
    + intros Hin. apply elem_of_cons in Hin as [Hin|Hin]; [discriminate Hin|].
      by apply elem_of_nil in Hin.
    + apply NoDup_singleton.
  - constructor; [|constructor; [|constructor]].
    + split; [lia|]. exists (new_code_cell "print(x)").
      split; [vm_compute; reflexivity | reflexivity].
    + split; [lia|]. exists (new_code_cell "x = 1").
      split; [vm_compute; reflexivity | reflexivity].
  - intros p _. reflexivity.
  - exists result, s'.
    split; [exact Hrun|]. split; [exact Hsucc|]. split; [exact Hlast|]. exact Hreq.
Defined.

(** ** Inserting at an index *)

Lemma py_insert_inside {A} i (x : A) (l : list A) :
  0 ≤ i ≤ Z.of_nat (length l) →
  py_insert i x l = take (Z.to_nat i) l ++ x :: drop (Z.to_nat i) l.
Proof. intros Hi. unfold py_insert. by rewrite py_bound_inside. Qed.

Lemma inserted_lookup {A} p (x : A) (l : list A) :
  (p ≤ length l)%nat →
  (take p l ++ x :: drop p l) !! p = Some x ∧
  (∀ j, (j < p)%nat → (take p l ++ x :: drop p l) !! j = l !! j) ∧
  (∀ j, (p ≤ j)%nat → (take p l ++ x :: drop p l) !! S j = l !! j) ∧
  delete p (take p l ++ x :: drop p l) = l.
Proof.
  intros Hp.
  assert (length (take p l) = p) as Hlen by (rewrite length_take; lia).
  split; [|split; [|split]].
  - by apply list_lookup_middle.
  - intros j Hj. rewrite lookup_app_l by lia. by apply lookup_take_lt.
  - intros j Hj. rewrite lookup_app_r by lia. rewrite Hlen.
    replace (S j - p)%nat with (S (j - p)) by lia.
    change ((x :: drop p l) !! S (j - p)) with (drop p l !! (j - p)%nat).
    rewrite lookup_drop. f_equal. lia.
  - rewrite <- Hlen at 1. rewrite delete_middle. apply take_drop.
Qed.

(** The end of [insert_cell]: the list is changed in place, the backup is
    bound to it, and the document is saved. *)
Lemma insert_cell_tail s l f (answer : Session → string) :
  notebook s = Some l → (l < length (heap s))%nat →
  ∃ r s',
    (mutate l f;;
     s1 ← get;
     modify (with_original_cells (notebook s1));;
     save_result ← save_notebook;
     match save_result with
     | Some msg => mret msg
     | None => mret (answer s1)
     end) s = (Return r, s') ∧
    cells s' = f (cells s) ∧ notebook s' = Some l ∧ aliased s' ∧
    length (heap s') = length (heap s) ∧
    requests s' = requests s ∧ client s' = client s ∧ kernel s' = kernel s ∧
    notebook_path s' = notebook_path s ∧ disk_error s' = disk_error s ∧
    match disk_error s (notebook_path s) with
    | None => r = answer (with_heap (alter f l (heap s)) s) ∧
              disk s' = <[notebook_path s := f (cells s)]> (disk s) ∧
              written s' = written s ++ [notebook_path s]
    | Some e => r = "保存笔记本时出错: " +:+ e ∧ disk s' = disk s ∧
                written s' = written s
    end.
Proof.
  intros Hnb Hl. unfold save_notebook. run. fields. rewrite Hnb.
  assert (deref (with_original_cells (Some l) (with_heap (alter f l (heap s)) s)) l
          = f (cells s)) as Hd.
  { rewrite (cells_open s l Hnb).
    change (deref (with_heap (alter f l (heap s)) s) l = f (deref s l)).
    rewrite deref_alter by done. by rewrite decide_True. }
  destruct (disk_error s (notebook_path s)) as [e|] eqn:Hw;
    eexists _, _; (split; [reflexivity|]); unfold aliased; fields;
    rewrite ?length_alter, ?Hd;
    (split; [by rewrite <- Hd; unfold cells; fields; rewrite Hnb|]);
    repeat split; done.
Qed.

Lemma insert_cell_run s l code cell_type index cell :
  notebook s = Some l → (l < length (heap s))%nat →
  new_cell code cell_type = Some cell →
  from_option (λ i, 0 ≤ i ≤ Z.of_nat (length (cells s))) True index →
  let p := place (cells s) index in
  ∃ r s', insert_cell code cell_type index s = (Return r, s') ∧
    cells s' = take p (cells s) ++ cell :: drop p (cells s) ∧
    notebook s' = Some l ∧ length (heap s') = length (heap s) ∧
    aliased s' ∧ requests s' = requests s ∧
    match disk_error s (notebook_path s) with
    | None => r = pretty (Z.of_nat p) ∧
              disk s' = <[notebook_path s :=
                          take p (cells s) ++ cell :: drop p (cells s)]> (disk s)
    | Some e => r = "保存笔记本时出错: " +:+ e ∧ disk s' = disk s
    end.
Proof.
  intros Hnb Hl Hcell Hindex p.
  unfold insert_cell. rewrite run_get, Hnb, Hcell.
  destruct index as [i|]; cbn in Hindex.
  - replace ((i <? 0) || (Z.of_nat (length (deref s l)) <? i)) with false.
    2: { symmetry. rewrite <- (cells_open s l Hnb).
         apply orb_false_iff. rewrite !Z.ltb_ge. lia. }
    destruct (insert_cell_tail s l (py_insert i cell) (λ _, pretty i) Hnb Hl)
      as (r & s' & Hrun & Hc & Hnb' & Hal & Hh & Hreq & _ & _ & _ & _ & Hsave).
    exists r, s'. split; [exact Hrun|].
    rewrite py_insert_inside in Hc, Hsave by done.
    split; [exact Hc|]. split; [exact Hnb'|]. split; [exact Hh|].
    split; [exact Hal|]. split; [exact Hreq|].
    unfold p, place. cbn [from_option].
    destruct (disk_error s (notebook_path s)).
    + destruct Hsave as (-> & -> & _). done.
    + destruct Hsave as (-> & -> & _). by rewrite Z2Nat.id by lia.
  - destruct (insert_cell_tail s l (λ cs, cs ++ [cell])
                (λ s1, pretty (Z.of_nat (length (deref s1 l)) - 1)) Hnb Hl)
      as (r & s' & Hrun & Hc & Hnb' & Hal & Hh & Hreq & _ & _ & _ & _ & Hsave).
    exists r, s'. split; [exact Hrun|].
    unfold p, place. cbn [from_option].
    rewrite take_ge, drop_ge by lia.
    split; [exact Hc|]. split; [exact Hnb'|]. split; [exact Hh|].
    split; [exact Hal|]. split; [exact Hreq|].
    destruct (disk_error s (notebook_path s)).
    + destruct Hsave as (-> & -> & _). done.
    + destruct Hsave as (-> & -> & _). split; [|done].
      rewrite deref_alter by done. rewrite decide_True by done.
      rewrite <- (cells_open s l Hnb), length_app. cbn. f_equal. lia.
Qed.

(** X18: [insert_cell] with a well-formed cell type, at an index within
    [0, len(cells)] or at the end for [None], puts the new cell at that
    position: the cells before it keep their index, those from it on move
    up by one.  The backup is then the notebook's own list, the backend is
    not called, and the answer is the position as text, or the text of a
    failed save. *)
Theorem insert_cell_at_index s l code cell_type index cell :
  notebook s = Some l → (l < length (heap s))%nat →
  new_cell code cell_type = Some cell →
  from_option (λ i, 0 ≤ i ≤ Z.of_nat (length (cells s))) True index →
  let p := place (cells s) index in
  ∃ r s', insert_cell code cell_type index s = (Return r, s') ∧
    cells s' !! p = Some cell ∧
    (∀ j, (j < p)%nat → cells s' !! j = cells s !! j) ∧
    (∀ j, (p ≤ j)%nat → cells s' !! S j = cells s !! j) ∧
    length (cells s') = S (length (cells s)) ∧
    aliased s' ∧ requests s' = requests s ∧
    match disk_error s (notebook_path s) with
    | None => r = pretty (Z.of_nat p) ∧
              disk s' !! notebook_path s = Some (cells s')
    | Some e => r = "保存笔记本时出错: " +:+ e ∧ disk s' = disk s
    end.
Proof.
  intros Hnb Hl Hcell Hindex p.
  assert (p ≤ length (cells s))%nat as Hp.
  { unfold p, place. destruct index as [i|]; cbn in *; lia. }
  destruct (insert_cell_run s l code cell_type index cell Hnb Hl Hcell Hindex)
    as (r & s' & Hrun & Hcells & _ & _ & Hal & Hreq & Hsave).
  fold p in Hcells, Hsave.
  exists r, s'. split; [exact Hrun|]. rewrite Hcells.
  destruct (inserted_lookup p cell (cells s) Hp) as (H1 & H2 & H3 & _).
  split; [done|]. split; [done|]. split; [done|].
  split.
  { rewrite length_app, length_take. cbn [length]. rewrite length_drop. lia. }
  split; [done|]. split; [done|].
  destruct (disk_error s (notebook_path s)).
  - exact Hsave.
  - destruct Hsave as [-> ->]. split; [done|]. apply lookup_insert_eq.
Qed.

Lemma insert_cell_at_index_witness :
  ∃ s', insert_cell "y = 2" "code" (Some 1) three_cells = (Return "1", s') ∧
    cells s' !! 1%nat = Some (new_code_cell "y = 2") ∧
    cells s' !! 2%nat = Some (new_markdown_cell "# notes") ∧
    disk s' !! "work.ipynb" = Some (cells s').
Proof.
  destruct (insert_cell_at_index three_cells 1%nat "y = 2" "code" (Some 1)
              (new_code_cell "y = 2"))
    as (r & s' & Hrun & Hnew & _ & Hshift & _ & _ & _ & Hr & Hdisk).
  - reflexivity.
  - vm_compute; lia.
  - reflexivity.
  - vm_compute; split; discriminate.
  - exists s'. subst r. split; [exact Hrun|]. split; [exact Hnew|].
    split; [exact (Hshift 1%nat (le_n 1))|exact Hdisk].
Defined.

Lemma delete_cell_run s l i :
  notebook s = Some l → 0 ≤ i < Z.of_nat (length (cells s)) →
  delete_cell i s =
  (Return None, with_heap (alter (delete (Z.to_nat i)) l (heap s)) s).
Proof.
  intros Hnb Hi. unfold delete_cell. rewrite run_get, Hnb.
  rewrite <- (cells_open s l Hnb).
  by rewrite (proj2 (out_of_range_false i (cells s)) Hi).
Qed.

(** X19: deleting at the position where [insert_cell] just inserted gives
    the cells back as they were; but [delete_cell] does not save, so the
    file still holds the document with the inserted cell. *)
Theorem insert_then_delete_restores s l code cell_type index cell :
  notebook s = Some l → (l < length (heap s))%nat →
  new_cell code cell_type = Some cell →
  from_option (λ i, 0 ≤ i ≤ Z.of_nat (length (cells s))) True index →
  let p := place (cells s) index in
  ∃ r s1 s2,
    insert_cell code cell_type index s = (Return r, s1) ∧
    delete_cell (Z.of_nat p) s1 = (Return None, s2) ∧
    cells s2 = cells s ∧ disk s2 = disk s1 ∧
    (disk_error s (notebook_path s) = None →
     disk s2 !! notebook_path s = Some (cells s1)).
Proof.
  intros Hnb Hl Hcell Hindex p.
  assert (p ≤ length (cells s))%nat as Hp.
  { unfold p, place. destruct index as [i|]; cbn in *; lia. }
  destruct (insert_cell_run s l code cell_type index cell Hnb Hl Hcell Hindex)
    as (r & s1 & Hrun & Hcells & Hnb1 & Hh1 & _ & _ & Hsave).
  fold p in Hcells, Hsave.
  exists r, s1. eexists. split; [exact Hrun|].
  split.
  { apply (delete_cell_run s1 l); [exact Hnb1|].
    rewrite Hcells, length_app, length_take. cbn [length]. rewrite length_drop. lia. }
  split.
  { rewrite cells_alter by (by rewrite ?Hh1). rewrite Hcells, Nat2Z.id.
    by destruct (inserted_lookup p cell (cells s) Hp) as (_ & _ & _ & ->). }
  split; [reflexivity|]. intros Hw. fields. rewrite Hw in Hsave.
  destruct Hsave as [_ ->]. rewrite Hcells. apply lookup_insert_eq.
Qed.

Lemma insert_then_delete_restores_witness :
  ∃ r s1 s2,
    insert_cell "y = 2" "code" (Some 1) three_cells = (Return r, s1) ∧
    delete_cell 1 s1 = (Return None, s2) ∧
    cells s2 = cells three_cells ∧
    disk s2 !! "work.ipynb" = Some (cells s1).
Proof.
  destruct (insert_then_delete_restores three_cells 1%nat "y = 2" "code" (Some 1)
              (new_code_cell "y = 2"))
    as (r & s1 & s2 & H1 & H2 & Hcells & _ & Hdisk).
  - reflexivity.
  - vm_compute; lia.
  - reflexivity.
  - vm_compute; split; discriminate.
  - exists r, s1, s2. split; [exact H1|]. split; [exact H2|].
    split; [exact Hcells|]. by apply Hdisk.
Defined.

(** ** Inserting and executing at an index *)

Lemma insert_and_execute_cell_run s l k code cell_type index cell :
  notebook s = Some l → (l < length (heap s))%nat → client s = Some k →
  new_cell code cell_type = Some cell →
  from_option (λ i, 0 ≤ i ≤ Z.of_nat (length (cells s))) True index →
  let p := place (cells s) index in
  let r := kernel s (length (requests s)) in
  (cell_type = "code" →
   failure r = None ∨ ∃ m, failure r = Some (CellExecutionError m)) →
  let cell' := if bool_decide (cell_type = "code") then on_cell r cell else cell in
  ∃ s', insert_and_execute_cell code cell_type index s = (Return cell', s') ∧
    cells s' = take p (cells s) ++ cell' :: drop p (cells s) ∧
    requests s' = requests s ++
      (if bool_decide (cell_type = "code") then [ExecuteCell (Z.of_nat p)] else []) ∧
    aliased s' ∧
    match disk_error s (notebook_path s) with
    | None => disk s' !! notebook_path s = Some (cells s')
    | Some _ => disk s' = disk s
    end.
Proof.
  intros Hnb Hl Hcl Hcell Hindex p r Hreply cell'.
  assert (p ≤ length (cells s))%nat as Hp.
  { unfold p, place. destruct index as [i|]; cbn in *; lia. }
  pose proof (cells_open s l Hnb) as Hcs.
  assert (∃ f ci, (f (cells s) = take p (cells s) ++ cell :: drop p (cells s)) ∧
                  ci = Z.of_nat p ∧
                  (match index with
                   | None => mutate l (λ cs, cs ++ [cell]);;
                             mret (length (deref s l), Z.of_nat (length (deref s l)))
                   | Some i => mutate l (py_insert i cell);;
                               mret (py_bound (length (deref s l)) i, i)
                   end) s = (Return (p, ci), with_heap (alter f l (heap s)) s))
    as (f & ci & Hf & -> & Hins).
  { destruct index as [i|]; cbn in Hindex.
    - exists (py_insert i cell), i. split; [by apply py_insert_inside|].
      unfold p, place. cbn [from_option]. split; [lia|].
      run. rewrite <- Hcs. by rewrite py_bound_inside.
    - exists (λ cs, cs ++ [cell]), (Z.of_nat (length (cells s))).
      unfold p, place. cbn [from_option]. split; [by rewrite take_ge, drop_ge|].
      split; [done|]. run. by rewrite <- Hcs. }
  set (s1 := with_heap (alter f l (heap s)) s) in *.
  assert (deref s1 l = take p (cells s) ++ cell :: drop p (cells s)) as Hd1.
  { unfold s1. rewrite deref_alter by done. rewrite decide_True by done.
    by rewrite <- Hcs. }
  assert (l < length (heap s1))%nat as Hl1 by (unfold s1; fields; by rewrite length_alter).
  destruct (inserted_lookup p cell (cells s) Hp) as (Hat & _).
  (* the state after the execution, if any *)
  set (s2 := if bool_decide (cell_type = "code")
             then with_heap (alter (alter (on_cell r) p) l (heap s1))
                    (with_requests (requests s ++ [ExecuteCell (Z.of_nat p)]) s1)
             else s1).
  assert (deref s2 l = take p (cells s) ++ cell' :: drop p (cells s)) as Hd2.
  { unfold s2, cell'. destruct (bool_decide (cell_type = "code")); [|done].
    rewrite deref_alter by done. rewrite decide_True by done. rewrite Hd1.
    assert (length (take p (cells s)) = p) as Hlen by (rewrite length_take; lia).
    rewrite alter_app_r_alt by lia. rewrite Hlen.
    by replace (p - p)%nat with 0%nat by lia. }
  assert (notebook s2 = Some l ∧ notebook_path s2 = notebook_path s ∧
          disk_error s2 = disk_error s ∧ disk s2 = disk s ∧
          (l < length (heap s2))%nat) as (Hnb2 & Hp2 & He2 & Hdk2 & Hl2).
  { unfold s2. destruct (bool_decide (cell_type = "code")); fields;
      rewrite ?length_alter; done. }
  assert ((if bool_decide (cell_type = "code")
           then try_except (execute_cell l p (Z.of_nat p))
                  (λ e, match e with
                        | CellExecutionError _ => mret ()
                        | AssertionError _ =>
                            start_kernel;;
                            try_except (execute_cell l p (Z.of_nat p)) (λ _, mret ())
                        | _ => raise e
                        end)
           else mret ()) s1 = (Return (), s2)) as Hexec.
  { unfold s2. destruct (bool_decide_reflect (cell_type = "code")) as [Hc|Hc]; [|done].
    unfold try_except. rewrite execute_cell_run. cbv zeta.
    change (kernel s1 (length (requests s1))) with r.
    destruct (Hreply Hc) as [-> | [m ->]]; reflexivity. }
  set (s3 := with_original_cells (Some l) s2).
  assert (notebook s3 = Some l) as Hnb3 by exact Hnb2.
  assert (cells s3 = take p (cells s) ++ cell' :: drop p (cells s)) as Hc3.
  { rewrite (cells_open s3 l Hnb3). exact Hd2. }
  assert (requests s3 = requests s ++
            (if bool_decide (cell_type = "code") then [ExecuteCell (Z.of_nat p)] else []))
    as Hreq3.
  { unfold s3, s2. destruct (bool_decide (cell_type = "code")); fields;
      by rewrite ?app_nil_r. }
  assert (∃ a s4, save_notebook s3 = (Return a, s4) ∧ cells s4 = cells s3 ∧
            notebook s4 = Some l ∧ heap s4 = heap s3 ∧ requests s4 = requests s3 ∧
            aliased s4 ∧
            match disk_error s (notebook_path s) with
            | None => disk s4 !! notebook_path s = Some (cells s4)
            | Some _ => disk s4 = disk s
            end) as (a & s4 & Hsave & Hc4 & Hnb4 & Hh4 & Hreq4 & Hal4 & Hdisk).
  { destruct (save_notebook s3) as [a s4] eqn:Hsave.
    destruct (save_notebook_cells _ _ _ Hsave) as (Hh & Hn & Hr & Ho & _).
    assert (cells s4 = cells s3) as Hc by (unfold cells, deref; by rewrite Hn, Hh).
    destruct (save_notebook_run s3 l Hnb3)
      as [(s4' & Hsave' & Hw & Hd & _)|(msg & Hsave')];
      rewrite Hsave' in Hsave; injection Hsave as <- <-.
    - eexists _, _. split; [reflexivity|]. rewrite Hn.
      split; [done|]. split; [done|]. split; [done|]. split; [done|].
      split; [unfold aliased; by rewrite Ho, Hn, Hnb3|].
      assert (disk_error s (notebook_path s) = None) as ->.
      { revert Hsave'. unfold save_notebook. run. rewrite Hnb3.
        change (disk_error s3) with (disk_error s2).
        change (notebook_path s3) with (notebook_path s2). rewrite He2, Hp2.
        by destruct (disk_error s (notebook_path s)). }
      rewrite Hd, Hc. change (notebook_path s3) with (notebook_path s2).
      rewrite Hp2. apply lookup_insert_eq.
    - eexists _, _. split; [reflexivity|].
      split; [done|]. split; [done|]. split; [done|]. split; [done|].
      split; [unfold aliased; by rewrite Hnb3|].
      assert (∃ e, disk_error s (notebook_path s) = Some e) as [e ->]; [|exact Hdk2].
      revert Hsave'. unfold save_notebook. run. rewrite Hnb3.
      change (disk_error s3) with (disk_error s2).
      change (notebook_path s3) with (notebook_path s2). rewrite He2, Hp2.
      destruct (disk_error s (notebook_path s)); [by eauto | discriminate]. }
  exists s4. split.
  { unfold insert_and_execute_cell. rewrite run_get, Hnb, Hcl.
    erewrite run_bind_return by reflexivity. rewrite Hcell.
    erewrite (run_bind_return notebook_cells)
      by (unfold notebook_cells; rewrite run_get, Hnb; reflexivity).
    rewrite run_get.
    erewrite run_bind_return by exact Hins. cbv beta iota.
    erewrite run_bind_return by exact Hexec.
    rewrite run_get. rewrite run_bind. unfold modify at 1. cbv beta iota.
    rewrite Hnb2. fold s3.
    erewrite run_bind_return by exact Hsave.
    rewrite run_get. unfold cell_at.
    rewrite <- (cells_open s4 l Hnb4), Hc4, Hc3, Nat2Z.id.
    assert (length (take p (cells s)) = p) as Hlen by (rewrite length_take; lia).
    by rewrite list_lookup_middle. }
  rewrite Hc4, Hreq4. split; [exact Hc3|]. split; [exact Hreq3|].
  split; [exact Hal4|].
  destruct (disk_error s (notebook_path s)); [exact Hdisk|].
  by rewrite <- Hc4.
Qed.

(** X20: [insert_and_execute_cell] at an index within [0, len(cells)], or
    at the end for [None], places the new cell as [insert_cell] does, runs
    it when it is a code cell (one request; no request otherwise), returns
    the cell as the run left it, and saves the document.  An error raised by
    the cell's own code does not change this. *)
Theorem insert_and_execute_cell_inserts_and_saves s l k code cell_type index cell :
  notebook s = Some l → (l < length (heap s))%nat → client s = Some k →
  new_cell code cell_type = Some cell →
  from_option (λ i, 0 ≤ i ≤ Z.of_nat (length (cells s))) True index →
  let p := place (cells s) index in
  let r := kernel s (length (requests s)) in
  (cell_type = "code" →
   failure r = None ∨ ∃ m, failure r = Some (CellExecutionError m)) →
  let cell' := if bool_decide (cell_type = "code") then on_cell r cell else cell in
  ∃ s', insert_and_execute_cell code cell_type index s = (Return cell', s') ∧
    cells s' !! p = Some cell' ∧
    (∀ j, (j < p)%nat → cells s' !! j = cells s !! j) ∧
    (∀ j, (p ≤ j)%nat → cells s' !! S j = cells s !! j) ∧
    requests s' = requests s ++
      (if bool_decide (cell_type = "code") then [ExecuteCell (Z.of_nat p)] else []) ∧
    aliased s' ∧
    match disk_error s (notebook_path s) with
    | None => disk s' !! notebook_path s = Some (cells s')
    | Some _ => disk s' = disk s
    end.
Proof.
  intros Hnb Hl Hcl Hcell Hindex p r Hreply cell'.
  assert (p ≤ length (cells s))%nat as Hp.
  { unfold p, place. destruct index as [i|]; cbn in *; lia. }
  destruct (insert_and_execute_cell_run s l k code cell_type index cell
              Hnb Hl Hcl Hcell Hindex Hreply)
    as (s' & Hrun & Hcells & Hreq & Hal & Hdisk).
  fold p r in Hcells, Hreq, Hrun. fold cell' in Hcells, Hrun.
  exists s'. split; [exact Hrun|]. rewrite Hcells.
  destruct (inserted_lookup p cell' (cells s) Hp) as (H1 & H2 & H3 & _).
  split; [exact H1|]. split; [exact H2|]. split; [exact H3|].
  split; [exact Hreq|]. split; [exact Hal|].
  rewrite <- Hcells. exact Hdisk.
Qed.

Lemma insert_and_execute_cell_inserts_and_saves_witness :
  ∃ s', insert_and_execute_cell "y = 2" "code" (Some 1) three_cells
          = (Return (new_code_cell "y = 2"), s') ∧
    cells s' !! 1%nat = Some (new_code_cell "y = 2") ∧
    requests s' = [Warmup; ExecuteCell 1] ∧
    disk s' !! "work.ipynb" = Some (cells s').
Proof.
  destruct (insert_and_execute_cell_inserts_and_saves three_cells 1%nat 0%nat
              "y = 2" "code" (Some 1) (new_code_cell "y = 2"))
    as (s' & Hrun & Hnew & _ & _ & Hreq & _ & Hdisk).
  - reflexivity.
  - vm_compute; lia.
  - reflexivity.
  - reflexivity.
  - vm_compute; split; discriminate.
  - intros _. by left.
  - by exists s'.
Defined.

(** ** A bring-up that fails *)

(** X21: when the warm-up run of [start_kernel] raises, the error is
    passed on and the cells are not put back: the notebook is left with an
    empty cell list, the former cells only in the backup.  In that state
    every [run_cell] raises an out-of-range [ValueError], and a
    [save_notebook] writes an empty document over the file. *)
Theorem start_kernel_failure_empties_document s l e :
  notebook s = Some l →
  failure (kernel s (length (requests s ++ teardown s))) = Some e →
  ∃ s', start_kernel s = (Raise e, s') ∧
    cells s' = [] ∧ is_Some (client s') ∧
    requests s' = requests s ++ teardown s ++ [Warmup] ∧
    original_cells s' = Some (default l (original_cells s)) ∧
    unwritten s s' ∧
    (∀ i, run_cell i s' =
          (Raise (ValueError ("单元格索引超出范围: " +:+ pretty i)), s')) ∧
    (disk_error s (notebook_path s) = None →
     ∃ s'', save_notebook s' = (Return None, s'') ∧
       disk s'' !! notebook_path s = Some []).
Proof.
  intros Hnb Hfail. rewrite (start_kernel_run s l Hnb), Hfail.
  eexists. split; [reflexivity|].
  pose proof (cells_stranded s l) as Hcells.
  assert (notebook (stranded s l) = Some (length (heap s))) as Hnb' by reflexivity.
  split; [exact Hcells|]. split; [by eexists|].
  split; [unfold stranded, restarted; fields; by rewrite app_assoc|].
  split; [reflexivity|]. split; [by repeat split|]. split.
  - intros i. unfold run_cell. rewrite run_get, Hnb'.
    rewrite <- (cells_open _ _ Hnb'), Hcells.
    assert (out_of_range i [] = true) as ->; [|reflexivity].
    unfold out_of_range. cbn [length]. 
    destruct (Z.ltb_spec i 0), (Z.leb_spec (Z.of_nat 0) i); try done; lia.
  - intros Hw.
    destruct (save_notebook_run (stranded s l) _ Hnb')
      as [(s'' & Hsave & _ & Hd & _)|(msg & Hsave)].
    + exists s''. split; [exact Hsave|]. rewrite Hd, Hcells.
      apply lookup_insert_eq.
    + revert Hsave. unfold save_notebook. run. rewrite Hnb'.
      change (disk_error (stranded s l) (notebook_path (stranded s l)))
        with (disk_error s (notebook_path s)).
      by rewrite Hw.
Qed.

Lemma start_kernel_failure_empties_document_witness :
  ∃ s' s'', start_kernel dying = (Raise (OtherError "Kernel died"), s') ∧
    cells dying = [new_code_cell "x = 1"] ∧ cells s' = [] ∧
    save_notebook s' = (Return None, s'') ∧
    disk s'' !! "work.ipynb" = Some [].
Proof.
  destruct (start_kernel_failure_empties_document dying 1%nat
              (OtherError "Kernel died"))
    as (s' & Hrun & Hcells & _ & _ & _ & _ & _ & Hsave).
  - reflexivity.
  - reflexivity.
  - destruct (Hsave eq_refl) as (s'' & Hsave' & Hdisk).
    exists s', s''. split; [exact Hrun|]. split; [vm_compute; reflexivity|].
    by split.
Defined.

(** ** Reading text output in pages *)

(** The text a code cell with outputs answers with. *)
Lemma get_cell_text_output_code s l i c outs a b :
  notebook s = Some l → 0 ≤ i → cells s !! Z.to_nat i = Some c →
  cell_type c = "code" → outputs c = Some outs →
  let text := text_output outs in
  let full_length := Z.of_nat (String.length text) in
  let start_index := if a <? 0 then 0 else a in
  get_cell_text_output i a b s =
  (Return (("总长度: " +:+ pretty full_length +:+ nl) +:+
           (if full_length <=? start_index then ""
            else match b with
                 | None => py_slice text start_index None
                 | Some n => py_slice text start_index (Some (start_index + n))
                 end)), s).
Proof.
  intros Hnb Hi Hc Hcode Houts text full_length start_index.
  rewrite (cells_open s l Hnb) in Hc.
  unfold get_cell_text_output. rewrite run_get, Hnb.
  assert (out_of_range i (deref s l) = false) as ->.
  { apply out_of_range_false. apply lookup_lt_Some in Hc. lia. }
  unfold cell_at. rewrite Hc. erewrite run_bind_return by reflexivity.
  unfold is_code. rewrite bool_decide_eq_true_2 by done. rewrite Houts.
  cbv zeta. fold text. fold full_length. fold start_index.
  by rewrite <- !append_assoc.
Qed.

(** X22: the text output of a code cell can be read in pages.  After the
    same header line, the page of length [n] at offset [a] followed by
    what is read from offset [a + n] on is what is read from [a] on; a
    page is at most [n] characters long; and from offset 0 the pieces make
    up the whole text output. *)
Theorem get_cell_text_output_pages s l i c outs a n :
  notebook s = Some l → 0 ≤ i → cells s !! Z.to_nat i = Some c →
  cell_type c = "code" → outputs c = Some outs →
  0 ≤ a → 0 ≤ n →
  ∃ header page rest,
    get_cell_text_output i a (Some n) s = (Return (header +:+ page), s) ∧
    get_cell_text_output i (a + n) None s = (Return (header +:+ rest), s) ∧
    get_cell_text_output i a None s = (Return (header +:+ page +:+ rest), s) ∧
    (String.length page ≤ Z.to_nat n)%nat ∧
    (a = 0 → page +:+ rest = text_output outs).
Proof.
  intros Hnb Hi Hc Hcode Houts Ha Hn.
  rewrite !(get_cell_text_output_code s l i c outs) by done. cbv zeta.
  set (text := text_output outs).
  assert ((a <? 0) = false) as -> by lia.
  assert ((a + n <? 0) = false) as -> by lia.
  eexists _, _, _. split; [reflexivity|]. split; [reflexivity|].
  assert ((if Z.of_nat (String.length text) <=? a then ""
           else py_slice text a (Some (a + n))) =
          String.substring (Z.to_nat a) (Z.to_nat n) text) as ->.
  { destruct (Z.leb_spec (Z.of_nat (String.length text)) a).
    - by rewrite substring_past_end by lia.
    - by apply py_slice_window. }
  assert ((if Z.of_nat (String.length text) <=? a + n then ""
           else py_slice text (a + n) None) =
          String.substring (Z.to_nat a + Z.to_nat n)
            (String.length text - Z.to_nat a - Z.to_nat n) text) as ->.
  { destruct (Z.leb_spec (Z.of_nat (String.length text)) (a + n)).
    - by rewrite substring_past_end by lia.
    - rewrite py_slice_rest by lia. f_equal; lia. }
  assert ((if Z.of_nat (String.length text) <=? a then ""
           else py_slice text a None) =
          String.substring (Z.to_nat a) (String.length text - Z.to_nat a) text) as Hall.
  { destruct (Z.leb_spec (Z.of_nat (String.length text)) a).
    - by rewrite substring_past_end by lia.
    - apply py_slice_rest. lia. }
  rewrite Hall.
  assert (String.substring (Z.to_nat a) (String.length text - Z.to_nat a) text =
          String.substring (Z.to_nat a) (Z.to_nat n) text +:+
          String.substring (Z.to_nat a + Z.to_nat n)
            (String.length text - Z.to_nat a - Z.to_nat n) text) as Hsplit.
  { rewrite <- substring_split.
    rewrite <- (substring_clip text (Z.to_nat a)
                  (Z.to_nat n + (String.length text - Z.to_nat a - Z.to_nat n))).
    f_equal. lia. }
  split; [by rewrite Hsplit|].
  split; [apply length_substring_le|].
  intros ->. rewrite <- Hsplit. cbn [Z.to_nat]. rewrite Nat.sub_0_r.
  apply substring_all.
Qed.

Lemma get_cell_text_output_pages_witness :
  ∃ header page rest,
    get_cell_text_output 0 3 (Some 4) printed = (Return (header +:+ page), printed) ∧
    get_cell_text_output 0 7 None printed = (Return (header +:+ rest), printed) ∧
    get_cell_text_output 0 3 None printed
      = (Return (header +:+ page +:+ rest), printed) ∧
    (String.length page ≤ 4)%nat.
Proof.
  destruct (get_cell_text_output_pages printed 1%nat 0
              (set_outputs (Some [Stream "stdout" "abcdefg";
                                  ExecuteResult {[ "text/plain" := "hij" ]}])
                 (new_code_cell "print('abcdefg'); 'hij'"))
              [Stream "stdout" "abcdefg"; ExecuteResult {[ "text/plain" := "hij" ]}]
              3 4)
    as (header & page & rest & H1 & H2 & H3 & Hlen & _).
  - reflexivity.
  - lia.
  - vm_compute; reflexivity.
  - reflexivity.
  - reflexivity.
  - lia.
  - lia.
  - exists header, page, rest.
    split; [exact H1|]. split; [exact H2|]. split; [exact H3|]. exact Hlen.
Defined.

(** ** Constructing with initial code *)

(** X23: constructing with [isnew = True] and a non-empty [init_code],
    over a backend whose warm-up run completes and whose next run
    completes or fails in the code itself, leaves a notebook whose only
    cell is the executed [init_code] at index 0, after exactly two
    requests, and written to the path when storage takes it. *)
Theorem construction_runs_init_code env path init_code s :
  init_code ≠ "" →
  failure (kernel s (length (requests s))) = None →
  let r := kernel s (S (length (requests s))) in
  (failure r = None ∨ ∃ m, failure r = Some (CellExecutionError m)) →
  ∃ s', __init__ env path init_code true s = (Return tt, s') ∧
    cells s' = [on_cell r (new_code_cell init_code)] ∧
    requests s' = requests s ++ [Warmup; ExecuteCell 0] ∧
    disk s' !! path =
      match disk_error s path with
      | None => Some (cells s')
      | Some _ => None
      end.
Proof.
  intros Hcode Hwarm r Hreply. rewrite __init___run. cbv zeta.
  rewrite bool_decide_eq_false_2 by done. cbn [negb].
  set (s0 := with_disk _ _).
  rewrite run_bind.
  rewrite (open_notebook_new path s0) by (try apply lookup_delete_eq; reflexivity).
  rewrite (start_kernel_run _ (length (heap s))) by reflexivity.
  change (teardown (opened_new path s0)) with (@nil Request).
  rewrite app_nil_r.
  change (kernel (opened_new path s0) (length (requests (opened_new path s0))))
    with (kernel s (length (requests s))).
  rewrite Hwarm.
  set (s1 := restarted (opened_new path s0) (length (heap s))).
  pose proof (cells_restarted_new path s0 : cells s1 = []) as Hcells1.
  assert (length (requests s1) = S (length (requests s))) as Hlen1.
  { unfold s1, restarted. fields. change (teardown _) with (@nil Request).
    rewrite app_nil_r, length_app. cbn. lia. }
  destruct (insert_and_execute_cell_run s1 (S (length (heap s)))
              (length (requests s)) init_code "code" (Some 0)
              (new_code_cell init_code))
    as (s' & Hrun & Hc & Hreq & _ & Hdisk).
  { reflexivity. }
  { unfold s1, restarted, opened_new. fields. rewrite !length_app. cbn. lia. }
  { unfold s1, restarted. fields. change (teardown _) with (@nil Request).
    by rewrite app_nil_r. }
  { reflexivity. }
  { cbn [from_option]. rewrite Hcells1. cbn. lia. }
  { intros _. rewrite Hlen1. exact Hreply. }
  unfold place in Hrun, Hc, Hreq. cbn [from_option] in Hrun, Hc, Hreq.
  rewrite Hlen1 in Hrun, Hc. rewrite Hcells1 in Hc.
  change (kernel s1) with (kernel s) in Hrun, Hc.
  rewrite bool_decide_eq_true_2 in Hrun, Hc, Hreq by done.
  fold r in Hrun, Hc.
  change (Z.to_nat 0) with 0%nat in Hc, Hreq.
  cbn [Z.of_nat take drop app] in Hc, Hreq.
  exists s'. split.
  { erewrite run_bind_return by exact Hrun. reflexivity. }
  split; [exact Hc|]. split.
  { rewrite Hreq. unfold s1, restarted. fields.
    change (teardown _) with (@nil Request). rewrite app_nil_r.
    by rewrite <- app_assoc. }
  change (notebook_path s1) with path in Hdisk.
  change (disk_error s1) with (disk_error s) in Hdisk.
  destruct (disk_error s path) eqn:Hw; [|exact Hdisk].
  rewrite Hdisk. unfold s1, restarted, opened_new. fields.
  change (disk_error s0) with (disk_error s). rewrite Hw.
  apply lookup_delete_eq.
Qed.

Lemma construction_runs_init_code_witness :
  ∃ s', __init__ None "work.ipynb" "import os" true (world (λ _, quiet) ∅)
          = (Return tt, s') ∧
    cells s' = [new_code_cell "import os"] ∧
    requests s' = [Warmup; ExecuteCell 0] ∧
    disk s' !! "work.ipynb" = Some [new_code_cell "import os"].
Proof.
  destruct (construction_runs_init_code None "work.ipynb" "import os"
              (world (λ _, quiet) ∅))
    as (s' & Hrun & Hcells & Hreq & Hdisk).
  - discriminate.
  - reflexivity.
  - by left.
  - exists s'. split; [exact Hrun|]. split; [exact Hcells|].
    split; [exact Hreq|]. rewrite Hdisk. cbn. by rewrite Hcells.
Defined.

(** ** Fenced blocks (utils.py) *)

Lemma paser_block_found type content start_idx end_idx :
  String.index 0 ("```" +:+ type +:+ nl) content = Some start_idx →
  String.index (start_idx + String.length ("```" +:+ type +:+ nl)) "```" content
    = Some end_idx →
  paser_block type content =
  String.substring (start_idx + String.length ("```" +:+ type +:+ nl))
    (end_idx - (start_idx + String.length ("```" +:+ type +:+ nl))) content.
Proof.
  intros Hs He. unfold paser_block. cbv zeta. rewrite Hs, He.
  pose proof (index_in_range _ _ _ _ He) as [Hlo Hhi].
  unfold py_slice. cbn [from_option].
  rewrite !py_bound_inside by lia. by rewrite !Nat2Z.id.
Qed.

(** X24: [paser_block] recovers a fenced block: from a text made of a
    lead-in, the opening marker of the type asked for, a body, a closing
    fence and anything after it, it returns the body, when neither the
    lead-in nor the body holds a backquote. *)
Theorem paser_block_round_trip type pre body post :
  lacks "`"%char pre = true → lacks "`"%char body = true →
  paser_block type
    (pre +:+ ("```" +:+ type +:+ nl) +:+ body +:+ "```" +:+ post) = body.
Proof.
  intros Hpre Hbody.
  set (marker := "```" +:+ type +:+ nl).
  set (content := pre +:+ marker +:+ body +:+ "```" +:+ post).
  assert (String.index 0 marker content = Some (String.length pre)) as Hs.
  { unfold content, marker.
    change ("```" +:+ type +:+ nl) with (String "`"%char ("``" +:+ type +:+ nl)).
    rewrite (append_assoc (String _ _)).
    by apply index_behind. }
  assert (content = (pre +:+ marker) +:+ body +:+ "```" +:+ post) as Hc.
  { unfold content. by rewrite !append_assoc. }
  assert (String.index (String.length pre + String.length marker) "```" content
          = Some (String.length pre + String.length marker + String.length body)%nat)
    as He.
  { rewrite Hc at 1. rewrite <- length_append, index_skip.
    change "```" with (String "`"%char "``") at 1.
    change ("```" +:+ post) with (String "`"%char "``" +:+ post).
    by rewrite index_behind. }
  rewrite (paser_block_found _ _ _ _ Hs He).
  fold marker. rewrite Hc at 1. rewrite <- length_append, substring_skip.
  replace (_ - _)%nat with (String.length body) by lia.
  apply substring_head.
Qed.

Lemma paser_block_round_trip_witness :
  paser_block "python"
    ("Run this: ```python" +:+ nl +:+ "print(1)" +:+ nl +:+
     "``` and then ```sh" +:+ nl +:+ "ls" +:+ nl +:+ "```")
  = "print(1)" +:+ nl.
Proof.
  apply (paser_block_round_trip "python" "Run this: " ("print(1)" +:+ nl)
           (" and then ```sh" +:+ nl +:+ "ls" +:+ nl +:+ "```")); reflexivity.
Defined.

(** X25: a block that is opened and never closed yields the empty text. *)
Theorem paser_block_unterminated type pre body :
  lacks "`"%char pre = true → lacks "`"%char body = true →
  paser_block type (pre +:+ ("```" +:+ type +:+ nl) +:+ body) = "".
Proof.
  intros Hpre Hbody.
  set (marker := "```" +:+ type +:+ nl).
  assert (String.index 0 marker (pre +:+ marker +:+ body) = Some (String.length pre))
    as Hs.
  { unfold marker.
    change ("```" +:+ type +:+ nl) with (String "`"%char ("``" +:+ type +:+ nl)).
    by apply index_behind. }
  unfold paser_block. cbv zeta. fold marker. rewrite Hs.
  rewrite (append_assoc pre), <- length_append, index_skip.
  change "```" with (String "`"%char "``").
  by rewrite index_lacking.
Qed.

Lemma paser_block_unterminated_witness :
  paser_block "python" ("Run this: ```python" +:+ nl +:+ "print(1)") = "".
Proof.
  apply (paser_block_unterminated "python" "Run this: " "print(1)"); reflexivity.
Defined.

(** X26: for every type and content, what [paser_block] returns holds no
    fence; and when it is not empty, the content reads: something, the
    opening marker, the result, a fence, something. *)
Theorem paser_block_between_markers type content :
  String.index 0 "```" (paser_block type content) = None ∧
  (paser_block type content = "" ∨
   ∃ pre post,
     content = pre +:+ ("```" +:+ type +:+ nl) +:+ paser_block type content
                   +:+ "```" +:+ post).
Proof.
  set (marker := "```" +:+ type +:+ nl).
  destruct (String.index 0 marker content) as [start_idx|] eqn:Hs;
    [|unfold paser_block; cbv zeta; fold marker; rewrite Hs; by split; [|left]].
  destruct (String.index (start_idx + String.length marker) "```" content)
    as [end_idx|] eqn:He;
    [|unfold paser_block; cbv zeta; fold marker; rewrite Hs, He; by split; [|left]].
  rewrite (paser_block_found _ _ _ _ Hs He). fold marker.
  set (start_code := (start_idx + String.length marker)%nat) in *.
  pose proof (index_in_range _ _ _ _ He) as [Hlo Hhi].
  split.
  - destruct (String.index 0 "```"
                (String.substring start_code (end_idx - start_code) content))
      as [m|] eqn:Hm; [exfalso|done].
    pose proof (String.index_correct1 _ _ _ _ Hm) as Hat.
    assert (m + 3 ≤ end_idx - start_code)%nat as Hfit.
    { pose proof (length_substring_fits _ m 3 ltac:(lia) (f_equal String.length Hat)).
      pose proof (length_substring_le content start_code (end_idx - start_code)).
      lia. }
    change (String.length "```") with 3%nat in Hat.
    rewrite substring_substring in Hat by exact Hfit.
    apply (String.index_correct2 _ _ _ _ He (start_code + m)%nat); [lia|lia|exact Hat].
  - right.
    pose proof (String.index_correct1 _ _ _ _ Hs) as Hmarker.
    pose proof (String.index_correct1 _ _ _ _ He) as Hfence.
    assert (end_idx + 3 ≤ String.length content)%nat as Hfit.
    { apply length_substring_fits; [lia|]. exact (f_equal String.length Hfence). }
    assert (content =
            String.substring 0 start_idx content +:+
            String.substring start_idx (String.length marker) content +:+
            String.substring start_code (end_idx - start_code) content +:+
            String.substring end_idx 3 content +:+
            String.substring (end_idx + 3)
              (String.length content - (end_idx + 3)) content) as Hsplit.
    { rewrite <- (substring_all content) at 1.
      replace (String.length content)
        with (start_idx + (String.length marker + ((end_idx - start_code) +
                (3 + (String.length content - (end_idx + 3))))))%nat at 1 by lia.
      rewrite !substring_split. cbn [Nat.add]. fold start_code.
      by replace (start_code + (end_idx - start_code))%nat with end_idx by lia. }
    change (String.length "```") with 3%nat in Hfence.
    rewrite Hmarker, Hfence in Hsplit.
    by eexists _, _.
Qed.
